(** * Wow-and-flutter meter: a shallow embedding of [flutter_meter.c] and
      [filters.c], with the properties of its measurement pipeline, and of
      the sample loop of the test program [main.c].

    The C program keeps its state in file-scope statics.  Here that state is
    one record [Meter], threaded explicitly through [flutterMeter_init],
    [process_samples] and [get_results].

    Conventions of the embedding:
    - a C [int] is a [Z] in the range [INT_MIN .. INT_MAX]; arithmetic that
      could leave the range is written with [wrap_int] (two's complement),
      counters that provably stay small are plain [Z];
    - a C [short] is obtained from an [int] with [to_short] (the low 16 bits,
      sign extended, as gcc converts);
    - a C [double] is a primitive binary64 [float]; every operation rounds to
      nearest-even, one C operation is one float operation, in source order
      (the arithmetic of x86-64: no wider intermediate results, no fused
      multiply-add);
    - a conversion [(int) d] truncates toward zero ([double_to_int]);
    - a static array is a [list float] of the array's length;
    - the caller's sample array is a [list Z]; a read past its end, which is
      undefined in C, yields 0. *)

From Stdlib Require Import ZArith QArith Qround List Bool Lia Floats.
Import ListNotations.

Set Warnings "-inexact-float".
Local Open Scope Z_scope.

(* ================================================================== *)
(** ** Machine integers *)

Definition INT_MIN : Z := -2147483648.
Definition INT_MAX : Z := 2147483647.

Definition in_int (z : Z) : Prop := INT_MIN <= z <= INT_MAX.

(** Two's-complement reduction to 32 bits. *)
Definition wrap_int (z : Z) : Z := (z + 2147483648) mod 4294967296 - 2147483648.

(** [short sample = samples[i];] keeps the low 16 bits, sign extended. *)
Definition to_short (z : Z) : Z := (z + 32768) mod 65536 - 32768.

(* ================================================================== *)
(** ** Doubles *)

(** A value outside the range of [int] (undefined in C) is turned into
    [INT_MIN], the result of the x86 conversion instruction. *)
Definition clamp_int (z : Z) : Z :=
  if (INT_MIN <=? z) && (z <=? INT_MAX) then z else INT_MIN.

(** [(int) d]: truncation toward zero; infinities and NaN give [INT_MIN]
    like the values out of range. *)
Definition double_to_int (d : float) : Z :=
  match Prim2SF d with
  | S754_zero _ => 0
  | S754_finite s m e =>
      let v := if 0 <=? e then Zpos m * 2 ^ e else Zpos m / 2 ^ (- e) in
      clamp_int (if s then - v else v)
  | _ => INT_MIN
  end.

(** [(double) i] for a 32-bit [i]; exact. *)
Definition int_to_double (z : Z) : float :=
  if z <? 0 then (- of_uint63 (Uint63.of_Z (- z)))%float
  else of_uint63 (Uint63.of_Z z).

(** [fabs] *)
Definition fabs (d : float) : float := abs d.

(* ================================================================== *)
(** ** Static arrays *)

Definition rd (b : list float) (i : nat) : float := nth i b 0%float.

(** [b[i] = v]; the index is always inside the array in this program. *)
Fixpoint wr (b : list float) (i : nat) (v : float) : list float :=
  match b, i with
  | [], _ => []
  | _ :: t, O => v :: t
  | h :: t, S j => h :: wr t j v
  end.

(** [memmove(b, b + 1, n * sizeof(double))]: cells [0 .. n-1] take the
    values of cells [1 .. n]; the cells from [n] on keep theirs. *)
Definition memmove_left (n : nat) (b : list float) : list float :=
  firstn n (tl b) ++ skipn n b.

Definition zeros (n : nat) : list float := repeat 0%float n.

(* ================================================================== *)
(** ** filters.c *)

Record Filters := mkFilters {
  buf2nd_order : list float;   (* double[4] *)
  buf_din      : list float;   (* double[8] *)
  buf_unw      : list float;   (* double[8] *)
  buf_wow      : list float;   (* double[8] *)
  buf_flutter  : list float    (* double[8] *)
}.

Definition reset_filters : Filters :=
  mkFilters (zeros 4) (zeros 8) (zeros 8) (zeros 8) (zeros 8).

Section FilterCode.
Local Open Scope float_scope.

Definition process_2nd_order (buf : list float) (val : float)
  : list float * float :=
  let tmp := rd buf 0 in
  let buf := memmove_left 3 buf in
  let iir := val * 0.001207405190260069 in
  let iir := iir - 0.9483625336008361 * tmp in
  let fir := tmp in
  let iir := iir - (- 1.73410899821474) * rd buf 0 in
  let fir := fir + (- rd buf 0 - rd buf 0) in
  let fir := fir + iir in
  let tmp := rd buf 1 in
  let buf := wr buf 1 iir in
  let val := fir in
  let iir := val in
  let iir := iir - 0.9533938855978508 * tmp in
  let fir := tmp in
  let iir := iir - (- 1.781298800713404) * rd buf 2 in
  let fir := fir + (rd buf 2 + rd buf 2) in
  let fir := fir + iir in
  let buf := wr buf 3 iir in
  let val := fir in
  (buf, val).

Definition process_DIN (buf : list float) (val : float)
  : list float * float :=
  let tmp := rd buf 0 in
  let buf := memmove_left 7 buf in
  let iir := val * 9.886712475608222e-007 in
  let iir := iir - 0.9718381574433894 * tmp in
  let fir := tmp in
  let iir := iir - (- 1.971551266567659) * rd buf 0 in
  let fir := fir + (- rd buf 0 - rd buf 0) in
  let fir := fir + iir in
  let tmp := rd buf 1 in
  let buf := wr buf 1 iir in
  let val := fir in
  let iir := val in
  let iir := iir - 0.9982440100378892 * tmp in
  let fir := tmp in
  let iir := iir - (- 1.998242909436813) * rd buf 2 in
  let fir := fir + (rd buf 2 + rd buf 2) in
  let fir := fir + iir in
  let tmp := rd buf 3 in
  let buf := wr buf 3 iir in
  let val := fir in
  let iir := val in
  let iir := iir - 0.6434545131997782 * tmp in
  let fir := tmp in
  let iir := iir - (- 1.591050960239724) * rd buf 4 in
  let fir := fir + (rd buf 4 + rd buf 4) in
  let fir := fir + iir in
  let tmp := rd buf 5 in
  let buf := wr buf 5 iir in
  let val := fir in
  let iir := val in
  let iir := iir - 0.9997284329050403 * tmp in
  let fir := tmp in
  let iir := iir - (- 1.999728408318806) * rd buf 6 in
  let fir := fir + (- rd buf 6 - rd buf 6) in
  let fir := fir + iir in
  let buf := wr buf 7 iir in
  let val := fir in
  (buf, val).

Definition process_unweighted (buf : list float) (val : float)
  : list float * float :=
  let tmp := rd buf 0 in
  let buf := memmove_left 7 buf in
  let iir := val * 0.0003306520826380572 in
  let iir := iir - 0.6753463035083248 * tmp in
  let fir := tmp in
  let iir := iir - (- 1.591483463373453) * rd buf 0 in
  let fir := fir + (- rd buf 0 - rd buf 0) in
  let fir := fir + iir in
  let tmp := rd buf 1 in
  let buf := wr buf 1 iir in
  let val := fir in
  let iir := val in
  let iir := iir - 0.9997682212465883 * tmp in
  let fir := tmp in
  let iir := iir - (- 1.999768186333123) * rd buf 2 in
  let fir := fir + (- rd buf 2 - rd buf 2) in
  let fir := fir + iir in
  let tmp := rd buf 3 in
  let buf := wr buf 3 iir in
  let val := fir in
  let iir := val in
  let iir := iir - 0.5771462662841257 * tmp in
  let fir := tmp in
  let iir := iir - (- 1.514102287557188) * rd buf 4 in
  let fir := fir + (rd buf 4 + rd buf 4) in
  let fir := fir + iir in
  let tmp := rd buf 5 in
  let buf := wr buf 5 iir in
  let val := fir in
  let iir := val in
  let iir := iir - 0.9995984565721876 * tmp in
  let fir := tmp in
  let iir := iir - (- 1.999598412629212) * rd buf 6 in
  let fir := fir + (rd buf 6 + rd buf 6) in
  let fir := fir + iir in
  let buf := wr buf 7 iir in
  let val := fir in
  (buf, val).

Definition process_wow (buf : list float) (val : float)
  : list float * float :=
  let tmp := rd buf 0 in
  let buf := memmove_left 7 buf in
  let iir := val * 3.386435216458736e-010 in
  let iir := iir - 0.9889822559361133 * tmp in
  let fir := tmp in
  let iir := iir - (- 1.988898714745282) * rd buf 0 in
  let fir := fir + (- rd buf 0 - rd buf 0) in
  let fir := fir + iir in
  let tmp := rd buf 1 in
  let buf := wr buf 1 iir in
  let val := fir in
  let iir := val in
  let iir := iir - 0.9997639015233543 * tmp in
  let fir := tmp in
  let iir := iir - (- 1.999763863368945) * rd buf 2 in
  let fir := fir + (- rd buf 2 - rd buf 2) in
  let fir := fir + iir in
  let tmp := rd buf 3 in
  let buf := wr buf 3 iir in
  let val := fir in
  let iir := val in
  let iir := iir - 0.9849666019626395 * tmp in
  let fir := tmp in
  let iir := iir - (- 1.984903954482672) * rd buf 4 in
  let fir := fir + (rd buf 4 + rd buf 4) in
  let fir := fir + iir in
  let tmp := rd buf 5 in
  let buf := wr buf 5 iir in
  let val := fir in
  let iir := val in
  let iir := iir - 0.9995704510105757 * tmp in
  let fir := tmp in
  let iir := iir - (- 1.999570400238568) * rd buf 6 in
  let fir := fir + (rd buf 6 + rd buf 6) in
  let fir := fir + iir in
  let buf := wr buf 7 iir in
  let val := fir in
  (buf, val).

Definition process_flutter (buf : list float) (val : float)
  : list float * float :=
  let tmp := rd buf 0 in
  let buf := memmove_left 7 buf in
  let iir := val * 0.0002980764585582655 in
  let iir := iir - 0.6858715731999449 * tmp in
  let fir := tmp in
  let iir := iir - (- 1.605649703918556) * rd buf 0 in
  let fir := fir + (- rd buf 0 - rd buf 0) in
  let fir := fir + iir in
  let tmp := rd buf 1 in
  let buf := wr buf 1 iir in
  let val := fir in
  let iir := val in
  let iir := iir - 0.9953215690037556 * tmp in
  let fir := tmp in
  let iir := iir - (- 1.995306892110805) * rd buf 2 in
  let fir := fir + (- rd buf 2 - rd buf 2) in
  let fir := fir + iir in
  let tmp := rd buf 3 in
  let buf := wr buf 3 iir in
  let val := fir in
  let iir := val in
  let iir := iir - 0.5910983651395704 * tmp in
  let fir := tmp in
  let iir := iir - (- 1.532453681510474) * rd buf 4 in
  let fir := fir + (rd buf 4 + rd buf 4) in
  let fir := fir + iir in
  let tmp := rd buf 5 in
  let buf := wr buf 5 iir in
  let val := fir in
  let iir := val in
  let iir := iir - 0.9916845997627537 * tmp in
  let fir := tmp in
  let iir := iir - (- 1.991665582083071) * rd buf 6 in
  let fir := fir + (rd buf 6 + rd buf 6) in
  let fir := fir + iir in
  let buf := wr buf 7 iir in
  let val := fir in
  (buf, val).

End FilterCode.

(* ================================================================== *)
(** ** flutter_meter.c: the statics

    The groups follow the banners of the source file. *)

(** STATE VARIABLES - zero-crossing interval tracking *)
Record Interval := mkInterval {
  previous_sample        : Z;       (* int *)
  current_interval_ns    : float;
  interval_remainder_ns  : float;
  nanoseconds_per_sample : float
}.

(** CONFIGURATION VARIABLES - test signal parameters *)
Record Config := mkConfig {
  expected_half_period_ns : float;
  test_frequency_hz       : Z;      (* int *)
  min_zero_crossings      : Z;      (* int *)
  max_zero_crossings      : Z;      (* int *)
  samples_per_100ms       : Z       (* int *)
}.

(** FILTER STATE - intermediate processing values *)
Record FilterIO := mkFilterIO {
  filter_input  : float;
  filter_output : float
}.

(** ACCUMULATION STATE - statistical computation *)
Record Accum := mkAccum {
  is_first_buffer       : Z;        (* int used as a flag *)
  valid_sample_count    : Z;        (* int *)
  interval_sum_ns       : float;
  average_interval_ns   : float;
  measured_frequency_hz : float
}.

(** BUFFER MANAGEMENT - 10-second window tracking *)
Record Windows := mkWindows {
  rms_1sec_buffer_index : Z;            (* int *)
  buffer_rms_1sec_sums  : list float;   (* double[10] *)
  peak_values_100ms     : list float;   (* double[50] *)
  peak_index_100ms      : Z;            (* int *)
  max_rms_array         : list float;   (* double[50] *)
  current_quasi_peak    : float
}.

(** RESULTS - output values *)
Record Results := mkResults {
  result_rms_percent  : float;
  result_quasi_peak   : float;
  result_frequency_hz : float
}.

(** The whole program state.  [previous_sample_raw] is the [static short]
    declared inside [process_samples]. *)
Record Meter := mkMeter {
  filters  : Filters;
  interval : Interval;
  config   : Config;
  filterio : FilterIO;
  accum    : Accum;
  windows  : Windows;
  results  : Results;
  previous_sample_raw : Z
}.

Definition set_previous_sample_raw (v : Z) (m : Meter) : Meter :=
  mkMeter (filters m) (interval m) (config m) (filterio m) (accum m)
          (windows m) (results m) v.

(** The statics as the loader leaves them: zero, apart from the two
    initialised configuration variables. *)
Definition power_on : Meter :=
  mkMeter reset_filters
    (mkInterval 0 0 0 0)
    (mkConfig (0.5 * 1.0e9 / 3150)%float 3150 0 0 0)
    (mkFilterIO 0 0)
    (mkAccum 0 0 0 0 0)
    (mkWindows 0 (zeros 10) (zeros 50) 0 (zeros 50) 0)
    (mkResults 0 0 0)
    0.

(* ------------------------------------------------------------------ *)
(** *** flutterMeter_init *)

Definition flutterMeter_init (m : Meter) (sample_rate : Z)
                             (test_frequency : float) : Meter :=
  let test_frequency_hz := double_to_int test_frequency in
  mkMeter
    reset_filters
    (mkInterval 0 0 0 (1.0e9 / int_to_double sample_rate)%float)
    (mkConfig
       (0.5 * 1.0e9 / test_frequency)%float
       test_frequency_hz
       (double_to_int
          (int_to_double (Z.quot test_frequency_hz 5) * 0.95)%float)
       (double_to_int
          (int_to_double (Z.quot test_frequency_hz 5) * 1.05)%float)
       (Z.quot sample_rate 10))
    (filterio m)
    (mkAccum 1 (valid_sample_count (accum m)) 0 0
             (measured_frequency_hz (accum m)))
    (mkWindows 0 (zeros 10) (zeros 50) 0 (zeros 50) 0)
    (mkResults 0 0 0)
    (previous_sample_raw m).

(* ------------------------------------------------------------------ *)
(** *** get_results: [( *peak, *rms, *freq )] *)

Definition get_results (m : Meter) : float * float * float :=
  (result_quasi_peak (results m),
   result_rms_percent (results m),
   result_frequency_hz (results m)).

(* ------------------------------------------------------------------ *)
(** *** process_samples *)

(** Locals of the second pass: [freq_sum_5sec] and [freq_count_5sec] are
    declared at the top of the function and live for the whole call,
    [sum_of_squares] and [max_quasi_peak] belong to one window. *)
Record Locals := mkLocals {
  freq_sum_5sec   : float;
  freq_count_5sec : Z;        (* int *)
  sum_of_squares  : float;
  max_quasi_peak  : float
}.

(** The samples [samples[0 .. n-1]] seen through the moving pointer
    [samples], [pos] cells past the start of the caller's array. *)
Definition block (samples : list Z) (pos n : Z) : list Z :=
  map (fun i => nth (Z.to_nat (pos + Z.of_nat i)) samples 0)
      (seq 0 (Z.to_nat n)).

(** First pass, one iteration: [(max_amplitude, zero_crossing_count,
    previous_sample_raw)]. *)
Definition gate_step (g : Z * Z * Z) (raw : Z) : Z * Z * Z :=
  let '(max_amplitude, zero_crossing_count, previous_sample_raw) := g in
  let sample := to_short raw in
  let max_amplitude :=
    if max_amplitude <? sample then sample else max_amplitude in
  let zero_crossing_count :=
    if ((0 <=? sample) && (previous_sample_raw <? 0))
       || ((sample <? 0) && (0 <=? previous_sample_raw))
    then zero_crossing_count + 1 else zero_crossing_count in
  (max_amplitude, zero_crossing_count, sample).

Definition gate_pass (previous_sample_raw : Z) (blk : list Z) : Z * Z * Z :=
  fold_left gate_step blk (0, 0, previous_sample_raw).

(** The weighting filter chosen by the [switch]. *)
Definition weight (filter_type : Z) (f : Filters) (x : float)
  : Filters * float :=
  match filter_type with
  | 1 => let '(b, y) := process_DIN (buf_din f) x in
         (mkFilters (buf2nd_order f) b (buf_unw f) (buf_wow f)
                    (buf_flutter f), y)
  | 2 => let '(b, y) := process_wow (buf_wow f) x in
         (mkFilters (buf2nd_order f) (buf_din f) (buf_unw f) b
                    (buf_flutter f), y)
  | 3 => let '(b, y) := process_flutter (buf_flutter f) x in
         (mkFilters (buf2nd_order f) (buf_din f) (buf_unw f) (buf_wow f)
                    b, y)
  | _ => let '(b, y) := process_unweighted (buf_unw f) x in
         (mkFilters (buf2nd_order f) (buf_din f) b (buf_wow f)
                    (buf_flutter f), y)
  end.

(** The sign-change test of the crossing detector. *)
Definition sign_change (current previous : Z) : bool :=
  ((0 <? current) && (previous <? 0)) || ((current <? 0) && (0 <? previous)).

(** The denominator of the interpolation, with its guard. *)
Definition guard_denom (denom : float) : float :=
  if (fabs denom <? 1e-9)%float
  then (if (0 <=? denom)%float then 1e-9 else - 1e-9)%float
  else denom.

Definition crossing_offset (nanoseconds_per_sample : float)
                           (current previous : Z) : float :=
  let denom := guard_denom (int_to_double (wrap_int (current - previous))) in
  (int_to_double (wrap_int (- previous)) * nanoseconds_per_sample / denom)%float.

(** Second pass, the crossing detector of one sample: the statics of the
    interval group after the sample, and [is_zero_crossing]. *)
Definition detect (iv : Interval) (current_sample_value : Z)
  : Interval * bool :=
  let nsps := nanoseconds_per_sample iv in
  let '(current_interval, remainder, is_zero_crossing) :=
    if sign_change current_sample_value (previous_sample iv) then
      let crossing_offset_ns :=
        crossing_offset nsps current_sample_value (previous_sample iv) in
      ((current_interval_ns iv + crossing_offset_ns)%float,
       (nsps - crossing_offset_ns)%float, true)
    else
      ((current_interval_ns iv + nsps)%float, interval_remainder_ns iv, false)
  in
  let '(remainder, is_zero_crossing) :=
    if current_sample_value =? 0 then (0%float, true)
    else (remainder, is_zero_crossing) in
  (mkInterval current_sample_value current_interval remainder nsps,
   is_zero_crossing).

(** The attack/decay update of the quasi-peak detector. *)
Definition quasi_peak_step (current_quasi_peak measurement_value : float)
  : float :=
  if (current_quasi_peak <? measurement_value)%float
  then (current_quasi_peak
        + (measurement_value - current_quasi_peak) / 500)%float
  else (current_quasi_peak
        + (measurement_value - current_quasi_peak) / 6000)%float.

(** Second pass, the body of [if (is_zero_crossing)] past the warm-up test:
    one interval is measured, weighted and accumulated. *)
Definition emit (filter_type : Z) (m : Meter) (l : Locals) : Meter * Locals :=
  let iv := interval m in
  let ehp := expected_half_period_ns (config m) in
  let timing_error_percent := ((ehp - current_interval_ns iv) / ehp)%float in
  let '(f, timing_error_percent) :=
    weight filter_type (filters m) timing_error_percent in
  let measurement_value := (fabs timing_error_percent * 10000 / 85)%float in
  let qp := quasi_peak_step (current_quasi_peak (windows m))
                            measurement_value in
  let count := valid_sample_count (accum m) + 1 in
  let sum := (interval_sum_ns (accum m) + current_interval_ns iv)%float in
  let average := (sum / int_to_double count)%float in
  let measured := (1000000000 / average / 2)%float in
  (mkMeter f
     (mkInterval (previous_sample iv) (interval_remainder_ns iv)
                 (interval_remainder_ns iv) (nanoseconds_per_sample iv))
     (config m) (filterio m)
     (mkAccum (is_first_buffer (accum m)) count sum average measured)
     (mkWindows (rms_1sec_buffer_index (windows m))
                (buffer_rms_1sec_sums (windows m))
                (peak_values_100ms (windows m))
                (peak_index_100ms (windows m))
                (max_rms_array (windows m)) qp)
     (results m) (previous_sample_raw m),
   mkLocals (freq_sum_5sec l + measured)%float (freq_count_5sec l + 1)
            (sum_of_squares l + timing_error_percent * timing_error_percent)%float
            qp).

(** Second pass, one iteration of the loop. *)
Definition dsp_sample (filter_type : Z) (s : Meter * Locals) (raw : Z)
  : Meter * Locals :=
  let '(m, l) := s in
  let sample := to_short raw in
  let input := int_to_double sample in
  let '(b, output) := process_2nd_order (buf2nd_order (filters m)) input in
  let f := mkFilters b (buf_din (filters m)) (buf_unw (filters m))
                     (buf_wow (filters m)) (buf_flutter (filters m)) in
  let current_sample_value := double_to_int output in
  let '(iv, is_zero_crossing) := detect (interval m) current_sample_value in
  let m := mkMeter f iv (config m) (mkFilterIO input output) (accum m)
                   (windows m) (results m) (previous_sample_raw m) in
  if is_zero_crossing then
    if negb (is_first_buffer (accum m) =? 0) then
      (* valid_sample_count = 0; is_first_buffer = 0; continue; *)
      (mkMeter (filters m) (interval m) (config m) (filterio m)
               (mkAccum 0 0 (interval_sum_ns (accum m))
                        (average_interval_ns (accum m))
                        (measured_frequency_hz (accum m)))
               (windows m) (results m) (previous_sample_raw m), l)
    else emit filter_type m l
  else (m, l).

Definition second_pass (filter_type : Z) (m : Meter) (l : Locals)
                       (blk : list Z) : Meter * Locals :=
  fold_left (dsp_sample filter_type) blk (m, l).

(** The scan [for (i = 0; i < 50; i++)] over both rings:
    [(max_rms_10sec, max_peak_10sec)]. *)
Definition scan_step (rms peaks : list float) (mx : float * float) (i : nat)
  : float * float :=
  let '(max_rms_10sec, max_peak_10sec) := mx in
  (if (max_rms_10sec <? rd rms i)%float then rd rms i else max_rms_10sec,
   if (max_peak_10sec <? rd peaks i)%float then rd peaks i else max_peak_10sec).

Definition scan (rms peaks : list float) : float * float :=
  fold_left (scan_step rms peaks) (seq 0 50) (0%float, 0%float).

(** [total_sum_of_squares] *)
Definition total_of (sums : list float) : float :=
  fold_left (fun t i => (t + rd sums i)%float) (seq 0 10) 0%float.

(** The code after the second pass: the window's results are stored and,
    every tenth time, the one-second results are published. *)
Definition close_window (m : Meter) (l : Locals) : Meter :=
  let w := windows m in
  let sums := wr (buffer_rms_1sec_sums w)
                 (Z.to_nat (rms_1sec_buffer_index w)) (sum_of_squares l) in
  let peaks := wr (peak_values_100ms w)
                  (Z.to_nat (peak_index_100ms w)) (max_quasi_peak l) in
  let peak_index :=
    if peak_index_100ms w + 1 =? 50 then 0 else peak_index_100ms w + 1 in
  let rms_index := rms_1sec_buffer_index w + 1 in
  if rms_index =? 10 then
    let total_sum_of_squares := total_of sums in
    let rms := wr (max_rms_array w) (Z.to_nat peak_index)
                  (sqrt (total_sum_of_squares
                         / int_to_double (valid_sample_count (accum m)))
                   * 100)%float in
    let '(max_rms_10sec, max_peak_10sec) := scan rms peaks in
    mkMeter (filters m) (interval m) (config m) (filterio m)
      (mkAccum (is_first_buffer (accum m)) 0 0
               (average_interval_ns (accum m))
               (measured_frequency_hz (accum m)))
      (mkWindows 0 sums peaks peak_index rms (current_quasi_peak w))
      (mkResults max_rms_10sec max_peak_10sec
         (if 0 <? freq_count_5sec l
          then (freq_sum_5sec l / int_to_double (freq_count_5sec l))%float
          else result_frequency_hz (results m)))
      (previous_sample_raw m)
  else
    mkMeter (filters m) (interval m) (config m) (filterio m) (accum m)
      (mkWindows rms_index sums peaks peak_index (max_rms_array w)
                 (current_quasi_peak w))
      (results m) (previous_sample_raw m).

(** The state of one call between two windows: the statics and the two
    locals that outlive a window. *)
Record Call := mkCall {
  call_meter      : Meter;
  call_freq_sum   : float;   (* freq_sum_5sec *)
  call_freq_count : Z        (* freq_count_5sec *)
}.

(** The body of [for (window_100ms = 0; window_100ms < 100; ...)] on the
    block [blk] of samples that the pointer [samples] designates. *)
Definition window_body (filter_type : Z) (blk : list Z) (c : Call) : Call :=
  let m := call_meter c in
  let '(max_amplitude, zero_crossing_count, raw) :=
    gate_pass (previous_sample_raw m) blk in
  let m := set_previous_sample_raw raw m in
  if max_amplitude <? 50 then
    mkCall m (call_freq_sum c) (call_freq_count c)
  else if (zero_crossing_count <? min_zero_crossings (config m))
          || (max_zero_crossings (config m) <? zero_crossing_count) then
    mkCall m (call_freq_sum c) (call_freq_count c)
  else
    let '(m, l) :=
      second_pass filter_type m
        (mkLocals (call_freq_sum c) (call_freq_count c) 0 0) blk in
    mkCall (close_window m l) (freq_sum_5sec l) (freq_count_5sec l).

(** One iteration of the loop over the windows; [pos] is how far the
    pointer [samples] has moved, and every path ends with
    [samples += samples_per_100ms]. *)
Definition process_window (filter_type : Z) (samples : list Z)
                          (s : Call * Z) : Call * Z :=
  let '(c, pos) := s in
  let n := samples_per_100ms (config (call_meter c)) in
  (window_body filter_type (block samples pos n) c, pos + n).

Fixpoint iterate {A : Type} (n : nat) (f : A -> A) (x : A) : A :=
  match n with
  | O => x
  | S k => iterate k f (f x)
  end.

Definition process_samples (m : Meter) (samples : list Z) (num_samples : Z)
                           (filter_type : Z) : Meter * Z :=
  if num_samples <? wrap_int (samples_per_100ms (config m) * 100) then
    (m, -1)
  else
    (call_meter
       (fst (iterate 100 (process_window filter_type samples)
                     (mkCall m 0 0, 0))),
     0).

(* ================================================================== *)
(** ** The gate bounds as the specification words them *)

(** The real number a finite double stands for. *)
Definition double_value (d : float) : Q :=
  match Prim2SF d with
  | S754_finite s m e =>
      ((if s then -1 else 1) * inject_Z (Zpos m) * Qpower 2 e)%Q
  | _ => 0%Q
  end.

(** [⌊test_frequency / 5 × 0.95⌋] and [⌊test_frequency / 5 × 1.05⌋], the
    floor taken once, of the real product. *)
Definition spec_min_crossings (test_frequency : float) : Z :=
  Qfloor (double_value test_frequency / 5 * (95 # 100))%Q.

Definition spec_max_crossings (test_frequency : float) : Z :=
  Qfloor (double_value test_frequency / 5 * (105 # 100))%Q.

(** What the code computes instead, in exact arithmetic: the frequency is
    truncated to an [int] and divided by 5 as an [int] before it is scaled. *)
Definition int_min_crossings (test_frequency : float) : Z :=
  Qfloor (inject_Z (double_to_int test_frequency / 5) * (95 # 100))%Q.

Definition int_max_crossings (test_frequency : float) : Z :=
  Qfloor (inject_Z (double_to_int test_frequency / 5) * (105 # 100))%Q.

(* ================================================================== *)
(** ** The windows of a call as the specification words them *)

(** [k] consecutive chunks of [n] samples. *)
Fixpoint chunks (n k : nat) (l : list Z) : list (list Z) :=
  match k with
  | O => []
  | S k' => firstn n l :: chunks n k' (skipn n l)
  end.

(** The largest sample of the block, counting only positive ones. *)
Definition max_positive (blk : list Z) : Z :=
  fold_right Z.max 0 (map to_short blk).

(** [(curr >= 0 /\ prev < 0) \/ (curr < 0 /\ prev >= 0)] *)
Definition crosses (prev curr : Z) : bool :=
  ((0 <=? curr) && (prev <? 0)) || ((curr <? 0) && (0 <=? prev)).

(** The number of adjacent pairs of the block, the first pair starting at
    the last sample of the block before, whose signs differ. *)
Fixpoint count_crossings (prev : Z) (blk : list Z) : Z :=
  match blk with
  | [] => 0
  | x :: t => (if crosses prev (to_short x) then 1 else 0)
              + count_crossings (to_short x) t
  end.

(** A block is valid. *)
Definition valid_block (c : Config) (prev : Z) (blk : list Z) : Prop :=
  50 <= max_positive blk
  /\ min_zero_crossings c <= count_crossings prev blk <= max_zero_crossings c.

(** The last sample of the block as a [short], [prev] for an empty block. *)
Definition last_raw (prev : Z) (blk : list Z) : Z :=
  last (map to_short blk) prev.

(* ================================================================== *)
(** ** The time base of the crossing detector *)





(** The sum of the amounts in the order of the samples, as the repeated
    [+=] computes it. *)
Definition elapsed (start : float) (amounts : list float) : float :=
  fold_left (fun t a => (t + a)%float) amounts start.

(* ================================================================== *)
(** ** Maxima of doubles *)

(** [r] bounds the list: no element compares greater. *)
Definition fbounds (r : float) (l : list float) : Prop :=
  forall x, In x l -> (r <? x)%float = false.

(** [r] is the running maximum the scan computes from [0.0]: it bounds the
    list and is one of its elements, or the initial [0.0] when no element
    compares greater than [0.0]. *)
Definition scan_max (r : float) (l : list float) : Prop :=
  fbounds r l /\ (In r l \/ (r = 0%float /\ fbounds 0%float l)).

(* ================================================================== *)
(** ** The quasi-peak values of a block *)

(** A sample at which a crossing is measured: the second pass reaches
    [freq_count_5sec++]. *)
Definition measured (ft : Z) (s : Meter * Locals) (raw : Z) : bool :=
  freq_count_5sec (snd s) <? freq_count_5sec (snd (dsp_sample ft s raw)).

(** The values [current_quasi_peak] takes at the measured crossings of a
    block, in order. *)
Fixpoint qp_trace (ft : Z) (s : Meter * Locals) (blk : list Z)
  : list float :=
  match blk with
  | [] => []
  | raw :: t =>
      let s' := dsp_sample ft s raw in
      (if measured ft s raw
       then [current_quasi_peak (windows (fst s'))] else [])
      ++ qp_trace ft s' t
  end.

(** The last element, [d] for the empty list. *)
Definition last_or (d : float) (l : list float) : float := last l d.

(** The second pass touches [current_quasi_peak] only, of the window
    group. *)
Definition same_rings (w w' : Windows) : Prop :=
  rms_1sec_buffer_index w' = rms_1sec_buffer_index w
  /\ buffer_rms_1sec_sums w' = buffer_rms_1sec_sums w
  /\ peak_values_100ms w' = peak_values_100ms w
  /\ peak_index_100ms w' = peak_index_100ms w
  /\ max_rms_array w' = max_rms_array w.

(** The sum of the cells of an array in index order, from [0.0], as the
    loop [total += a[i]] computes it. *)
Definition fsum (l : list float) : float :=
  fold_left (fun t x => (t + x)%float) l 0%float.

(** The running maximum of the scan over one array. *)
Definition running_max (l : list float) (start : float) : float :=
  fold_left (fun mx x => if (mx <? x)%float then x else mx) l start.

(* ================================================================== *)
(** ** The rounding shift of binary64, read as arithmetic *)

(** The mantissa and the round bit of a shift record as one number. *)
Definition shr_code (r : shr_record) : Z :=
  2 * shr_m r + (if shr_r r then 1 else 0).

(** [r] is what [n] one-bit shifts make of the number [x] (a mantissa with
    its round bit) and the sticky bit [s]. *)
Definition shifted (n x : Z) (s : bool) (r : shr_record) : Prop :=
  0 <= shr_m r
  /\ shr_code r = x / 2 ^ n
  /\ shr_s r = s || negb (x mod 2 ^ n =? 0).

(* ================================================================== *)
(** ** The filters as cascades of second-order sections *)

Section Cascade.
Local Open Scope float_scope.

(** One second-order section on a delay line of its own, the two cells
    [(d0, d1)], oldest first: the recursive part takes [a * d0] and
    [(- b) * d1] off the input, the direct part adds [d0], [d1] twice (with
    either sign) and the new recursive value; the delay line drops [d0] and
    takes the new recursive value in. *)
Definition biquad (a b : float) (minus : bool) (st : float * float)
                  (x : float) : (float * float) * float :=
  let '(d0, d1) := st in
  let iir := x - a * d0 in
  let iir := iir - (- b) * d1 in
  let fir := d0 + (if minus then - d1 - d1 else d1 + d1) in
  ((d1, iir), fir + iir).

(** The coefficients of a section: [(a, b, minus)]. *)
Definition Coeffs : Type := float * float * bool.

(** Sections in series: each one feeds the next. *)
Fixpoint cascade (cs : list Coeffs) (st : list (float * float)) (x : float)
  : list (float * float) * float :=
  match cs, st with
  | (a, b, minus) :: cs', s :: st' =>
      let '(s', y) := biquad a b minus s x in
      let '(r, z) := cascade cs' st' y in
      (s' :: r, z)
  | _, _ => ([], x)
  end.

(** A buffer of [2 k] cells read as [k] delay lines, and back. *)
Fixpoint pairs (buf : list float) : list (float * float) :=
  match buf with
  | d0 :: d1 :: t => (d0, d1) :: pairs t
  | _ => []
  end.

Definition cells (st : list (float * float)) : list float :=
  flat_map (fun s => [fst s; snd s]) st.

(** A filter: the input gain, then the sections. *)
Definition stage (gain : float) (cs : list Coeffs) (buf : list float)
                 (val : float) : list float * float :=
  let '(st, y) := cascade cs (pairs buf) (val * gain) in
  (cells st, y).

Definition isolator_sections : list Coeffs :=
  [ (0.9483625336008361, 1.73410899821474, true);
    (0.9533938855978508, 1.781298800713404, false) ].

Definition din_sections : list Coeffs :=
  [ (0.9718381574433894, 1.971551266567659, true);
    (0.9982440100378892, 1.998242909436813, false);
    (0.6434545131997782, 1.591050960239724, false);
    (0.9997284329050403, 1.999728408318806, true) ].

Definition unweighted_sections : list Coeffs :=
  [ (0.6753463035083248, 1.591483463373453, true);
    (0.9997682212465883, 1.999768186333123, true);
    (0.5771462662841257, 1.514102287557188, false);
    (0.9995984565721876, 1.999598412629212, false) ].

Definition wow_sections : list Coeffs :=
  [ (0.9889822559361133, 1.988898714745282, true);
    (0.9997639015233543, 1.999763863368945, true);
    (0.9849666019626395, 1.984903954482672, false);
    (0.9995704510105757, 1.999570400238568, false) ].

Definition flutter_sections : list Coeffs :=
  [ (0.6858715731999449, 1.605649703918556, true);
    (0.9953215690037556, 1.995306892110805, true);
    (0.5910983651395704, 1.532453681510474, false);
    (0.9916845997627537, 1.991665582083071, false) ].

End Cascade.

(* ================================================================== *)
(** ** Sessions *)

(** One call of [process_samples] as the caller makes it. *)
Record Request := mkRequest {
  req_samples     : list Z;
  req_num_samples : Z;
  req_filter_type : Z
}.

Definition serve (m : Meter) (r : Request) : Meter :=
  fst (process_samples m (req_samples r) (req_num_samples r)
                       (req_filter_type r)).

(** The statics after [flutterMeter_init] and any number of calls. *)
Definition session (m : Meter) (sample_rate : Z) (test_frequency : float)
                   (rs : list Request) : Meter :=
  fold_left serve rs (flutterMeter_init m sample_rate test_frequency).

(** The filter buffers have the lengths of their declarations. *)
Definition filters_ok (f : Filters) : Prop :=
  length (buf2nd_order f) = 4%nat
  /\ length (buf_din f) = 8%nat
  /\ length (buf_unw f) = 8%nat
  /\ length (buf_wow f) = 8%nat
  /\ length (buf_flutter f) = 8%nat.

(** The rings have the lengths of their declarations and the two indices
    point into them; the index of the peak ring is the one-second index
    modulo 10; the ring of RMS values is zero off the slots 0, 10, 20, 30
    and 40. *)
Definition rings_ok (w : Windows) : Prop :=
  0 <= rms_1sec_buffer_index w < 10
  /\ 0 <= peak_index_100ms w < 50
  /\ peak_index_100ms w mod 10 = rms_1sec_buffer_index w
  /\ length (buffer_rms_1sec_sums w) = 10%nat
  /\ length (peak_values_100ms w) = 50%nat
  /\ length (max_rms_array w) = 50%nat
  /\ (forall i : nat,
        Z.of_nat i mod 10 <> 0 -> rd (max_rms_array w) i = 0%float).

(** A double that is a number and not below zero. *)
Definition not_below_zero (d : float) : Prop :=
  Prim2SF d <> S754_nan /\ (d <? 0)%float = false.

(** The statics differ from those of [m] in [previous_sample_raw] at
    most. *)
Definition only_gate_moved (m m' : Meter) : Prop :=
  m' = set_previous_sample_raw (previous_sample_raw m') m.

(* ================================================================== *)
(** ** main.c: the test program, from the data chunk on *)

(** What [main] takes from the headers of the file, and the 16-bit words
    that follow the header of the data chunk. *)
Record Wav := mkWav {
  audioFormat   : Z;         (* uint16_t *)
  numChannels   : Z;         (* uint16_t *)
  sampleRate    : Z;         (* uint32_t *)
  bitsPerSample : Z;         (* uint16_t *)
  dataSize      : Z;         (* uint32_t *)
  data_words    : list Z     (* int16_t each *)
}.

(** [int numSamples = dataSize / (bitsPerSample / 8) / numChannels;] in
    unsigned arithmetic, converted to [int]; [None] when a divisor is zero,
    where the program is killed by the division. *)
Definition num_samples_of (w : Wav) : option Z :=
  if (bitsPerSample w / 8 =? 0) || (numChannels w =? 0) then None
  else Some (wrap_int (dataSize w / (bitsPerSample w / 8) / numChannels w)).

(** The loop that fills [samples]: one word is read, and one more is
    skipped when the file has two channels.  [words] is the file from the
    read position on; a read at the end of the file, which leaves [val]
    indeterminate in C, yields 0. *)
Fixpoint read_samples (n : nat) (channels : Z) (words : list Z) : list Z :=
  match n with
  | O => []
  | S k =>
      let val := hd 0 words in
      let words := tl words in
      let words := if channels =? 2 then tl words else words in
      val :: read_samples k channels words
  end.

(** How [main] ends once the file is open and the data chunk found. *)
Inductive Outcome :=
| Refused                      (* [return 1]: the format is not 16-bit PCM *)
| Killed                       (* integer division by zero *)
| Printed (ret : Z) (res : float * float * float). (* what is printed *)

(** [main] from the format checks on; the allocation of [samples] is taken
    to succeed. *)
Definition main_from_data (w : Wav) : Outcome :=
  if negb (audioFormat w =? 1) then Refused
  else if negb (bitsPerSample w =? 16) then Refused
  else
    match num_samples_of w with
    | None => Killed
    | Some numSamples =>
        let samples :=
          read_samples (Z.to_nat numSamples) (numChannels w)
                       (data_words w) in
        let m := flutterMeter_init power_on (wrap_int (sampleRate w)) 3150 in
        let '(m, ret) := process_samples m samples numSamples 1 in
        Printed ret (get_results m)
    end.

(* ================================================================== *)
(** ** What a call and a session put through the second pass *)

(** The gate's verdict on a block: the two tests of the window body, on the
    figures of the first pass. *)
Definition gate_open (c : Config) (prev : Z) (blk : list Z) : bool :=
  let '(max_amplitude, zero_crossing_count, _) := gate_pass prev blk in
  negb (max_amplitude <? 50)
  && negb ((zero_crossing_count <? min_zero_crossings c)
           || (max_zero_crossings c <? zero_crossing_count)).

(** The statics and the locals with which the second pass of a window
    starts. *)
Definition pass_start (c : Call) (blk : list Z) : Meter * Locals :=
  let m := call_meter c in
  (set_previous_sample_raw (last_raw (previous_sample_raw m) blk) m,
   mkLocals (call_freq_sum c) (call_freq_count c) 0 0).

(** The block that the next window of a call looks at. *)
Definition window_block (samples : list Z) (s : Call * Z) : list Z :=
  block samples (snd s) (samples_per_100ms (config (call_meter (fst s)))).



(** The values [measured_frequency_hz] takes at the measured crossings of
    a run of the second pass, in order: what is added to
    [freq_sum_5sec]. *)
Fixpoint freq_trace (ft : Z) (s : Meter * Locals) (blk : list Z)
  : list float :=
  match blk with
  | [] => []
  | raw :: t =>
      let s' := dsp_sample ft s raw in
      (if measured ft s raw
       then [measured_frequency_hz (accum (fst s'))] else [])
      ++ freq_trace ft s' t
  end.

(** The frequencies measured in a window, and in the next [k] windows of a
    call. *)
Definition window_freqs (ft : Z) (c : Call) (blk : list Z) : list float :=
  if gate_open (config (call_meter c)) (previous_sample_raw (call_meter c))
               blk
  then freq_trace ft (pass_start c blk) blk else [].

Fixpoint call_freqs (ft : Z) (samples : list Z) (k : nat) (s : Call * Z)
  : list float :=
  match k with
  | O => []
  | S k' =>
      window_freqs ft (fst s) (window_block samples s)
      ++ call_freqs ft samples k' (process_window ft samples s)
  end.

(** A call starts with both frequency accumulators at zero and the pointer
    at the start of the array. *)
Definition call_start (m : Meter) : Call * Z := (mkCall m 0 0, 0).







(* ================================================================== *)
(** * Properties *)

(* ------------------------------------------------------------------ *)
(** ** Machine integers *)

Lemma wrap_int_id (z : Z) : in_int z -> wrap_int z = z.
Proof.
  unfold in_int, wrap_int, INT_MIN, INT_MAX. intros H.
  rewrite Z.mod_small; lia.
Qed.

Lemma wrap_int_range (z : Z) : in_int (wrap_int z).
Proof.
  unfold in_int, wrap_int, INT_MIN, INT_MAX.
  pose proof (Z.mod_pos_bound (z + 2147483648) 4294967296). lia.
Qed.

Lemma to_short_range (z : Z) : -32768 <= to_short z <= 32767.
Proof.
  unfold to_short.
  pose proof (Z.mod_pos_bound (z + 32768) 65536). lia.
Qed.

(* ------------------------------------------------------------------ *)
(** ** Binary64: the conversion of an [int] *)

Section Binary64.

Lemma digits2_pos_iter_xO (p n : positive) :
  digits2_pos (Pos.iter xO p n) = (digits2_pos p + n)%positive.
Proof.
  revert p. induction n as [|n IH] using Pos.peano_ind; intros p.
  - simpl. lia.
  - rewrite Pos.iter_succ. simpl. rewrite IH. lia.
Qed.

Lemma iter_xO_value (p n : positive) :
  Zpos (Pos.iter xO p n) = Zpos p * 2 ^ Zpos n.
Proof.
  revert p. induction n as [|n IH] using Pos.peano_ind; intros p.
  - simpl. lia.
  - rewrite Pos.iter_succ, Pos2Z.inj_xO, IH, Pos2Z.inj_succ,
      Z.pow_succ_r by lia. lia.
Qed.

Lemma pow2_pred (d : Z) : 0 < d -> 2 ^ d = 2 * 2 ^ (d - 1).
Proof.
  intros Hd. rewrite <- Z.pow_succ_r by lia. f_equal. lia.
Qed.

Lemma digits2_pos_bounds (p : positive) :
  2 ^ (Zpos (digits2_pos p) - 1) <= Zpos p < 2 ^ Zpos (digits2_pos p).
Proof.
  induction p as [p IH | p IH |]; simpl digits2_pos.
  - rewrite Pos2Z.inj_succ.
    replace (Z.succ (Zpos (digits2_pos p)) - 1)
      with (Zpos (digits2_pos p)) by lia.
    rewrite Z.pow_succ_r by lia.
    rewrite (pow2_pred (Zpos (digits2_pos p))) in * by lia. lia.
  - rewrite Pos2Z.inj_succ.
    replace (Z.succ (Zpos (digits2_pos p)) - 1)
      with (Zpos (digits2_pos p)) by lia.
    rewrite Z.pow_succ_r by lia.
    rewrite (pow2_pred (Zpos (digits2_pos p))) in * by lia. lia.
  - simpl. lia.
Qed.

Lemma fexp_normal (e : Z) : -1021 <= e -> fexp prec emax e = e - 53.
Proof. unfold fexp, SpecFloat.emin, prec, emax. lia. Qed.

(** A mantissa of 53 digits is left alone by the rounding shift. *)
Lemma shr_fexp_canonical (m : positive) (e : Z) :
  Zpos (digits2_pos m) = 53 -> -1074 <= e ->
  shr_fexp prec emax (Zpos m) e loc_Exact
  = (Build_shr_record (Zpos m) false false, e).
Proof.
  intros Hd He. unfold shr_fexp, Zdigits2. rewrite Hd.
  rewrite fexp_normal by lia.
  replace (53 + e - 53 - e) with 0 by lia. reflexivity.
Qed.

Lemma binary_round_aux_canonical (s : bool) (m : positive) (e : Z) :
  Zpos (digits2_pos m) = 53 -> -1074 <= e <= 971 ->
  binary_round_aux prec emax s (Zpos m) e loc_Exact = S754_finite s m e.
Proof.
  intros Hd He. unfold binary_round_aux.
  rewrite shr_fexp_canonical by (assumption || lia).
  cbn [shr_m loc_of_shr_record round_nearest_even].
  rewrite shr_fexp_canonical by (assumption || lia).
  cbn [shr_m].
  replace (e <=? emax - prec) with true; [reflexivity|].
  symmetry. apply Z.leb_le. unfold emax, prec. lia.
Qed.

(** An integer of fewer than 53 bits is normalised by a left shift. *)
Lemma binary_round_small (s : bool) (p : positive) :
  Zpos (digits2_pos p) < 53 ->
  binary_round prec emax s p 0
  = S754_finite s (Pos.iter xO p (Z.to_pos (53 - Zpos (digits2_pos p))))
                (Zpos (digits2_pos p) - 53).
Proof.
  intros Hd. unfold binary_round, shl_align.
  rewrite fexp_normal by lia.
  destruct (Zpos (digits2_pos p) + 0 - 53 - 0) as [|q|q] eqn:E; try lia.
  assert (Hq : q = Z.to_pos (53 - Zpos (digits2_pos p))) by lia.
  subst q.
  replace (Zpos (digits2_pos p) + 0 - 53)
    with (Zpos (digits2_pos p) - 53) by lia.
  apply binary_round_aux_canonical; [|lia].
  rewrite digits2_pos_iter_xO. lia.
Qed.

Lemma digits2_pos_int (p : positive) :
  Zpos p < 2 ^ 32 -> Zpos (digits2_pos p) <= 32.
Proof.
  intros Hp. pose proof (digits2_pos_bounds p) as [Hlo _].
  assert (Zpos (digits2_pos p) - 1 < 32); [|lia].
  apply (Z.pow_lt_mono_r_iff 2); lia.
Qed.

Lemma Prim2SF_of_pos (p : positive) :
  Zpos p < 2 ^ 32 ->
  Prim2SF (of_uint63 (Uint63.of_Z (Zpos p)))
  = S754_finite false
      (Pos.iter xO p (Z.to_pos (53 - Zpos (digits2_pos p))))
      (Zpos (digits2_pos p) - 53).
Proof.
  intros Hp. rewrite of_uint63_spec, Uint63.of_Z_spec, Z.mod_small.
  - simpl binary_normalize. apply binary_round_small.
    pose proof (digits2_pos_int p Hp). lia.
  - unfold Uint63.wB, Uint63.size. split; [lia|].
    apply Z.lt_trans with (1 := Hp). reflexivity.
Qed.

(** [(double) z] of a non-zero [int]: sign, mantissa and exponent. *)
Lemma Prim2SF_int_to_double (z : Z) :
  in_int z -> z <> 0 ->
  exists p : positive,
    Z.abs z = Zpos p
    /\ Prim2SF (int_to_double z)
       = S754_finite (z <? 0)
           (Pos.iter xO p (Z.to_pos (53 - Zpos (digits2_pos p))))
           (Zpos (digits2_pos p) - 53).
Proof.
  unfold in_int, INT_MIN, INT_MAX, int_to_double. intros Hz Hnz.
  destruct z as [|p|p]; [congruence| |].
  - exists p. split; [reflexivity|].
    change (Zpos p <? 0) with false. cbv iota.
    apply Prim2SF_of_pos. lia.
  - exists p. split; [reflexivity|].
    change (Zneg p <? 0) with true. cbv iota.
    rewrite opp_spec. change (- Zneg p) with (Zpos p).
    rewrite Prim2SF_of_pos by lia. reflexivity.
Qed.

(* ------------------------------------------------------------------ *)
(** ** Binary64: rounding a product to nearest even *)

(** One shift halves the number and folds the lost bit into the sticky
    bit. *)
Lemma shr_1_shifted (r : shr_record) :
  0 <= shr_m r -> shifted 1 (shr_code r) (shr_s r) (shr_1 r).
Proof.
  destruct r as [m rb sb]. unfold shifted, shr_code. cbn [shr_m shr_r shr_s].
  intros Hm. change (2 ^ 1) with 2.
  assert (Hc : forall x b, 0 <= x ->
               ((2 * x + (if b : bool then 1 else 0)) mod 2 =? 0) = negb b).
  { intros x b _. destruct b.
    - replace ((2 * x + 1) mod 2) with 1; [reflexivity|].
      apply Z.mod_unique with (q := x); lia.
    - replace ((2 * x + 0) mod 2) with 0; [reflexivity|].
      apply Z.mod_unique with (q := x); lia. }
  assert (Hd : forall x b, 0 <= x ->
               (2 * x + (if b : bool then 1 else 0)) / 2 = x).
  { intros x b _. symmetry.
    apply Z.div_unique with (r := if b then 1 else 0);
      [destruct b; lia | lia]. }
  rewrite Hc, Hd by assumption. rewrite negb_involutive, orb_comm.
  destruct m as [|p|p]; [| |lia].
  - cbn [shr_1 shr_m shr_r shr_s]. repeat split; destruct rb; reflexivity.
  - destruct p as [p|p|]; cbn [shr_1 shr_m shr_r shr_s];
      repeat split; try lia; destruct rb; reflexivity.
Qed.

Lemma shifted_compose (n1 n2 x : Z) (s : bool) (r1 r2 : shr_record) :
  0 <= n1 -> 0 <= n2 ->
  shifted n1 x s r1 -> shifted n2 (shr_code r1) (shr_s r1) r2 ->
  shifted (n1 + n2) x s r2.
Proof.
  unfold shifted. intros H1 H2 (A1 & A2 & A3) (B1 & B2 & B3).
  split; [exact B1|].
  assert (P1 : 0 < 2 ^ n1) by (apply Z.pow_pos_nonneg; lia).
  assert (P2 : 0 < 2 ^ n2) by (apply Z.pow_pos_nonneg; lia).
  rewrite Z.pow_add_r by lia.
  split.
  - rewrite B2, A2. rewrite Z.div_div by lia. reflexivity.
  - rewrite B3, A3, A2.
    rewrite Z.rem_mul_r by lia.
    rewrite <- orb_assoc. f_equal.
    pose proof (Z.mod_pos_bound x (2 ^ n1) P1) as Ha.
    pose proof (Z.mod_pos_bound (x / 2 ^ n1) (2 ^ n2) P2) as Hb.
    clear A1 A2 A3 B1 B2 B3.
    set (a := x mod 2 ^ n1) in *. set (b := (x / 2 ^ n1) mod 2 ^ n2) in *.
    destruct (Z.eqb_spec a 0) as [E1|E1], (Z.eqb_spec b 0) as [E2|E2],
      (Z.eqb_spec (a + 2 ^ n1 * b) 0) as [E3|E3];
      try reflexivity; exfalso; nia.
Qed.

Lemma iter_pos_shifted (p : positive) :
  forall r : shr_record,
    0 <= shr_m r ->
    shifted (Zpos p) (shr_code r) (shr_s r) (iter_pos shr_1 p r).
Proof.
  induction p as [p IH | p IH |]; intros r Hr; cbn [iter_pos].
  - pose proof (shr_1_shifted r Hr) as S1.
    assert (H1 : 0 <= shr_m (shr_1 r)) by apply S1.
    pose proof (IH _ H1) as S2.
    assert (H2 : 0 <= shr_m (iter_pos shr_1 p (shr_1 r))) by apply S2.
    pose proof (IH _ H2) as S3.
    replace (Zpos p~1) with (1 + Zpos p + Zpos p) by lia.
    eapply shifted_compose; [lia | lia | | exact S3].
    eapply shifted_compose; [lia | lia | exact S1 | exact S2].
  - pose proof (IH _ Hr) as S2.
    assert (H2 : 0 <= shr_m (iter_pos shr_1 p r)) by apply S2.
    pose proof (IH _ H2) as S3.
    replace (Zpos p~0) with (Zpos p + Zpos p) by lia.
    eapply shifted_compose; [lia | lia | exact S2 | exact S3].
  - apply shr_1_shifted. exact Hr.
Qed.

Lemma digits2_pos_unique (p : positive) (n : Z) :
  2 ^ (n - 1) <= Zpos p < 2 ^ n -> Zpos (digits2_pos p) = n.
Proof.
  intros [Hlo Hhi].
  pose proof (digits2_pos_bounds p) as [Dlo Dhi].
  set (d := Zpos (digits2_pos p)) in *.
  assert (0 < n).
  { destruct (Z_lt_le_dec 0 n) as [H|H]; [exact H|].
    rewrite Z.pow_neg_r in Hlo by lia.
    destruct (Z.eq_dec n 0) as [->|]; [simpl in Hhi; lia|].
    rewrite Z.pow_neg_r in Hhi by lia. lia. }
  destruct (Z.lt_trichotomy d n) as [H1|[H1|H1]]; [|exact H1|].
  - assert (2 ^ d <= 2 ^ (n - 1)) by (apply Z.pow_le_mono_r; lia). lia.
  - assert (2 ^ n <= 2 ^ (d - 1)) by (apply Z.pow_le_mono_r; lia). lia.
Qed.

(** Rounding a mantissa of more than 53 digits to nearest even: the
    rounded mantissa is within half a unit of the exact quotient. *)
Lemma binary_round_aux_wide (M : positive) (e : Z) :
  let s := Zpos (digits2_pos M) - 53 in
  0 < s -> -1074 <= e + s <= 970 ->
  exists (m1 : Z) (m2 : positive) (e2 : Z),
    2 * Zpos M - 2 ^ s <= 2 ^ (s + 1) * m1 <= 2 * Zpos M + 2 ^ s
    /\ binary_round_aux prec emax false (Zpos M) e loc_Exact
       = S754_finite false m2 e2
    /\ ((Zpos m2 = m1 /\ e2 = e + s)
        \/ (m1 = 2 ^ 53 /\ Zpos m2 = 2 ^ 52 /\ e2 = e + s + 1)).
Proof.
  intros s Hs He.
  pose proof (digits2_pos_bounds M) as [Dlo Dhi].
  unfold binary_round_aux. unfold shr_fexp at 1. unfold Zdigits2.
  rewrite fexp_normal by lia.
  replace (Zpos (digits2_pos M) + e - 53 - e) with s by (unfold s; lia).
  destruct s as [|ps|ps] eqn:Es; try lia.
  cbn [shr shr_record_of_loc].
  set (r0 := Build_shr_record (Zpos M) false false).
  pose proof (iter_pos_shifted ps r0 ltac:(cbn; lia)) as (Hm & Hc & Hst).
  unfold shr_code in Hc, Hst. cbn [r0 shr_m shr_r shr_s] in Hc, Hst.
  replace (2 * Zpos M + 0) with (2 * Zpos M) in * by lia.
  set (r1 := iter_pos shr_1 ps r0) in *.
  assert (P : 0 < 2 ^ Zpos ps) by (apply Z.pow_pos_nonneg; lia).
  pose proof (Z.div_mod (2 * Zpos M) (2 ^ Zpos ps) ltac:(lia)) as Hdm.
  pose proof (Z.mod_pos_bound (2 * Zpos M) (2 ^ Zpos ps) P) as Hmod.
  set (rho := (2 * Zpos M) mod 2 ^ Zpos ps) in *.
  set (X := (2 * Zpos M) / 2 ^ Zpos ps) in *.
  clearbody X rho.
  set (m1 := round_nearest_even (shr_m r1) (loc_of_shr_record r1)).
  assert (Hpow : 2 ^ (Zpos ps + 1) = 2 * 2 ^ Zpos ps)
    by (rewrite Z.pow_add_r by lia; change (2 ^ 1) with 2; lia).
  (* the bounds of the rounded mantissa *)
  assert (Hm1 : 2 * Zpos M - 2 ^ Zpos ps <= 2 ^ (Zpos ps + 1) * m1
                <= 2 * Zpos M + 2 ^ Zpos ps
                /\ shr_m r1 <= m1 <= shr_m r1 + 1).
  { rewrite Hpow. unfold m1. destruct r1 as [mn rn sn].
    cbn [shr_m shr_r shr_s loc_of_shr_record] in *.
    assert (Hx : 2 ^ Zpos ps * X
                 = 2 * (2 ^ Zpos ps * mn)
                   + 2 ^ Zpos ps * (if rn then 1 else 0))
      by (rewrite <- Hc; ring).
    destruct rn, sn; cbn [round_nearest_even];
      cbn [orb] in Hst; symmetry in Hst.
    - apply negb_true_iff, Z.eqb_neq in Hst. lia.
    - apply negb_false_iff, Z.eqb_eq in Hst.
      destruct (Z.even mn); lia.
    - apply negb_true_iff, Z.eqb_neq in Hst. lia.
    - apply negb_false_iff, Z.eqb_eq in Hst. lia. }
  destruct Hm1 as (Hm1 & Hm1').
  (* the size of the shifted mantissa *)
  assert (Hsz : 2 ^ 52 <= shr_m r1 < 2 ^ 53).
  { assert (HD : Zpos (digits2_pos M) = Zpos ps + 53) by lia.
    rewrite HD in Dlo, Dhi.
    replace (Zpos ps + 53 - 1) with (52 + Zpos ps) in Dlo by lia.
    rewrite Z.pow_add_r in Dlo, Dhi by lia.
    rewrite (Z.mul_comm (2 ^ Zpos ps)) in Dhi.
    destruct (shr_r r1); nia. }
  exists m1.
  destruct (Z_lt_le_dec m1 (2 ^ 53)) as [Hlt|Hge].
  - destruct m1 as [|p1|p1] eqn:E1; try lia.
    exists p1, (e + Zpos ps).
    split; [exact Hm1|]. split; [|left; split; reflexivity].
    rewrite shr_fexp_canonical.
    + cbn [shr_m].
      replace (e + Zpos ps <=? emax - prec) with true; [reflexivity|].
      symmetry. apply Z.leb_le. unfold emax, prec. lia.
    + apply digits2_pos_unique. lia.
    + lia.
  - assert (E1 : m1 = 2 ^ 53) by lia.
    exists (Pos.pow 2 52), (e + Zpos ps + 1).
    split; [exact Hm1|]. split; [|right; repeat split; assumption].
    rewrite E1. unfold shr_fexp.
    change (Zdigits2 (2 ^ 53)) with 54.
    rewrite fexp_normal by lia.
    replace (54 + (e + Zpos ps) - 53 - (e + Zpos ps)) with 1 by lia.
    cbn [shr shr_record_of_loc iter_pos shr_1 shr_m].
    change (2 ^ 53) with (Zpos (4503599627370496~0)).
    cbn [shr_1 shr_m].
    replace (e + Zpos ps + 1 <=? emax - prec) with true; [reflexivity|].
    symmetry. apply Z.leb_le. unfold emax, prec. lia.
Qed.

(** The product of a positive [int] below 2^29 and a normal constant
    [C * 2^eC], truncated: the rounded mantissa [m1] of the double product
    and the shifts that define it. *)
Lemma trunc_mul_const (k : Z) (c : float) (C : positive) (eC : Z) :
  Prim2SF c = S754_finite false C eC ->
  Zpos (digits2_pos C) = 53 -> -60 <= eC <= -50 ->
  0 < k < 2 ^ 29 ->
  exists d s m1 : Z,
    1 <= d <= 29 /\ 2 ^ (d - 1) <= k < 2 ^ d
    /\ 52 <= s <= 53
    /\ 2 ^ (s + 52) <= k * 2 ^ (53 - d) * Zpos C < 2 ^ (s + 53)
    /\ 2 * (k * 2 ^ (53 - d) * Zpos C) - 2 ^ s <= 2 ^ (s + 1) * m1
       <= 2 * (k * 2 ^ (53 - d) * Zpos C) + 2 ^ s
    /\ double_to_int (int_to_double k * c)
       = clamp_int (m1 / 2 ^ (53 - d - eC - s)).
Proof.
  intros Hc HC HeC Hk.
  assert (Hin : in_int k) by (unfold in_int, INT_MIN, INT_MAX; lia).
  destruct (Prim2SF_int_to_double k Hin ltac:(lia)) as (p & Hp & HSF).
  rewrite Z.abs_eq in Hp by lia. subst k.
  replace (Zpos p <? 0) with false in HSF by reflexivity.
  pose proof (digits2_pos_bounds p) as [Dlo Dhi].
  set (d := Zpos (digits2_pos p)) in *.
  assert (Hd : 1 <= d <= 29).
  { split; [unfold d; lia|].
    assert (d - 1 < 29); [|lia].
    apply (Z.pow_lt_mono_r_iff 2); lia. }
  set (mk := Pos.iter xO p (Z.to_pos (53 - d))) in *.
  assert (Hmk : Zpos mk = Zpos p * 2 ^ (53 - d)).
  { unfold mk. rewrite iter_xO_value. rewrite Z2Pos.id by lia. reflexivity. }
  assert (Hmkd : Zpos (digits2_pos mk) = 53).
  { unfold mk. rewrite digits2_pos_iter_xO. fold d.
    rewrite Pos2Z.inj_add. fold d. rewrite Z2Pos.id by lia. lia. }
  pose proof (digits2_pos_bounds mk) as [Mlo Mhi]. rewrite Hmkd in Mlo, Mhi.
  pose proof (digits2_pos_bounds C) as [Clo Chi]. rewrite HC in Clo, Chi.
  change (53 - 1) with 52 in *.
  set (M := (mk * C)%positive).
  assert (HM : Zpos M = Zpos p * 2 ^ (53 - d) * Zpos C)
    by (unfold M; rewrite Pos2Z.inj_mul, Hmk; reflexivity).
  assert (HMr : 2 ^ 104 <= Zpos M < 2 ^ 106).
  { unfold M. rewrite Pos2Z.inj_mul.
    change (2 ^ 104) with (2 ^ 52 * 2 ^ 52).
    change (2 ^ 106) with (2 ^ 53 * 2 ^ 53). nia. }
  pose proof (digits2_pos_bounds M) as [MDlo MDhi].
  set (D := Zpos (digits2_pos M)) in *.
  assert (HD : 105 <= D <= 106).
  { split.
    - destruct (Z_lt_le_dec D 105) as [H|H]; [|exact H].
      assert (2 ^ D <= 2 ^ 104) by (apply Z.pow_le_mono_r; lia). lia.
    - destruct (Z_lt_le_dec 106 D) as [H|H]; [|exact H].
      assert (2 ^ 106 <= 2 ^ (D - 1)) by (apply Z.pow_le_mono_r; lia). lia. }
  destruct (binary_round_aux_wide M (d - 53 + eC))
    as (m1 & m2 & e2 & Hm1 & Hround & Hcases); fold D; try lia.
  exists d, (D - 53), m1.
  split; [exact Hd|]. split; [split; assumption|]. split; [lia|].
  rewrite <- HM.
  replace (D - 53 + 52) with (D - 1) by lia.
  replace (D - 53 + 53) with D by lia.
  split; [split; assumption|]. split; [exact Hm1|].
  unfold double_to_int. rewrite mul_spec, HSF, Hc.
  unfold SF64mul, SFmul. cbn [xorb]. fold M. rewrite Hround.
  f_equal. fold D in Hcases.
  destruct Hcases as [[E1 E2] | (E1 & E2 & E3)].
  - subst e2. replace (0 <=? d - 53 + eC + (D - 53)) with false
      by (symmetry; apply Z.leb_gt; lia).
    rewrite E1. f_equal. f_equal. lia.
  - subst e2. replace (0 <=? d - 53 + eC + (D - 53) + 1) with false
      by (symmetry; apply Z.leb_gt; lia).
    rewrite E1, E2.
    replace (53 - d - eC - (D - 53))
      with (1 + (- (d - 53 + eC + (D - 53) + 1))) by lia.
    rewrite Z.pow_add_r by lia.
    change (2 ^ 53) with (2 ^ 1 * 2 ^ 52).
    rewrite Z.div_mul_cancel_l; [reflexivity| |discriminate].
    apply Z.pow_nonzero; lia.
Qed.

(** The powers of two with a closed exponent, as numerals. *)
Ltac eval_pows :=
  repeat match goal with
         | |- context [2 ^ ?n] =>
             let v := eval vm_compute in (2 ^ n) in
             change (2 ^ n) with v
         | H : context [2 ^ ?n] |- _ =>
             let v := eval vm_compute in (2 ^ n) in
             change (2 ^ n) with v in H
         end.

(** One goal for each value of [x] between [lo] and [hi]. *)
Ltac cases_between x lo hi tac :=
  let rec go n :=
    lazymatch n with
    | O => exfalso; lia
    | S ?n' =>
        let v := eval vm_compute in (hi - Z.of_nat n') in
        destruct (Z.eq_dec x v) as [->|]; [tac | go n']
    end in
  let len := eval vm_compute in (Z.to_nat (hi - lo + 1)) in
  go len.

(** [(int) (k * 0.95)] is the floor of the exact product: the double 0.95
    lies below 19/20 by less than the rounding of the product can see. *)
Lemma scale_095 (k : Z) :
  0 < k < 2 ^ 29 ->
  double_to_int (int_to_double k * 0.95) = k * 95 / 100.
Proof.
  intros Hk.
  destruct (trunc_mul_const k 0.95%float 8556839292003942 (-53))
    as (d & s & m1 & Hd & Hkd & Hs & HM & Hm1 & ->);
    [reflexivity | reflexivity | lia | exact Hk |].
  pose proof (Z.div_mod (k * 95) 100 ltac:(lia)) as Hdm.
  pose proof (Z.mod_pos_bound (k * 95) 100 ltac:(lia)) as Hr.
  set (q := k * 95 / 100) in *. set (r := (k * 95) mod 100) in *.
  clearbody q r.
  assert (LU : 2 ^ (s + 1) * (q * 2 ^ (53 - d - -53 - s) - 1)
               < 2 ^ (s + 1) * m1
               < 2 ^ (s + 1) * ((q + 1) * 2 ^ (53 - d - -53 - s))).
  { clear Hk.
    cases_between d 1 29 idtac.
    all: cases_between s 52 53 idtac.
    all: eval_pows.
    all: split; lia. }
  assert (P : 0 < 2 ^ (s + 1)) by (apply Z.pow_pos_nonneg; lia).
  assert (Hq : m1 / 2 ^ (53 - d - -53 - s) = q).
  { symmetry.
    apply Z.div_unique with (r := m1 - q * 2 ^ (53 - d - -53 - s)); [|lia].
    left. nia. }
  rewrite Hq. unfold clamp_int, INT_MIN, INT_MAX.
  change (2 ^ 29) with 536870912 in *.
  replace (-2147483648 <=? q) with true by (symmetry; apply Z.leb_le; lia).
  replace (q <=? 2147483647) with true by (symmetry; apply Z.leb_le; lia).
  reflexivity.
Qed.

(** [(int) (k * 1.05)] is the floor of the exact product. *)
Lemma scale_105 (k : Z) :
  0 < k < 2 ^ 29 ->
  double_to_int (int_to_double k * 1.05) = k * 105 / 100.
Proof.
  intros Hk.
  destruct (trunc_mul_const k 1.05%float 4728779608739021 (-52))
    as (d & s & m1 & Hd & Hkd & Hs & HM & Hm1 & ->);
    [reflexivity | reflexivity | lia | exact Hk |].
  pose proof (Z.div_mod (k * 105) 100 ltac:(lia)) as Hdm.
  pose proof (Z.mod_pos_bound (k * 105) 100 ltac:(lia)) as Hr.
  set (q := k * 105 / 100) in *. set (r := (k * 105) mod 100) in *.
  clearbody q r.
  assert (LU : 2 ^ (s + 1) * (q * 2 ^ (53 - d - -52 - s) - 1)
               < 2 ^ (s + 1) * m1
               < 2 ^ (s + 1) * ((q + 1) * 2 ^ (53 - d - -52 - s))).
  { clear Hk.
    cases_between d 1 29 idtac.
    all: cases_between s 52 53 idtac.
    all: eval_pows.
    all: split; lia. }
  assert (P : 0 < 2 ^ (s + 1)) by (apply Z.pow_pos_nonneg; lia).
  assert (Hq : m1 / 2 ^ (53 - d - -52 - s) = q).
  { symmetry.
    apply Z.div_unique with (r := m1 - q * 2 ^ (53 - d - -52 - s)); [|lia].
    left. nia. }
  rewrite Hq. unfold clamp_int, INT_MIN, INT_MAX.
  change (2 ^ 29) with 536870912 in *.
  replace (-2147483648 <=? q) with true by (symmetry; apply Z.leb_le; lia).
  replace (q <=? 2147483647) with true by (symmetry; apply Z.leb_le; lia).
  reflexivity.
Qed.

End Binary64.

(* ------------------------------------------------------------------ *)
(** ** The interpolation denominator *)

Lemma sign_change_spec (current previous : Z) :
  sign_change current previous = true
  <-> (0 < current /\ previous < 0) \/ (current < 0 /\ 0 < previous).
Proof.
  unfold sign_change.
  rewrite orb_true_iff, !andb_true_iff, !Z.ltb_lt. tauto.
Qed.

Lemma wrap_int_difference (current previous : Z) :
  in_int current -> in_int previous ->
  sign_change current previous = true ->
  wrap_int (current - previous) <> 0.
Proof.
  unfold in_int, INT_MIN, INT_MAX, wrap_int.
  intros Hc Hp Hs. apply sign_change_spec in Hs.
  intros H.
  assert (Hm : (current - previous + 2147483648) mod 4294967296
               = 2147483648) by lia.
  destruct Hs as [[H1 H2] | [H1 H2]].
  - destruct (Z_lt_le_dec (current - previous) 2147483648) as [Hlt|Hge].
    + rewrite Z.mod_small in Hm by lia. lia.
    + replace (current - previous + 2147483648)
        with (current - previous - 2147483648 + 1 * 4294967296) in Hm by lia.
      rewrite Z.mod_add, Z.mod_small in Hm by lia. lia.
  - destruct (Z_lt_le_dec (current - previous) (-2147483648)) as [Hlt|Hge].
    + replace (current - previous + 2147483648)
        with (current - previous + 6442450944 + (-1) * 4294967296) in Hm
        by lia.
      rewrite Z.mod_add, Z.mod_small in Hm by lia. lia.
    + rewrite Z.mod_small in Hm by lia. lia.
Qed.

(** The guard never fires on the conversion of a non-zero [int]. *)
Lemma guard_denom_int (z : Z) :
  in_int z -> z <> 0 ->
  (fabs (int_to_double z) <? 1e-9)%float = false
  /\ guard_denom (int_to_double z) = int_to_double z
  /\ (int_to_double z =? 0)%float = false.
Proof.
  intros Hz Hnz.
  destruct (Prim2SF_int_to_double z Hz Hnz) as (p & Hp & HSF).
  assert (Hlt : (fabs (int_to_double z) <? 1e-9)%float = false).
  { unfold fabs. rewrite ltb_spec, abs_spec, HSF.
    change (Prim2SF 1e-9) with (S754_finite false 4835703278458517 (-82)).
    unfold SFabs, SFltb, SFcompare.
    destruct (Z.compare_spec (Zpos (digits2_pos p) - 53) (-82)) as [H|H|H];
      try lia; reflexivity. }
  split; [exact Hlt|]. split.
  - unfold guard_denom. rewrite Hlt. reflexivity.
  - rewrite eqb_spec, HSF.
    change (Prim2SF 0) with (S754_zero false).
    unfold SFeqb, SFcompare. destruct (z <? 0); reflexivity.
Qed.

(** In the sign-change branch the guard is idle: the offset is the plain
    quotient. *)
Lemma crossing_offset_plain (nsps : float) (current previous : Z) :
  in_int current -> in_int previous ->
  sign_change current previous = true ->
  crossing_offset nsps current previous
  = (int_to_double (wrap_int (- previous)) * nsps
     / int_to_double (wrap_int (current - previous)))%float.
Proof.
  intros Hc Hp Hs.
  pose proof (wrap_int_difference current previous Hc Hp Hs) as Hnz.
  destruct (guard_denom_int (wrap_int (current - previous))
              (wrap_int_range _) Hnz) as (_ & H2 & _).
  unfold crossing_offset. rewrite H2. reflexivity.
Qed.

(** C10.  In the sign-change branch the two operands are [int]s of strictly
    opposite sign: their difference is at least 2 in absolute value, the
    denominator the code computes from it is a non-zero double -- also if
    the [int] subtraction wrapped around --, the test [fabs(denom) < 1e-9]
    is false, so the substitution of [1e-9] never happens and the offset is
    the plain quotient. *)
Theorem crossing_denominator_safe (nsps : float) (current previous : Z) :
  in_int current -> in_int previous ->
  sign_change current previous = true ->
  let denom := int_to_double (wrap_int (current - previous)) in
  2 <= Z.abs (current - previous)
  /\ (in_int (current - previous) ->
      wrap_int (current - previous) = current - previous)
  /\ wrap_int (current - previous) <> 0
  /\ (fabs denom <? 1e-9)%float = false
  /\ guard_denom denom = denom
  /\ (denom =? 0)%float = false
  /\ crossing_offset nsps current previous
     = (int_to_double (wrap_int (- previous)) * nsps / denom)%float.
Proof.
  intros Hc Hp Hs denom.
  pose proof (wrap_int_difference current previous Hc Hp Hs) as Hnz.
  destruct (guard_denom_int (wrap_int (current - previous))
              (wrap_int_range _) Hnz) as (H1 & H2 & H3).
  apply sign_change_spec in Hs.
  split; [lia|].
  split; [intros Hd; apply wrap_int_id; exact Hd|].
  split; [exact Hnz|].
  split; [exact H1|].
  split; [exact H2|].
  split; [exact H3|].
  apply crossing_offset_plain; [exact Hc | exact Hp |].
  apply sign_change_spec. exact Hs.
Qed.

Lemma crossing_denominator_safe_witness :
  in_int 7 /\ in_int (-5) /\ sign_change 7 (-5) = true
  /\ 2 <= Z.abs (7 - (-5))
  /\ guard_denom (int_to_double (wrap_int (7 - (-5))))
     = int_to_double (wrap_int (7 - (-5)))
  /\ crossing_offset 20833.333333333332 7 (-5)
     = (int_to_double (wrap_int (- (-5))) * 20833.333333333332
        / int_to_double (wrap_int (7 - (-5))))%float.
Proof.
  assert (H7 : in_int 7) by (unfold in_int, INT_MIN, INT_MAX; lia).
  assert (H5 : in_int (-5)) by (unfold in_int, INT_MIN, INT_MAX; lia).
  assert (Hs : sign_change 7 (-5) = true) by reflexivity.
  destruct (crossing_denominator_safe 20833.333333333332%float 7 (-5)
              H7 H5 Hs) as (A & _ & _ & _ & B & _ & C).
  repeat split; assumption.
Defined.

(* ------------------------------------------------------------------ *)
(** ** flutterMeter_init: the derived configuration *)

Lemma double_to_int_range (d : float) : in_int (double_to_int d).
Proof.
  assert (H0 : in_int 0) by (unfold in_int, INT_MIN, INT_MAX; lia).
  assert (Hm : in_int INT_MIN) by (unfold in_int, INT_MIN, INT_MAX; lia).
  unfold double_to_int.
  destruct (Prim2SF d) as [s|s| |s m e]; try assumption.
  unfold clamp_int.
  match goal with
  | |- context [(INT_MIN <=? ?z) && (?z <=? INT_MAX)] =>
      destruct (Z.leb_spec INT_MIN z), (Z.leb_spec z INT_MAX);
      cbn [andb]; try assumption
  end.
  split; assumption.
Qed.

Lemma int_crossings_div (test_frequency : float) :
  int_min_crossings test_frequency
  = double_to_int test_frequency / 5 * 95 / 100
  /\ int_max_crossings test_frequency
     = double_to_int test_frequency / 5 * 105 / 100.
Proof. split; reflexivity. Qed.

(** C1, as the code has it.  The two gate bounds are the truncations of
    the double products [k * 0.95] and [k * 1.05] where [k] is the [int]
    quotient by 5 of the test frequency truncated to an [int]; these
    truncations are the floors of the exact products.  The window length is
    [sample_rate / 10] and the two periods are the double quotients the
    specification gives. *)
Theorem init_config (m : Meter) (sample_rate : Z) (test_frequency : float) :
  0 < sample_rate ->
  0 <= double_to_int test_frequency ->
  let m' := flutterMeter_init m sample_rate test_frequency in
  min_zero_crossings (config m') = int_min_crossings test_frequency
  /\ max_zero_crossings (config m') = int_max_crossings test_frequency
  /\ samples_per_100ms (config m') = sample_rate / 10
  /\ expected_half_period_ns (config m')
     = (0.5 * 1.0e9 / test_frequency)%float
  /\ nanoseconds_per_sample (interval m')
     = (1.0e9 / int_to_double sample_rate)%float.
Proof.
  intros Hs Hf m'.
  pose proof (double_to_int_range test_frequency) as Hr.
  unfold in_int, INT_MIN, INT_MAX in Hr.
  destruct (int_crossings_div test_frequency) as (Emin & Emax).
  rewrite Emin, Emax.
  assert (Hq : Z.quot (double_to_int test_frequency) 5
               = double_to_int test_frequency / 5)
    by (apply Z.quot_div_nonneg; lia).
  unfold m', flutterMeter_init; cbn [config interval min_zero_crossings
    max_zero_crossings samples_per_100ms expected_half_period_ns
    nanoseconds_per_sample].
  rewrite Hq.
  set (k := double_to_int test_frequency / 5).
  assert (Hk : 0 <= k < 2 ^ 29).
  { unfold k. split; [apply Z.div_pos; lia|].
    apply Z.div_lt_upper_bound; [lia|]. change (2 ^ 29) with 536870912. lia. }
  assert (Hscale : double_to_int (int_to_double k * 0.95) = k * 95 / 100
                   /\ double_to_int (int_to_double k * 1.05)
                      = k * 105 / 100).
  { destruct (Z.eq_dec k 0) as [->|Hne]; [split; reflexivity|].
    split; [apply scale_095 | apply scale_105]; lia. }
  destruct Hscale as (Hmin & Hmax).
  split; [exact Hmin|]. split; [exact Hmax|].
  split; [apply Z.quot_div_nonneg; lia|].
  split; reflexivity.
Qed.

Lemma init_config_witness :
  0 < 48000 /\ 0 <= double_to_int 3150
  /\ min_zero_crossings (config (flutterMeter_init power_on 48000 3150))
     = int_min_crossings 3150
  /\ max_zero_crossings (config (flutterMeter_init power_on 48000 3150))
     = int_max_crossings 3150
  /\ samples_per_100ms (config (flutterMeter_init power_on 48000 3150))
     = 48000 / 10.
Proof.
  assert (H1 : 0 < 48000) by lia.
  assert (H2 : 0 <= double_to_int 3150) by (vm_compute; discriminate).
  destruct (init_config power_on 48000 3150%float H1 H2) as (A & B & C & _).
  repeat split; try assumption; try lia.
Defined.

(** C1 as the specification words it fails: at 3159 Hz the real product
    [3159 / 5 * 0.95 = 600.21] has floor 600 and [3159 / 5 * 1.05 = 663.39]
    has floor 663, while the code divides 3159 by 5 as an [int] first and
    stores 599 and 662. *)
Lemma init_config_counterexample :
  let m' := flutterMeter_init power_on 48000 3159 in
  (0 <? 3159)%float = true
  /\ spec_min_crossings 3159 = 600
  /\ spec_max_crossings 3159 = 663
  /\ min_zero_crossings (config m') = 599
  /\ max_zero_crossings (config m') = 662
  /\ min_zero_crossings (config m') <> spec_min_crossings 3159
  /\ max_zero_crossings (config m') <> spec_max_crossings 3159.
Proof.
  vm_compute. repeat split; discriminate.
Qed.

(* ------------------------------------------------------------------ *)
(** ** What the second pass leaves alone *)

Lemma emit_config (ft : Z) (m : Meter) (l : Locals) :
  config (fst (emit ft m l)) = config m
  /\ previous_sample_raw (fst (emit ft m l)) = previous_sample_raw m
  /\ results (fst (emit ft m l)) = results m.
Proof.
  unfold emit. destruct (weight ft (filters m) _) as [f e].
  repeat split.
Qed.

Lemma dsp_sample_config (ft : Z) (s : Meter * Locals) (raw : Z) :
  config (fst (dsp_sample ft s raw)) = config (fst s)
  /\ previous_sample_raw (fst (dsp_sample ft s raw))
     = previous_sample_raw (fst s)
  /\ results (fst (dsp_sample ft s raw)) = results (fst s).
Proof.
  destruct s as [m l]. unfold dsp_sample.
  destruct (process_2nd_order _ _) as [b out].
  destruct (detect _ _) as [iv zc].
  destruct zc; [|repeat split].
  cbn [accum].
  destruct (negb (is_first_buffer (accum m) =? 0)); [repeat split|].
  match goal with
  | |- context [emit ft ?mm ?ll] =>
      destruct (emit_config ft mm ll) as (A & B & C)
  end.
  rewrite A, B, C. repeat split.
Qed.

Lemma second_pass_config (ft : Z) (blk : list Z) (m : Meter) (l : Locals) :
  config (fst (second_pass ft m l blk)) = config m
  /\ previous_sample_raw (fst (second_pass ft m l blk))
     = previous_sample_raw m
  /\ results (fst (second_pass ft m l blk)) = results m.
Proof.
  unfold second_pass.
  change m with (fst (m, l)) at 2 4 6. generalize (m, l). clear m l.
  induction blk as [|x t IH]; intros s; [repeat split|].
  cbn [fold_left].
  destruct (IH (dsp_sample ft s x)) as (A & B & C).
  destruct (dsp_sample_config ft s x) as (A' & B' & C').
  repeat split; congruence.
Qed.

Lemma close_window_config (m : Meter) (l : Locals) :
  config (close_window m l) = config m
  /\ previous_sample_raw (close_window m l) = previous_sample_raw m.
Proof.
  unfold close_window.
  destruct (rms_1sec_buffer_index (windows m) + 1 =? 10); [|split; reflexivity].
  destruct (scan _ _). split; reflexivity.
Qed.

Lemma window_body_config (ft : Z) (blk : list Z) (c : Call) :
  config (call_meter (window_body ft blk c)) = config (call_meter c).
Proof.
  unfold window_body.
  destruct (gate_pass _ blk) as [[ma zc] raw].
  destruct (ma <? 50); [reflexivity|].
  cbn [config set_previous_sample_raw].
  destruct (_ || _); [reflexivity|].
  match goal with
  | |- context [second_pass ft ?m ?l blk] =>
      pose proof (second_pass_config ft blk m l) as (A & _);
      destruct (second_pass ft m l blk) as [m2 l2]
  end.
  cbn [call_meter fst config set_previous_sample_raw] in *.
  destruct (close_window_config m2 l2) as (B & _).
  rewrite B. exact A.
Qed.

(* ------------------------------------------------------------------ *)
(** ** The first pass computes the gate's two figures *)

Lemma last_cons {A : Type} (l : list A) (a d : A) :
  last (a :: l) d = last l a.
Proof.
  revert a d. induction l as [|b t IH]; intros a d; [reflexivity|].
  change (last (a :: b :: t) d) with (last (b :: t) d).
  rewrite !IH. reflexivity.
Qed.

Lemma gate_pass_fold (blk : list Z) (ma zc prev : Z) :
  0 <= ma ->
  fold_left gate_step blk (ma, zc, prev)
  = (Z.max ma (max_positive blk), zc + count_crossings prev blk,
     last_raw prev blk).
Proof.
  revert ma zc prev.
  induction blk as [|x t IH]; intros ma zc prev Hma.
  - unfold max_positive, last_raw. simpl. f_equal. f_equal; lia.
  - cbn [fold_left gate_step].
    rewrite IH by (destruct (ma <? to_short x) eqn:E;
                   [apply Z.ltb_lt in E|]; lia).
    unfold max_positive, last_raw, crosses.
    cbn [map fold_right count_crossings].
    f_equal; [f_equal|].
    + destruct (ma <? to_short x) eqn:E;
        [apply Z.ltb_lt in E | apply Z.ltb_ge in E]; lia.
    + unfold crosses. destruct (_ || _); lia.
    + symmetry. apply last_cons.
Qed.

Lemma gate_pass_spec (prev : Z) (blk : list Z) :
  gate_pass prev blk
  = (max_positive blk, count_crossings prev blk, last_raw prev blk).
Proof.
  unfold gate_pass. rewrite gate_pass_fold by lia.
  assert (0 <= max_positive blk).
  { unfold max_positive. induction (map to_short blk); simpl; lia. }
  f_equal. f_equal. lia.
Qed.

(** C3.  A block goes through the second pass exactly when it is valid:
    its largest positive sample is at least 50 and its number of sign
    changes lies between the two gate bounds.  A block that is not valid
    changes nothing but the gate's [previous_sample_raw], which becomes the
    block's last sample; the filter buffers, the crossing detector, the
    accumulators, the rings with their indices and the results are those of
    before.  Either way the pointer moves on by one window. *)
Theorem gate_decides (ft : Z) (samples : list Z) (c : Call) (pos : Z) :
  let m := call_meter c in
  let blk := block samples pos (samples_per_100ms (config m)) in
  let prev := previous_sample_raw m in
  snd (process_window ft samples (c, pos))
  = pos + samples_per_100ms (config m)
  /\ (valid_block (config m) prev blk ->
      fst (process_window ft samples (c, pos))
      = let '(m', l) :=
          second_pass ft (set_previous_sample_raw (last_raw prev blk) m)
            (mkLocals (call_freq_sum c) (call_freq_count c) 0 0) blk in
        mkCall (close_window m' l) (freq_sum_5sec l) (freq_count_5sec l))
  /\ (~ valid_block (config m) prev blk ->
      fst (process_window ft samples (c, pos))
      = mkCall (set_previous_sample_raw (last_raw prev blk) m)
               (call_freq_sum c) (call_freq_count c)).
Proof.
  intros m blk prev.
  unfold process_window. cbn [fst snd]. fold m. fold blk.
  split; [reflexivity|].
  unfold window_body. fold m. fold prev.
  rewrite gate_pass_spec. cbn [config set_previous_sample_raw].
  unfold valid_block.
  destruct (max_positive blk <? 50) eqn:E1;
    [apply Z.ltb_lt in E1 | apply Z.ltb_ge in E1].
  { split; [lia | reflexivity]. }
  destruct (count_crossings prev blk <? min_zero_crossings (config m)) eqn:E2;
    [apply Z.ltb_lt in E2 | apply Z.ltb_ge in E2]; cbn [orb].
  { split; [lia | reflexivity]. }
  destruct (max_zero_crossings (config m) <? count_crossings prev blk) eqn:E3;
    [apply Z.ltb_lt in E3 | apply Z.ltb_ge in E3].
  { split; [lia | reflexivity]. }
  split; [reflexivity | lia].
Qed.

Lemma gate_decides_witness :
  let m := flutterMeter_init power_on 10 5 in
  valid_block (config m) 0 (block [100] 0 1)
  /\ ~ valid_block (config m) 0 (block [3] 0 1)
  /\ fst (process_window 0 [100] (mkCall m 0 0, 0))
     = (let '(m', l) :=
          second_pass 0 (set_previous_sample_raw 100 m)
                      (mkLocals 0 0 0 0) [100] in
        mkCall (close_window m' l) (freq_sum_5sec l) (freq_count_5sec l))
  /\ fst (process_window 0 [3] (mkCall m 0 0, 0))
     = mkCall (set_previous_sample_raw 3 m) 0 0.
Proof.
  intros m.
  assert (V : valid_block (config m) 0 (block [100] 0 1)).
  { unfold valid_block. vm_compute. repeat split; discriminate. }
  assert (N : ~ valid_block (config m) 0 (block [3] 0 1)).
  { unfold valid_block. vm_compute. intros [H _]. apply H. reflexivity. }
  split; [exact V|]. split; [exact N|].
  split.
  - exact (proj1 (proj2 (gate_decides 0 [100] (mkCall m 0 0) 0)) V).
  - exact (proj2 (proj2 (gate_decides 0 [3] (mkCall m 0 0) 0)) N).
Defined.

(* ------------------------------------------------------------------ *)
(** ** The hundred windows of a call *)

Lemma block_firstn_skipn (samples : list Z) (pos n : nat) :
  (pos + n <= length samples)%nat ->
  block samples (Z.of_nat pos) (Z.of_nat n) = firstn n (skipn pos samples).
Proof.
  unfold block. rewrite Nat2Z.id.
  revert samples n. induction pos as [|p IH]; intros samples n H.
  - cbn [skipn Z.of_nat].
    revert samples H. induction n as [|n IHn]; intros samples H;
      [reflexivity|].
    destruct samples as [|x t]; [simpl in H; lia|].
    cbn [seq map firstn]. f_equal.
    rewrite <- seq_shift, map_map.
    rewrite <- IHn by (simpl in H; lia).
    apply map_ext. intros i.
    change (0 + Z.of_nat (S i)) with (Z.of_nat (S i)).
    change (0 + Z.of_nat i) with (Z.of_nat i).
    rewrite !Nat2Z.id. reflexivity.
  - destruct samples as [|x t]; [simpl in H; lia|].
    cbn [skipn]. rewrite <- IH by (simpl in H; lia).
    apply map_ext. intros i.
    replace (Z.to_nat (Z.of_nat (S p) + Z.of_nat i))
      with (S (Z.to_nat (Z.of_nat p + Z.of_nat i))) by lia.
    reflexivity.
Qed.

Lemma chunks_app (n k : nat) (l extra : list Z) :
  (k * n <= length l)%nat ->
  chunks n k (l ++ extra) = chunks n k l.
Proof.
  revert l. induction k as [|k IH]; intros l H; [reflexivity|].
  cbn [chunks]. simpl in H.
  rewrite firstn_app, skipn_app.
  replace (n - length l)%nat with 0%nat by lia.
  cbn [firstn skipn]. rewrite app_nil_r.
  f_equal. apply IH. rewrite length_skipn. lia.
Qed.

(** The loop over the windows visits consecutive chunks of the array. *)
Lemma windows_chunks (ft : Z) (samples : list Z) (k : nat) :
  forall (c : Call) (pos : nat),
    0 <= samples_per_100ms (config (call_meter c)) ->
    (pos + k * Z.to_nat (samples_per_100ms (config (call_meter c)))
     <= length samples)%nat ->
    fst (iterate k (process_window ft samples) (c, Z.of_nat pos))
    = fold_left (fun c blk => window_body ft blk c)
        (chunks (Z.to_nat (samples_per_100ms (config (call_meter c)))) k
                (skipn pos samples))
        c.
Proof.
  induction k as [|k IH]; intros c pos Hn Hlen; [reflexivity|].
  cbn [iterate chunks fold_left]. unfold process_window at 2.
  set (n := samples_per_100ms (config (call_meter c))) in *.
  assert (Hb : block samples (Z.of_nat pos) n
               = firstn (Z.to_nat n) (skipn pos samples)).
  { rewrite <- (Z2Nat.id n) at 1 by lia.
    apply block_firstn_skipn. simpl in Hlen. lia. }
  rewrite Hb.
  set (c' := window_body ft (firstn (Z.to_nat n) (skipn pos samples)) c).
  assert (Hc : samples_per_100ms (config (call_meter c')) = n).
  { unfold c'. rewrite window_body_config. reflexivity. }
  replace (Z.of_nat pos + n) with (Z.of_nat (pos + Z.to_nat n)) by lia.
  rewrite IH; rewrite Hc.
  - rewrite skipn_skipn. rewrite (Nat.add_comm (Z.to_nat n) pos).
    reflexivity.
  - lia.
  - simpl in Hlen. lia.
Qed.

(** C2.  A call with fewer than [100 * samples_per_100ms] samples returns
    -1 and leaves every static as it was.  Any other call returns 0 after
    running the window body on exactly one hundred consecutive chunks of
    [samples_per_100ms] samples; what follows them in the array is not
    looked at. *)
Theorem process_samples_count (m : Meter) (samples : list Z)
                              (num_samples ft : Z) :
  in_int (samples_per_100ms (config m) * 100) ->
  let n := samples_per_100ms (config m) in
  (num_samples < 100 * n -> process_samples m samples num_samples ft = (m, -1))
  /\ (100 * n <= num_samples ->
      forall body extra : list Z,
        samples = body ++ extra ->
        Z.of_nat (length body) = 100 * n ->
        process_samples m samples num_samples ft
        = (call_meter
             (fold_left (fun c blk => window_body ft blk c)
                        (chunks (Z.to_nat n) 100 body) (mkCall m 0 0)),
           0)).
Proof.
  intros Hprod n. unfold process_samples.
  rewrite (wrap_int_id _ Hprod). fold n.
  split.
  - intros Hlt.
    destruct (num_samples <? n * 100) eqn:E; [reflexivity|].
    apply Z.ltb_ge in E. lia.
  - intros Hge body extra -> Hlen.
    destruct (num_samples <? n * 100) eqn:E; [apply Z.ltb_lt in E; lia|].
    f_equal. f_equal.
    assert (Hn : 0 <= n) by lia.
    pose proof (windows_chunks ft (body ++ extra) 100 (mkCall m 0 0) 0%nat)
      as W.
    cbn [call_meter Z.of_nat skipn] in W. fold n in W.
    rewrite W.
    + rewrite chunks_app by lia. reflexivity.
    + exact Hn.
    + rewrite length_app. lia.
Qed.

Lemma process_samples_count_witness :
  let m := flutterMeter_init power_on 20 5 in
  in_int (samples_per_100ms (config m) * 100)
  /\ process_samples m [1; 2; 3; 4; 5] 5 0 = (m, -1)
  /\ process_samples m (repeat 7 200 ++ [1; 2; 3]) 200 0
     = (call_meter
          (fold_left (fun c blk => window_body 0 blk c)
                     (chunks 2 100 (repeat 7 200)) (mkCall m 0 0)),
        0).
Proof.
  intros m.
  assert (Hp : in_int (samples_per_100ms (config m) * 100))
    by (unfold in_int, INT_MIN, INT_MAX; vm_compute; split; discriminate).
  split; [exact Hp|].
  split.
  - apply (proj1 (process_samples_count m [1; 2; 3; 4; 5] 5 0 Hp)).
    vm_compute. reflexivity.
  - apply (proj2 (process_samples_count m (repeat 7 200 ++ [1; 2; 3])
                    200 0 Hp)) with (extra := [1; 2; 3]).
    + vm_compute. discriminate.
    + reflexivity.
    + reflexivity.
Defined.

(* ------------------------------------------------------------------ *)
(** ** Silence *)

Lemma map_zeros (N : nat) (pos : Z) (l : list nat) :
  map (fun i => nth (Z.to_nat (pos + Z.of_nat i)) (repeat 0 N) 0) l
  = repeat 0 (length l).
Proof.
  induction l as [|i t IH]; [reflexivity|].
  cbn [map length repeat]. rewrite nth_repeat, IH. reflexivity.
Qed.

Lemma block_zeros (N : nat) (pos n : Z) :
  block (repeat 0 N) pos n = repeat 0 (Z.to_nat n).
Proof.
  unfold block. rewrite map_zeros, length_seq. reflexivity.
Qed.

Lemma max_positive_zeros (k : nat) : max_positive (repeat 0 k) = 0.
Proof.
  unfold max_positive. induction k as [|k IH]; [reflexivity|].
  cbn [repeat map fold_right]. rewrite IH. reflexivity.
Qed.

Lemma last_raw_zeros (prev : Z) (k : nat) :
  last_raw prev (repeat 0 k) = if (0 <? k)%nat then 0 else prev.
Proof.
  unfold last_raw. destruct k as [|k]; [reflexivity|].
  cbn [repeat map]. rewrite last_cons.
  change (to_short 0) with 0.
  induction k as [|k IH]; [reflexivity|].
  cbn [repeat map]. rewrite last_cons. exact IH.
Qed.

(** A window of zeros is rejected by the amplitude test. *)
Lemma window_body_zeros (ft : Z) (k : nat) (c : Call) :
  window_body ft (repeat 0 k) c
  = mkCall (set_previous_sample_raw
              (if (0 <? k)%nat then 0
               else previous_sample_raw (call_meter c))
              (call_meter c))
           (call_freq_sum c) (call_freq_count c).
Proof.
  unfold window_body.
  rewrite gate_pass_spec, max_positive_zeros, last_raw_zeros.
  reflexivity.
Qed.

Lemma windows_zeros (ft : Z) (N : nat) (m : Meter) (j : nat) :
  forall (r pos : Z),
    fst (iterate j (process_window ft (repeat 0 N))
                 (mkCall (set_previous_sample_raw r m) 0 0, pos))
    = mkCall (set_previous_sample_raw
                (if (0 <? samples_per_100ms (config m)) && (0 <? j)%nat
                 then 0 else r) m) 0 0.
Proof.
  induction j as [|j IH]; intros r pos.
  - cbn [iterate fst]. rewrite andb_false_r. reflexivity.
  - cbn [iterate]. unfold process_window at 2.
    rewrite block_zeros, window_body_zeros.
    cbn [call_meter call_freq_sum call_freq_count config
         set_previous_sample_raw previous_sample_raw filters interval
         filterio accum windows results].
    change (set_previous_sample_raw ?x (set_previous_sample_raw r m))
      with (set_previous_sample_raw x m).
    rewrite IH.
    destruct (0 <? samples_per_100ms (config m)) eqn:E.
    + apply Z.ltb_lt in E.
      replace (0 <? Z.to_nat (samples_per_100ms (config m)))%nat with true
        by (symmetry; apply Nat.ltb_lt; lia).
      destruct (0 <? j)%nat; reflexivity.
    + apply Z.ltb_ge in E.
      replace (0 <? Z.to_nat (samples_per_100ms (config m)))%nat with false
        by (symmetry; apply Nat.ltb_ge; lia).
      reflexivity.
Qed.

(** C7.  After [flutterMeter_init], ten seconds of zeros are accepted
    (return value 0), every window is rejected by the gate, and the results
    read back are exactly [0.0], [0.0], [0.0] -- no NaN.  Nothing but the
    gate's [previous_sample_raw] differs from the state after init. *)
Theorem silence (m : Meter) (sample_rate : Z) (test_frequency : float)
                (ft : Z) :
  0 < sample_rate ->
  in_int (100 * (sample_rate / 10)) ->
  let m0 := flutterMeter_init m sample_rate test_frequency in
  let n := 100 * samples_per_100ms (config m0) in
  let r := process_samples m0 (repeat 0 (Z.to_nat n)) n ft in
  snd r = 0
  /\ get_results (fst r) = (0%float, 0%float, 0%float)
  /\ fst r = set_previous_sample_raw
               (if 0 <? sample_rate / 10 then 0 else previous_sample_raw m)
               m0.
Proof.
  intros Hsr Hint m0 n r.
  assert (Hspw : samples_per_100ms (config m0) = sample_rate / 10)
    by (apply Z.quot_div_nonneg; lia).
  assert (Hr : r = (set_previous_sample_raw
                      (if 0 <? sample_rate / 10 then 0
                       else previous_sample_raw m) m0, 0)).
  { unfold r, process_samples.
    rewrite wrap_int_id
      by (rewrite Hspw; replace (sample_rate / 10 * 100)
            with (100 * (sample_rate / 10)) by lia; exact Hint).
    replace (n <? samples_per_100ms (config m0) * 100) with false
      by (symmetry; apply Z.ltb_ge; unfold n; lia).
    f_equal.
    change (mkCall m0 0 0)
      with (mkCall (set_previous_sample_raw (previous_sample_raw m) m0) 0 0).
    rewrite windows_zeros. cbn [call_meter].
    rewrite Hspw.
    replace (0 <? 100)%nat with true by reflexivity.
    rewrite andb_true_r. reflexivity. }
  rewrite Hr. cbn [fst snd].
  split; [reflexivity|]. split; reflexivity.
Qed.

Lemma silence_witness :
  0 < 48000 /\ in_int (100 * (48000 / 10))
  /\ snd (process_samples (flutterMeter_init power_on 48000 3150)
            (repeat 0 (Z.to_nat 480000)) 480000 1) = 0
  /\ get_results
       (fst (process_samples (flutterMeter_init power_on 48000 3150)
               (repeat 0 (Z.to_nat 480000)) 480000 1))
     = (0%float, 0%float, 0%float).
Proof.
  assert (H1 : 0 < 48000) by lia.
  assert (H2 : in_int (100 * (48000 / 10)))
    by (unfold in_int, INT_MIN, INT_MAX; split; discriminate).
  destruct (silence power_on 48000 3150%float 1 H1 H2) as (A & B & _).
  split; [exact H1|]. split; [exact H2|]. split; [exact A | exact B].
Defined.

(* ------------------------------------------------------------------ *)
(** ** The crossing detector *)

(** C4.  The detector, sample by sample.  At a sign change the interval
    grows by the interpolated offset [-previous * nsps / (current -
    previous)], the remainder becomes [nsps] minus that offset and the
    sample is a crossing; at any other sample the interval grows by exactly
    [nsps]; and a sample that is exactly zero sets the remainder to zero and
    is a crossing.  A sample that is neither leaves the remainder alone and
    is no crossing.  The previous value becomes the current one. *)
Theorem detect_step (iv : Interval) (current : Z) :
  in_int current -> in_int (previous_sample iv) ->
  let previous := previous_sample iv in
  let nsps := nanoseconds_per_sample iv in
  let iv' := fst (detect iv current) in
  let is_crossing := snd (detect iv current) in
  previous_sample iv' = current
  /\ nanoseconds_per_sample iv' = nsps
  /\ (sign_change current previous = true ->
      in_int (- previous) -> in_int (current - previous) ->
      let crossing_offset_ns :=
        (int_to_double (- previous) * nsps
         / int_to_double (current - previous))%float in
      current_interval_ns iv'
      = (current_interval_ns iv + crossing_offset_ns)%float
      /\ interval_remainder_ns iv' = (nsps - crossing_offset_ns)%float
      /\ is_crossing = true)
  /\ (sign_change current previous = false ->
      current_interval_ns iv' = (current_interval_ns iv + nsps)%float)
  /\ (current = 0 ->
      interval_remainder_ns iv' = 0%float /\ is_crossing = true)
  /\ (sign_change current previous = false -> current <> 0 ->
      interval_remainder_ns iv' = interval_remainder_ns iv
      /\ is_crossing = false).
Proof.
  intros Hc Hp previous nsps iv' is_crossing.
  unfold iv', is_crossing, detect. fold previous nsps.
  destruct (sign_change current previous) eqn:Hs.
  - pose proof (crossing_offset_plain nsps current previous Hc Hp Hs)
      as Hoff.
    assert (Hnz : current <> 0) by (apply sign_change_spec in Hs; lia).
    apply Z.eqb_neq in Hnz. rewrite Hnz. cbn [fst snd previous_sample
      current_interval_ns interval_remainder_ns nanoseconds_per_sample].
    split; [reflexivity|]. split; [reflexivity|].
    split.
    { intros _ Hneg Hdiff. cbv zeta. rewrite Hoff.
      rewrite !wrap_int_id by assumption. repeat split. }
    split; [discriminate|].
    split; [intros H0; apply Z.eqb_neq in Hnz; contradiction|].
    discriminate.
  - destruct (current =? 0) eqn:H0; cbn [fst snd previous_sample
      current_interval_ns interval_remainder_ns nanoseconds_per_sample].
    + split; [reflexivity|]. split; [reflexivity|].
      split; [discriminate|]. split; [reflexivity|].
      split; [split; reflexivity|].
      intros _ Hne. apply Z.eqb_eq in H0. contradiction.
    + split; [reflexivity|]. split; [reflexivity|].
      split; [discriminate|]. split; [reflexivity|].
      split; [intros He; apply Z.eqb_neq in H0; contradiction|].
      split; reflexivity.
Qed.

Lemma detect_step_witness :
  let iv := mkInterval (-5) 100 3 20833.333333333332 in
  in_int 7 /\ in_int (previous_sample iv)
  /\ sign_change 7 (-5) = true
  /\ current_interval_ns (fst (detect iv 7))
     = (100 + int_to_double (- (-5)) * 20833.333333333332
              / int_to_double (7 - (-5)))%float
  /\ interval_remainder_ns (fst (detect iv 7))
     = (20833.333333333332
        - int_to_double (- (-5)) * 20833.333333333332
          / int_to_double (7 - (-5)))%float
  /\ snd (detect iv 7) = true
  /\ current_interval_ns (fst (detect iv (-2)))
     = (100 + 20833.333333333332)%float
  /\ interval_remainder_ns (fst (detect iv 0)) = 0%float
  /\ snd (detect iv 0) = true.
Proof.
  intros iv.
  assert (R : forall z, -100 <= z <= 100 -> in_int z)
    by (unfold in_int, INT_MIN, INT_MAX; lia).
  assert (H7 : in_int 7) by (apply R; lia).
  assert (Hp : in_int (previous_sample iv)) by (apply R; simpl; lia).
  destruct (detect_step iv 7 H7 Hp) as (_ & _ & A & _).
  destruct (detect_step iv (-2) (R (-2) ltac:(lia)) Hp) as (_ & _ & _ & B & _).
  destruct (detect_step iv 0 (R 0 ltac:(lia)) Hp) as (_ & _ & _ & _ & C & _).
  destruct (A eq_refl (R 5 ltac:(lia)) (R 12 ltac:(lia)))
    as (A1 & A2 & A3).
  destruct (C eq_refl) as (C1 & C2).
  split; [exact H7|]. split; [exact Hp|]. split; [reflexivity|].
  split; [exact A1|]. split; [exact A2|]. split; [exact A3|].
  split; [exact (B eq_refl)|]. split; [exact C1 | exact C2].
Defined.

(* ------------------------------------------------------------------ *)
(** ** The peak slot of a window *)

Lemma rd_wr (b : list float) (i : nat) (v : float) :
  (i < length b)%nat -> rd (wr b i v) i = v.
Proof.
  unfold rd. revert i. induction b as [|h t IH]; intros i Hi.
  - simpl in Hi. lia.
  - destruct i as [|j]; [reflexivity|].
    cbn [wr nth]. apply IH. simpl in Hi. lia.
Qed.

Lemma length_wr (b : list float) (i : nat) (v : float) :
  length (wr b i v) = length b.
Proof.
  revert i. induction b as [|h t IH]; intros i; [reflexivity|].
  destruct i; cbn [wr length]; [reflexivity|]. rewrite IH. reflexivity.
Qed.

Lemma same_rings_refl (w : Windows) : same_rings w w.
Proof. repeat split. Qed.

Lemma same_rings_trans (a b c : Windows) :
  same_rings a b -> same_rings b c -> same_rings a c.
Proof.
  unfold same_rings. intros (A1 & A2 & A3 & A4 & A5) (B1 & B2 & B3 & B4 & B5).
  repeat split; congruence.
Qed.

(** One sample of the second pass either measures a crossing, and then
    [max_quasi_peak] is the new [current_quasi_peak], or leaves the locals
    and the window group as they are. *)
Lemma dsp_sample_measured (ft : Z) (s : Meter * Locals) (raw : Z) :
  let s' := dsp_sample ft s raw in
  same_rings (windows (fst s)) (windows (fst s'))
  /\ ((measured ft s raw = true
       /\ max_quasi_peak (snd s') = current_quasi_peak (windows (fst s')))
      \/ (measured ft s raw = false
          /\ snd s' = snd s /\ windows (fst s') = windows (fst s))).
Proof.
  unfold measured. destruct s as [m l]. unfold dsp_sample.
  destruct (process_2nd_order _ _) as [b out].
  destruct (detect _ _) as [iv zc].
  cbn [accum fst snd].
  destruct zc.
  - destruct (negb (is_first_buffer (accum m) =? 0)).
    + cbn [fst snd windows]. split; [apply same_rings_refl|].
      right. rewrite Z.ltb_irrefl. repeat split.
    + unfold emit. destruct (weight _ _ _) as [f e].
      cbn [fst snd windows freq_count_5sec max_quasi_peak
           current_quasi_peak].
      split; [repeat split|].
      left. split; [apply Z.ltb_lt; lia | reflexivity].
  - cbn [fst snd windows]. split; [apply same_rings_refl|].
    right. rewrite Z.ltb_irrefl. repeat split.
Qed.

Lemma second_pass_peak (ft : Z) (blk : list Z) :
  forall s : Meter * Locals,
    let s' := fold_left (dsp_sample ft) blk s in
    same_rings (windows (fst s)) (windows (fst s'))
    /\ max_quasi_peak (snd s')
       = last_or (max_quasi_peak (snd s)) (qp_trace ft s blk)
    /\ current_quasi_peak (windows (fst s'))
       = last_or (current_quasi_peak (windows (fst s))) (qp_trace ft s blk).
Proof.
  induction blk as [|x t IH]; intros s.
  - cbn. split; [apply same_rings_refl|]. split; reflexivity.
  - cbn [fold_left qp_trace]. cbv zeta.
    destruct (IH (dsp_sample ft s x)) as (R & A & B).
    destruct (dsp_sample_measured ft s x) as (R0 & [[M Q] | (M & L & W)]).
    + rewrite M. split; [exact (same_rings_trans _ _ _ R0 R)|].
      unfold last_or in *. cbn [app]. rewrite !last_cons.
      rewrite A, B, Q. split; reflexivity.
    + rewrite M. cbn [app].
      split; [exact (same_rings_trans _ _ _ R0 R)|].
      rewrite A, B, L, W. split; reflexivity.
Qed.

Lemma close_window_peaks (m : Meter) (l : Locals) :
  peak_values_100ms (windows (close_window m l))
  = wr (peak_values_100ms (windows m))
       (Z.to_nat (peak_index_100ms (windows m))) (max_quasi_peak l)
  /\ current_quasi_peak (windows (close_window m l))
     = current_quasi_peak (windows m).
Proof.
  unfold close_window.
  destruct (rms_1sec_buffer_index (windows m) + 1 =? 10);
    [|split; reflexivity].
  destruct (scan _ _). split; reflexivity.
Qed.

Lemma last_or_nonempty (l : list float) (d d' : float) :
  l <> [] -> last_or d l = last_or d' l.
Proof.
  unfold last_or. destruct l as [|a t]; [congruence|].
  intros _. rewrite !last_cons. reflexivity.
Qed.

(** C5, as the code has it.  For a valid block, the value stored in the
    block's peak slot is the last of the values the quasi-peak detector
    takes at the crossings measured in the block -- the last one, whatever
    the larger values before it -- and [0.0] when no crossing is measured
    in the block.  The detector's own value after the block is that last
    value as well, or its value from before the block when no crossing is
    measured. *)
Theorem peak_slot_is_last (ft : Z) (blk : list Z) (c : Call) :
  let m := call_meter c in
  let idx := peak_index_100ms (windows m) in
  valid_block (config m) (previous_sample_raw m) blk ->
  0 <= idx < 50 ->
  length (peak_values_100ms (windows m)) = 50%nat ->
  let c' := window_body ft blk c in
  let slot := rd (peak_values_100ms (windows (call_meter c')))
                 (Z.to_nat idx) in
  let trace :=
    qp_trace ft
      (set_previous_sample_raw (last_raw (previous_sample_raw m) blk) m,
       mkLocals (call_freq_sum c) (call_freq_count c) 0 0) blk in
  slot = last_or 0%float trace
  /\ current_quasi_peak (windows (call_meter c'))
     = last_or (current_quasi_peak (windows m)) trace
  /\ (trace <> [] -> slot = current_quasi_peak (windows (call_meter c')))
  /\ (trace = [] ->
      slot = 0%float
      /\ current_quasi_peak (windows (call_meter c'))
         = current_quasi_peak (windows m)).
Proof.
  intros m idx (Hamp & Hlo & Hhi) Hidx Hlen c' slot trace.
  assert (H : slot = last_or 0%float trace
              /\ current_quasi_peak (windows (call_meter c'))
                 = last_or (current_quasi_peak (windows m)) trace).
  { unfold slot, c', window_body. fold m.
    rewrite gate_pass_spec. cbn [config set_previous_sample_raw].
    replace (max_positive blk <? 50) with false
      by (symmetry; apply Z.ltb_ge; lia).
    replace (count_crossings (previous_sample_raw m) blk
             <? min_zero_crossings (config m)) with false
      by (symmetry; apply Z.ltb_ge; lia).
    replace (max_zero_crossings (config m)
             <? count_crossings (previous_sample_raw m) blk) with false
      by (symmetry; apply Z.ltb_ge; lia).
    cbn [orb]. unfold second_pass.
    match goal with
    | |- context [fold_left (dsp_sample ft) blk ?s] =>
        destruct (second_pass_peak ft blk s) as (R & A & B);
        fold trace in A, B;
        destruct (fold_left (dsp_sample ft) blk s) as [m2 l2]
    end.
    cbn [fst snd windows max_quasi_peak current_quasi_peak
         set_previous_sample_raw call_meter] in *.
    destruct R as (_ & _ & Rp & Ri & _).
    destruct (close_window_peaks m2 l2) as (P & Q).
    rewrite P, Q, Rp, Ri. fold idx.
    rewrite rd_wr by lia.
    split; assumption. }
  destruct H as (Hs & Hq).
  split; [exact Hs|]. split; [exact Hq|]. split.
  - intros Hne. rewrite Hs, Hq. apply last_or_nonempty. exact Hne.
  - intros He. rewrite Hs, Hq, He. split; reflexivity.
Qed.

Lemma peak_slot_is_last_witness :
  let m0 := flutterMeter_init power_on 10 5 in
  let samples := 30000 :: repeat 50 99 in
  let c := fst (iterate 11 (process_window 0 samples) (mkCall m0 0 0, 0)) in
  let m := call_meter c in
  let c' := window_body 0 [50] c in
  valid_block (config m) (previous_sample_raw m) [50]
  /\ 0 <= peak_index_100ms (windows m) < 50
  /\ length (peak_values_100ms (windows m)) = 50%nat
  /\ rd (peak_values_100ms (windows (call_meter c')))
        (Z.to_nat (peak_index_100ms (windows m)))
     = current_quasi_peak (windows (call_meter c')).
Proof.
  intros m0 samples c m c'.
  assert (V : valid_block (config m) (previous_sample_raw m) [50]).
  { unfold valid_block. vm_compute. repeat split; discriminate. }
  assert (I : 0 <= peak_index_100ms (windows m) < 50).
  { vm_compute. repeat split; discriminate. }
  assert (L : length (peak_values_100ms (windows m)) = 50%nat).
  { vm_compute. reflexivity. }
  split; [exact V|]. split; [exact I|]. split; [exact L|].
  destruct (peak_slot_is_last 0 [50] c V I L) as (_ & _ & A & _).
  apply A. vm_compute. discriminate.
Defined.

(** C5 as the specification words it fails on a valid block in which no
    crossing is measured.  At 10 samples per second a window is one sample;
    after a first sample of 30000 the isolator rings, a crossing is measured
    every seven or eight windows and the quasi-peak value is about 5.05
    before the last window of the call.  That window is valid; the isolator
    output goes from 158 to 146, so there is no crossing in it; the
    quasi-peak value stays what it was, and the window's slot (index 49)
    receives [0.0]. *)
Lemma peak_slot_counterexample :
  let m0 := flutterMeter_init power_on 10 5 in
  let samples := 30000 :: repeat 50 99 in
  let before :=
    fst (iterate 99 (process_window 0 samples) (mkCall m0 0 0, 0)) in
  let blk := block samples 99 1 in
  let after := window_body 0 blk before in
  valid_block (config (call_meter before))
              (previous_sample_raw (call_meter before)) blk
  /\ call_meter after = fst (process_samples m0 samples 100 0)
  /\ peak_index_100ms (windows (call_meter before)) = 49
  /\ previous_sample (interval (call_meter before)) = 158
  /\ previous_sample (interval (call_meter after)) = 146
  /\ call_freq_count after = call_freq_count before
  /\ rd (peak_values_100ms (windows (call_meter after))) 49 = 0%float
  /\ current_quasi_peak (windows (call_meter after))
     = 5.0518153712383924%float
  /\ current_quasi_peak (windows (call_meter before))
     = 5.0518153712383924%float
  /\ rd (peak_values_100ms (windows (call_meter after))) 49
     <> current_quasi_peak (windows (call_meter after)).
Proof.
  vm_compute.
  split; [repeat split; discriminate|].
  do 8 (split; [reflexivity|]).
  intros H.
  assert (E : (0 =? 5.0518153712383924)%float = true)
    by (rewrite H; reflexivity).
  vm_compute in E. discriminate.
Qed.

(* ------------------------------------------------------------------ *)
(** ** Binary64: the order *)

Lemma SFltb_trans (a b c : spec_float) :
  SFltb a b = true -> SFltb b c = true -> SFltb a c = true.
Proof.
  unfold SFltb, SFcompare.
  destruct a as [sa|sa| |sa ma ea], b as [sb|sb| |sb mb eb],
           c as [sc|sc| |sc mc ec];
    try discriminate;
    try (destruct sa, sb, sc; discriminate || reflexivity);
    try (destruct sa, sb; discriminate || reflexivity);
    try (destruct sa, sc; discriminate || reflexivity);
    try (destruct sb, sc; discriminate || reflexivity).
  all: destruct sa, sb, sc; try discriminate; try reflexivity.
  all: change (Pos.compare_cont Eq) with Pos.compare.
  all: destruct (Z.compare_spec ea eb), (Z.compare_spec eb ec),
         (Z.compare_spec ea ec);
    try lia; try discriminate; try reflexivity.
  all: subst.
  all: destruct (Pos.compare_spec ma mb), (Pos.compare_spec mb mc),
         (Pos.compare_spec ma mc);
    simpl; try lia; try discriminate; try reflexivity.
Qed.

(** With a number in the middle, "not less" chains as well. *)
Lemma SFltb_neg_trans (a b c : spec_float) :
  b <> S754_nan ->
  SFltb a b = false -> SFltb b c = false -> SFltb a c = false.
Proof.
  unfold SFltb, SFcompare. intros Hb.
  destruct a as [sa|sa| |sa ma ea], b as [sb|sb| |sb mb eb],
           c as [sc|sc| |sc mc ec];
    try congruence;
    try (destruct sa, sb, sc; discriminate || reflexivity);
    try (destruct sa, sb; discriminate || reflexivity);
    try (destruct sa, sc; discriminate || reflexivity);
    try (destruct sb, sc; discriminate || reflexivity).
  all: destruct sa, sb, sc; try discriminate; try reflexivity.
  all: change (Pos.compare_cont Eq) with Pos.compare.
  all: destruct (Z.compare_spec ea eb), (Z.compare_spec eb ec),
         (Z.compare_spec ea ec);
    try lia; try discriminate; try reflexivity.
  all: subst.
  all: destruct (Pos.compare_spec ma mb), (Pos.compare_spec mb mc),
         (Pos.compare_spec ma mc);
    simpl; try lia; try discriminate; try reflexivity.
Qed.

Lemma SFltb_number (a b : spec_float) :
  SFltb a b = true -> a <> S754_nan /\ b <> S754_nan.
Proof.
  unfold SFltb, SFcompare.
  destruct a, b; try discriminate; intros _; split; discriminate.
Qed.

Lemma ltb_trans (a b c : float) :
  (a <? b)%float = true -> (b <? c)%float = true -> (a <? c)%float = true.
Proof. rewrite !ltb_spec. apply SFltb_trans. Qed.

Lemma ltb_neg_trans (a b c : float) :
  Prim2SF b <> S754_nan ->
  (a <? b)%float = false -> (b <? c)%float = false ->
  (a <? c)%float = false.
Proof. rewrite !ltb_spec. apply SFltb_neg_trans. Qed.

(* ------------------------------------------------------------------ *)
(** ** The scan for the maxima *)

Lemma running_max_spec (l : list float) :
  forall start : float,
    Prim2SF start <> S754_nan ->
    let r := running_max l start in
    Prim2SF r <> S754_nan
    /\ (r <? start)%float = false
    /\ fbounds r l
    /\ (In r l \/ (r = start /\ fbounds start l)).
Proof.
  unfold running_max, fbounds.
  induction l as [|x t IH]; intros a Ha; cbn [fold_left].
  - split; [exact Ha|]. split.
    + rewrite ltb_spec.
      destruct (SFltb (Prim2SF a) (Prim2SF a)) eqn:E; [|reflexivity].
      pose proof (SFltb_trans _ _ _ E E) as E2.
      exfalso. revert E. unfold SFltb, SFcompare.
      destruct (Prim2SF a) as [s|s| |s m e]; try discriminate.
      * destruct s; discriminate.
      * change (Pos.compare_cont Eq) with Pos.compare.
        rewrite Z.compare_refl, Pos.compare_refl.
        destruct s; discriminate.
    + split; [intros y []|].
      right. split; [reflexivity | intros y []].
  - destruct (a <? x)%float eqn:E.
    + assert (Hx : Prim2SF x <> S754_nan).
      { rewrite ltb_spec in E. apply SFltb_number in E. apply E. }
      destruct (IH x Hx) as (N & B & F & D).
      split; [exact N|]. split.
      * destruct (_ <? a)%float eqn:E2; [|reflexivity].
        rewrite (ltb_trans _ _ _ E2 E) in B. discriminate.
      * split.
        { intros y [<- | Hy]; [exact B | exact (F y Hy)]. }
        left. destruct D as [D | [D _]]; [right; exact D|].
        left. symmetry. exact D.
    + destruct (IH a Ha) as (N & B & F & D).
      split; [exact N|]. split; [exact B|]. split.
      * intros y [<- | Hy]; [|exact (F y Hy)].
        exact (ltb_neg_trans _ _ _ Ha B E).
      * destruct D as [D | [D G]]; [left; right; exact D|].
        right. split; [exact D|].
        intros y [<- | Hy]; [exact E | exact (G y Hy)].
Qed.

Lemma map_rd_seq (l : list float) : map (rd l) (seq 0 (length l)) = l.
Proof.
  induction l as [|h t IH]; [reflexivity|].
  cbn [length seq map]. rewrite <- seq_shift, map_map.
  unfold rd at 1. cbn [nth]. f_equal. exact IH.
Qed.

Lemma scan_running_max (rms peaks : list float) (idxs : list nat) :
  forall a b : float,
    fold_left (scan_step rms peaks) idxs (a, b)
    = (running_max (map (rd rms) idxs) a,
       running_max (map (rd peaks) idxs) b).
Proof.
  unfold running_max.
  induction idxs as [|i t IH]; intros a b; [reflexivity|].
  cbn [fold_left map scan_step]. apply IH.
Qed.

Lemma scan_spec (rms peaks : list float) :
  length rms = 50%nat -> length peaks = 50%nat ->
  scan_max (fst (scan rms peaks)) rms
  /\ scan_max (snd (scan rms peaks)) peaks.
Proof.
  intros Hr Hp. unfold scan. rewrite scan_running_max. cbn [fst snd].
  rewrite <- Hr at 1. rewrite map_rd_seq.
  rewrite <- Hp at 1. rewrite map_rd_seq.
  assert (H0 : Prim2SF 0 <> S754_nan) by discriminate.
  destruct (running_max_spec rms 0%float H0) as (_ & _ & F & D).
  destruct (running_max_spec peaks 0%float H0) as (_ & _ & F' & D').
  unfold scan_max. split; split; assumption.
Qed.

Lemma total_of_fsum (sums : list float) :
  length sums = 10%nat -> total_of sums = fsum sums.
Proof.
  intros H. unfold total_of, fsum.
  transitivity (fold_left (fun t x => (t + x)%float)
                          (map (rd sums) (seq 0 10)) 0%float);
    [|rewrite <- H, map_rd_seq; reflexivity].
  generalize (seq 0 10) 0%float.
  induction l as [|i t IH]; intros a; [reflexivity|].
  cbn [fold_left map]. apply IH.
Qed.

(* ------------------------------------------------------------------ *)
(** ** The one-second boundary *)

(** C6.  When the tenth window of a second is closed, the window's sum of
    squares completes the ten sums; [sqrt (their sum / valid_sample_count)
    * 100] is stored in the ring of RMS values at the index the peak ring
    has after its own write, that is one past the slot the window's peak
    went to, wrapping at 50; the published RMS and quasi-peak are the
    running maxima, from [0.0], over the fifty slots of the two rings.  The
    quasi-peak value stays, the rings keep their other slots and the index
    moves on rather than back to zero; [valid_sample_count], the one-second
    index and [interval_sum_ns] become zero. *)
Theorem one_second_boundary (m : Meter) (l : Locals) :
  let w := windows m in
  rms_1sec_buffer_index w = 9 ->
  0 <= peak_index_100ms w < 50 ->
  length (buffer_rms_1sec_sums w) = 10%nat ->
  length (peak_values_100ms w) = 50%nat ->
  length (max_rms_array w) = 50%nat ->
  let m' := close_window m l in
  let w' := windows m' in
  let idx' := (peak_index_100ms w + 1) mod 50 in
  let sums' := wr (buffer_rms_1sec_sums w) 9 (sum_of_squares l) in
  let rms_percent :=
    (sqrt (fsum sums' / int_to_double (valid_sample_count (accum m)))
     * 100)%float in
  buffer_rms_1sec_sums w' = sums'
  /\ peak_values_100ms w'
     = wr (peak_values_100ms w) (Z.to_nat (peak_index_100ms w))
          (max_quasi_peak l)
  /\ peak_index_100ms w' = idx'
  /\ max_rms_array w' = wr (max_rms_array w) (Z.to_nat idx') rms_percent
  /\ rd (max_rms_array w') (Z.to_nat idx') = rms_percent
  /\ scan_max (result_rms_percent (results m')) (max_rms_array w')
  /\ scan_max (result_quasi_peak (results m')) (peak_values_100ms w')
  /\ current_quasi_peak w' = current_quasi_peak w
  /\ valid_sample_count (accum m') = 0
  /\ rms_1sec_buffer_index w' = 0
  /\ interval_sum_ns (accum m') = 0%float.
Proof.
  intros w Hsec Hidx Hsums Hpeaks Hrms m' w' idx' sums' rms_percent.
  assert (Hi : (if peak_index_100ms w + 1 =? 50 then 0
                else peak_index_100ms w + 1) = idx').
  { unfold idx'. destruct (peak_index_100ms w + 1 =? 50) eqn:E.
    - apply Z.eqb_eq in E. rewrite E. reflexivity.
    - apply Z.eqb_neq in E. rewrite Z.mod_small; lia. }
  assert (Ht : total_of sums' = fsum sums').
  { apply total_of_fsum. unfold sums'. rewrite length_wr. exact Hsums. }
  unfold w', m', close_window. fold w. rewrite Hsec.
  change (9 + 1 =? 10) with true. cbv iota.
  change (Z.to_nat 9) with 9%nat. fold sums'. rewrite Hi, Ht.
  fold rms_percent.
  set (rms' := wr (max_rms_array w) (Z.to_nat idx') rms_percent).
  set (peaks' := wr (peak_values_100ms w) (Z.to_nat (peak_index_100ms w))
                    (max_quasi_peak l)).
  destruct (scan_spec rms' peaks') as (S1 & S2).
  { unfold rms'. rewrite length_wr. exact Hrms. }
  { unfold peaks'. rewrite length_wr. exact Hpeaks. }
  destruct (scan rms' peaks') as [max_rms_10sec max_peak_10sec].
  cbn [fst snd windows results accum buffer_rms_1sec_sums peak_values_100ms
       peak_index_100ms max_rms_array current_quasi_peak
       result_rms_percent result_quasi_peak valid_sample_count
       rms_1sec_buffer_index interval_sum_ns] in *.
  split; [reflexivity|]. split; [reflexivity|]. split; [reflexivity|].
  split; [reflexivity|].
  split.
  { unfold rms'. apply rd_wr. rewrite Hrms.
    assert (0 <= idx' < 50) by (unfold idx'; apply Z.mod_pos_bound; lia).
    lia. }
  split; [exact S1|]. split; [exact S2|].
  repeat split.
Qed.

Lemma one_second_boundary_witness :
  let m0 := flutterMeter_init power_on 10 5 in
  let samples := 30000 :: repeat 50 99 in
  let m := call_meter
             (fst (iterate 9 (process_window 0 samples) (mkCall m0 0 0, 0))) in
  let l := mkLocals 0 0 0.25 0.5 in
  let m' := close_window m l in
  rms_1sec_buffer_index (windows m) = 9
  /\ 0 <= peak_index_100ms (windows m) < 50
  /\ length (buffer_rms_1sec_sums (windows m)) = 10%nat
  /\ length (peak_values_100ms (windows m)) = 50%nat
  /\ length (max_rms_array (windows m)) = 50%nat
  /\ peak_index_100ms (windows m') = (peak_index_100ms (windows m) + 1) mod 50
  /\ scan_max (result_rms_percent (results m')) (max_rms_array (windows m'))
  /\ scan_max (result_quasi_peak (results m'))
              (peak_values_100ms (windows m'))
  /\ valid_sample_count (accum m') = 0
  /\ rms_1sec_buffer_index (windows m') = 0.
Proof.
  intros m0 samples m l m'.
  assert (H1 : rms_1sec_buffer_index (windows m) = 9)
    by (vm_compute; reflexivity).
  assert (H2 : 0 <= peak_index_100ms (windows m) < 50)
    by (vm_compute; repeat split; discriminate).
  assert (H3 : length (buffer_rms_1sec_sums (windows m)) = 10%nat)
    by (vm_compute; reflexivity).
  assert (H4 : length (peak_values_100ms (windows m)) = 50%nat)
    by (vm_compute; reflexivity).
  assert (H5 : length (max_rms_array (windows m)) = 50%nat)
    by (vm_compute; reflexivity).
  destruct (one_second_boundary m l H1 H2 H3 H4 H5)
    as (_ & _ & A & _ & _ & B & C & _ & D & E & _).
  repeat (split; [assumption|]). assumption.
Defined.

(* ------------------------------------------------------------------ *)
(** ** Re-initialisation *)

(** What [flutterMeter_init] does not assign: the gate's last sample, the
    two scratch doubles of the isolator, [measured_frequency_hz] and
    [valid_sample_count], which the warm-up crossing sets to zero later. *)
Lemma flutterMeter_init_keeps (m : Meter) (sample_rate : Z)
                              (test_frequency : float) :
  let m' := flutterMeter_init m sample_rate test_frequency in
  previous_sample_raw m' = previous_sample_raw m
  /\ filterio m' = filterio m
  /\ valid_sample_count (accum m') = valid_sample_count (accum m)
  /\ measured_frequency_hz (accum m') = measured_frequency_hz (accum m).
Proof. repeat split. Qed.

(** C8.  [flutterMeter_init] resets the filter buffers, the crossing
    detector, the rings with their indices, the quasi-peak value and the
    results, whatever they were.  Of the accumulation statics it resets the
    warm-up flag, [interval_sum_ns] and [average_interval_ns], and leaves
    [valid_sample_count] and [measured_frequency_hz] as they were; it also
    leaves the gate's [previous_sample_raw] and the two scratch doubles
    [filter_input] and [filter_output].  So a session that is initialised
    again is not the fresh session: after a call that ended on a negative
    sample, the first window of the next session counts one sign change
    more than it does in a fresh session, is rejected where the fresh
    session accepts it, and the results read back at the end differ. *)
Theorem reinit_keeps_gate_sample :
  (forall (m : Meter) (sample_rate : Z) (test_frequency : float),
      let m' := flutterMeter_init m sample_rate test_frequency in
      previous_sample_raw m' = previous_sample_raw m
      /\ filters m' = reset_filters
      /\ previous_sample (interval m') = 0
      /\ current_interval_ns (interval m') = 0%float
      /\ interval_remainder_ns (interval m') = 0%float
      /\ is_first_buffer (accum m') = 1
      /\ interval_sum_ns (accum m') = 0%float
      /\ average_interval_ns (accum m') = 0%float
      /\ windows m' = mkWindows 0 (zeros 10) (zeros 50) 0 (zeros 50) 0
      /\ results m' = mkResults 0 0 0
      /\ valid_sample_count (accum m') = valid_sample_count (accum m)
      /\ measured_frequency_hz (accum m')
         = measured_frequency_hz (accum m)
      /\ filterio m' = filterio m)
  /\ (let samples := 30000 :: repeat 50 99 in
      let used :=
        fst (process_samples (flutterMeter_init power_on 10 1)
                             (repeat (-1) 100) 100 0) in
      let fresh := flutterMeter_init power_on 10 1 in
      let again := flutterMeter_init used 10 1 in
      previous_sample_raw fresh = 0
      /\ previous_sample_raw again = -1
      /\ count_crossings (previous_sample_raw fresh) (block samples 0 1) = 0
      /\ count_crossings (previous_sample_raw again) (block samples 0 1) = 1
      /\ max_zero_crossings (config again) = 0
      /\ get_results (fst (process_samples fresh samples 100 0))
         = (0.41803254071797979, 33.150605437422428,
            0.68034926508389537)%float
      /\ get_results (fst (process_samples again samples 100 0))
         = (2.5667739578283948, 47.084515089271108,
            2.2676505593172269)%float
      /\ get_results (fst (process_samples fresh samples 100 0))
         <> get_results (fst (process_samples again samples 100 0))).
Proof.
  split.
  - intros m sample_rate test_frequency m'. repeat split.
  - vm_compute.
    repeat (split; [reflexivity|]).
    intros H.
    apply (f_equal (fun t => (fst (fst t) =? 2.5667739578283948)%float)) in H.
    vm_compute in H. discriminate.
Qed.

(** C8 as the specification words it fails on the accumulators.  At 10
    samples per second a window is one sample; in a call whose first fifteen
    windows are valid and whose other windows are silent, the second ends
    after five valid windows with one crossing measured since the last
    one-second boundary.  [flutterMeter_init] then leaves
    [valid_sample_count] at 1 and [measured_frequency_hz] at the frequency
    of that crossing, where the fresh session has 0 and [0.0]; the sum and
    the average of the intervals are reset. *)
Lemma reinit_counterexample :
  let fresh := flutterMeter_init power_on 10 5 in
  let used :=
    fst (process_samples fresh (30000 :: repeat 50 14 ++ repeat 0 85)
                         100 0) in
  let again := flutterMeter_init used 10 5 in
  valid_sample_count (accum used) = 1
  /\ interval_sum_ns (accum used) = 1102254641.9098144%float
  /\ valid_sample_count (accum again) = 1
  /\ measured_frequency_hz (accum again) = 0.45361569004933222%float
  /\ interval_sum_ns (accum again) = 0%float
  /\ average_interval_ns (accum again) = 0%float
  /\ valid_sample_count (accum fresh) = 0
  /\ measured_frequency_hz (accum fresh) = 0%float
  /\ valid_sample_count (accum again) <> valid_sample_count (accum fresh).
Proof.
  vm_compute. repeat split; discriminate.
Qed.

(* ------------------------------------------------------------------ *)
(** ** The warm-up crossing and the first measured interval *)




Lemma measured_count (ft : Z) (s : Meter * Locals) (raw : Z) :
  freq_count_5sec (snd (dsp_sample ft s raw))
  = freq_count_5sec (snd s) + (if measured ft s raw then 1 else 0).
Proof.
  destruct (dsp_sample_measured ft s raw) as (_ & [[M _] | (M & L & _)]).
  - rewrite M. revert M. unfold measured. destruct s as [m l].
    unfold dsp_sample.
    destruct (process_2nd_order _ _) as [b out].
    destruct (detect _ _) as [iv zc]. cbn [accum snd].
    destruct zc; [destruct (negb _)|];
      try (rewrite Z.ltb_irrefl; discriminate).
    unfold emit. destruct (weight _ _ _). reflexivity.
  - rewrite M, L. lia.
Qed.



Lemma elapsed_app (start : float) (l1 l2 : list float) :
  elapsed start (l1 ++ l2) = elapsed (elapsed start l1) l2.
Proof. unfold elapsed. apply fold_left_app. Qed.


(** Between two second passes nothing touches the detector: the gate and
    the code that closes a window leave the isolator's buffer, the interval
    statics and the warm-up flag alone. *)
Lemma close_window_detector (m : Meter) (l : Locals) :
  filters (close_window m l) = filters m
  /\ interval (close_window m l) = interval m
  /\ is_first_buffer (accum (close_window m l)) = is_first_buffer (accum m).
Proof.
  unfold close_window.
  destruct (rms_1sec_buffer_index (windows m) + 1 =? 10);
    [|repeat split].
  destruct (scan _ _). repeat split.
Qed.

(* ------------------------------------------------------------------ *)
(** ** The windows of a call, by the gate's verdict *)

Lemma window_body_gate (ft : Z) (blk : list Z) (c : Call) :
  window_body ft blk c
  = if gate_open (config (call_meter c))
                 (previous_sample_raw (call_meter c)) blk
    then let '(m, l) := fold_left (dsp_sample ft) blk (pass_start c blk) in
         mkCall (close_window m l) (freq_sum_5sec l) (freq_count_5sec l)
    else mkCall (fst (pass_start c blk)) (call_freq_sum c)
                (call_freq_count c).
Proof.
  unfold window_body, gate_open, pass_start, second_pass.
  rewrite gate_pass_spec. cbn [fst config set_previous_sample_raw].
  destruct (max_positive blk <? 50); [reflexivity|].
  destruct (_ || _); reflexivity.
Qed.

Lemma iterate_last {A : Type} (f : A -> A) (k : nat) :
  forall x, iterate (S k) f x = f (iterate k f x).
Proof.
  induction k as [|k IH]; intros x; [reflexivity|].
  change (iterate (S (S k)) f x) with (iterate (S k) f (f x)).
  rewrite IH. reflexivity.
Qed.

Lemma process_window_body (ft : Z) (samples : list Z) (s : Call * Z) :
  fst (process_window ft samples s)
  = window_body ft (window_block samples s) (fst s).
Proof. destruct s as [c pos]. reflexivity. Qed.

(* ------------------------------------------------------------------ *)
(** ** The frequency accumulators of a call *)

Lemma dsp_sample_freq (ft : Z) (s : Meter * Locals) (raw : Z) :
  let s' := dsp_sample ft s raw in
  freq_sum_5sec (snd s')
  = elapsed (freq_sum_5sec (snd s))
      (if measured ft s raw
       then [measured_frequency_hz (accum (fst s'))] else []).
Proof.
  cbv zeta.
  destruct (dsp_sample_measured ft s raw) as (_ & [[M _] | (M & L & _)]).
  - rewrite M. revert M. unfold measured. destruct s as [m l].
    unfold dsp_sample.
    destruct (process_2nd_order _ _) as [b out].
    destruct (detect _ _) as [iv zc]. cbn [accum snd].
    destruct zc; [destruct (negb _)|];
      try (rewrite Z.ltb_irrefl; discriminate).
    unfold emit. destruct (weight _ _ _). reflexivity.
  - rewrite M, L. reflexivity.
Qed.

Lemma second_pass_freqs (ft : Z) (blk : list Z) :
  forall s : Meter * Locals,
    let s' := fold_left (dsp_sample ft) blk s in
    freq_sum_5sec (snd s')
    = elapsed (freq_sum_5sec (snd s)) (freq_trace ft s blk)
    /\ freq_count_5sec (snd s')
       = freq_count_5sec (snd s) + Z.of_nat (length (freq_trace ft s blk)).
Proof.
  induction blk as [|x t IH]; intros s.
  - cbn. split; [reflexivity | lia].
  - cbn [fold_left freq_trace]. cbv zeta.
    destruct (IH (dsp_sample ft s x)) as (A & B).
    rewrite A, B, dsp_sample_freq, measured_count, <- elapsed_app.
    split; [reflexivity|].
    rewrite length_app. destruct (measured ft s x); cbn [length]; lia.
Qed.

Lemma window_body_freqs (ft : Z) (blk : list Z) (c : Call) :
  call_freq_sum (window_body ft blk c)
  = elapsed (call_freq_sum c) (window_freqs ft c blk)
  /\ call_freq_count (window_body ft blk c)
     = call_freq_count c + Z.of_nat (length (window_freqs ft c blk)).
Proof.
  rewrite window_body_gate. unfold window_freqs.
  destruct (gate_open _ _ _); [|cbn; split; [reflexivity | lia]].
  destruct (second_pass_freqs ft blk (pass_start c blk)) as (A & B).
  destruct (fold_left (dsp_sample ft) blk (pass_start c blk)) as [m l].
  exact (conj A B).
Qed.

Lemma call_freqs_spec (ft : Z) (samples : list Z) (k : nat) :
  forall s : Call * Z,
    let c' := fst (iterate k (process_window ft samples) s) in
    call_freq_sum c'
    = elapsed (call_freq_sum (fst s)) (call_freqs ft samples k s)
    /\ call_freq_count c'
       = call_freq_count (fst s)
         + Z.of_nat (length (call_freqs ft samples k s)).
Proof.
  induction k as [|k IH]; intros s.
  - cbn. split; [reflexivity | lia].
  - cbn [iterate call_freqs]. cbv zeta.
    destruct (IH (process_window ft samples s)) as (A & B).
    rewrite A, B, process_window_body.
    destruct (window_body_freqs ft (window_block samples s) (fst s))
      as (C & D).
    rewrite C, D, <- elapsed_app, length_app.
    split; [reflexivity | lia].
Qed.


(* ------------------------------------------------------------------ *)
(** ** The detector from [flutterMeter_init] to the first measured
       crossing *)














(* ------------------------------------------------------------------ *)
(** ** The filters are cascades of sections *)

(** X1.  The isolating band-pass is two second-order sections in series
    behind its input gain.  The four cells of its buffer are two delay
    lines of two cells, one per section, laid side by side: the [memmove]
    and the two stores shift each delay line by one and no section reads
    or writes the cells of the other.  The first section subtracts twice
    its newer cell in the direct part, the second adds it. *)
Theorem isolator_is_cascade (d0 d1 d2 d3 val : float) :
  process_2nd_order [d0; d1; d2; d3] val
  = stage 0.001207405190260069 isolator_sections [d0; d1; d2; d3] val.
Proof. reflexivity. Qed.

(** X2.  Each of the four weighting filters is four second-order sections
    in series behind its input gain, on four delay lines of two cells laid
    side by side in its buffer of eight; the filters differ in the gain,
    the coefficients and the signs of the direct parts only. *)
Theorem weighting_is_cascade (d0 d1 d2 d3 d4 d5 d6 d7 val : float) :
  let buf := [d0; d1; d2; d3; d4; d5; d6; d7] in
  process_DIN buf val = stage 9.886712475608222e-007 din_sections buf val
  /\ process_unweighted buf val
     = stage 0.0003306520826380572 unweighted_sections buf val
  /\ process_wow buf val = stage 3.386435216458736e-010 wow_sections buf val
  /\ process_flutter buf val
     = stage 0.0002980764585582655 flutter_sections buf val.
Proof. repeat split. Qed.

(* ------------------------------------------------------------------ *)
(** ** Invariants of a call and of a session *)

Lemma iterate_inv {A : Type} (P : A -> Prop) (f : A -> A) :
  (forall x, P x -> P (f x)) -> forall n x, P x -> P (iterate n f x).
Proof.
  intros Hf n. induction n as [|k IH]; intros x Hx; [exact Hx|].
  cbn [iterate]. apply IH, Hf, Hx.
Qed.

Lemma fold_left_inv {A B : Type} (P : A -> Prop) (f : A -> B -> A) :
  (forall a b, P a -> P (f a b)) ->
  forall l a, P a -> P (fold_left f l a).
Proof.
  intros Hf l. induction l as [|b t IH]; intros a Ha; [exact Ha|].
  cbn [fold_left]. apply IH, Hf, Ha.
Qed.

Section CallInvariant.

(** A property of the statics that the gate's store, one sample of the
    second pass and the close of a window preserve, is preserved by a
    call. *)
Variable P : Meter -> Prop.
Variable ft : Z.
Hypothesis P_gate : forall m r, P m -> P (set_previous_sample_raw r m).
Hypothesis P_sample :
  forall s raw, P (fst s) -> P (fst (dsp_sample ft s raw)).
Hypothesis P_close : forall m l, P m -> P (close_window m l).

Lemma window_body_inv (blk : list Z) (c : Call) :
  P (call_meter c) -> P (call_meter (window_body ft blk c)).
Proof.
  intros H. unfold window_body.
  destruct (gate_pass _ blk) as [[ma zc] raw].
  destruct (ma <? 50); [apply P_gate, H|].
  destruct (_ || _); [apply P_gate, H|].
  unfold second_pass.
  match goal with
  | |- context [fold_left _ blk ?s0] =>
      pose proof (fold_left_inv (fun x => P (fst x)) (dsp_sample ft)
                    P_sample blk s0 (P_gate _ raw H)) as H2;
      destruct (fold_left (dsp_sample ft) blk s0) as [m2 l2]
  end.
  cbn [call_meter]. apply P_close, H2.
Qed.

Lemma process_samples_inv (m : Meter) (samples : list Z) (n : Z) :
  P m -> P (fst (process_samples m samples n ft)).
Proof.
  intros H. unfold process_samples.
  destruct (n <? _); [exact H|]. cbn [fst].
  apply (iterate_inv (fun s : Call * Z => P (call_meter (fst s)))).
  - intros [c pos] Hc. unfold process_window. cbn [fst] in *.
    apply window_body_inv, Hc.
  - exact H.
Qed.

End CallInvariant.

(** A property that [flutterMeter_init] establishes and the three steps of
    a call preserve holds in every state of a session. *)
Lemma session_inv (P : Meter -> Prop) :
  (forall m sr tf, P (flutterMeter_init m sr tf)) ->
  (forall m r, P m -> P (set_previous_sample_raw r m)) ->
  (forall ft s raw, P (fst s) -> P (fst (dsp_sample ft s raw))) ->
  (forall m l, P m -> P (close_window m l)) ->
  forall m sr tf rs, P (session m sr tf rs).
Proof.
  intros Hi Hg Hs Hc m sr tf rs. unfold session.
  apply fold_left_inv; [|apply Hi].
  intros a r Ha. unfold serve.
  apply process_samples_inv; auto.
Qed.

(* ------------------------------------------------------------------ *)
(** ** The configuration and the warm-up flag over a call *)

(** X3.  A call changes none of the configuration variables, whatever the
    samples, the count and the filter type: the expected half period, the
    test frequency, the two gate bounds and the window length are those
    [flutterMeter_init] computed, until it is called again. *)
Theorem config_unchanged_by_call (m : Meter) (samples : list Z)
                                 (num_samples ft : Z) :
  config (fst (process_samples m samples num_samples ft)) = config m.
Proof.
  apply (process_samples_inv (fun m' => config m' = config m)).
  - intros m' r H. exact H.
  - intros s raw H. destruct (dsp_sample_config ft s raw) as (A & _).
    congruence.
  - intros m' l H. destruct (close_window_config m' l) as (A & _).
    congruence.
  - reflexivity.
Qed.

Lemma dsp_sample_flag (ft : Z) (s : Meter * Locals) (raw : Z) :
  is_first_buffer (accum (fst s)) = 0 ->
  is_first_buffer (accum (fst (dsp_sample ft s raw))) = 0.
Proof.
  destruct s as [m l]. cbn [fst]. intros H. unfold dsp_sample.
  destruct (process_2nd_order _ _) as [b out].
  destruct (detect _ _) as [iv zc].
  destruct zc; [|exact H].
  cbn [accum]. destruct (negb _); [reflexivity|].
  unfold emit. destruct (weight _ _ _). exact H.
Qed.

(** X4.  Once the warm-up crossing has cleared [is_first_buffer], no call
    sets it again: the first crossing of a later call, and of every later
    window, is measured.  Only [flutterMeter_init] re-arms the warm-up. *)
Theorem warmup_not_rearmed (m : Meter) (samples : list Z)
                           (num_samples ft : Z) :
  is_first_buffer (accum m) = 0 ->
  is_first_buffer (accum (fst (process_samples m samples num_samples ft)))
  = 0.
Proof.
  intros H.
  apply (process_samples_inv (fun m' => is_first_buffer (accum m') = 0)).
  - intros m' r H'. exact H'.
  - intros s raw. apply dsp_sample_flag.
  - intros m' l H'. destruct (close_window_detector m' l) as (_ & _ & A).
    congruence.
  - exact H.
Qed.

Lemma warmup_not_rearmed_witness :
  let m := fst (process_samples (flutterMeter_init power_on 10 5)
                                (30000 :: repeat 50 99) 100 0) in
  is_first_buffer (accum (flutterMeter_init power_on 10 5)) = 1
  /\ is_first_buffer (accum m) = 0
  /\ is_first_buffer
       (accum (fst (process_samples m (repeat (-70) 50 ++ repeat 70 50)
                                    100 0))) = 0.
Proof.
  intros m.
  assert (H : is_first_buffer (accum m) = 0) by (vm_compute; reflexivity).
  split; [reflexivity|]. split; [exact H|].
  apply (warmup_not_rearmed m _ 100 0 H).
Defined.

(* ------------------------------------------------------------------ *)
(** ** The arrays and their indices over a session *)

Lemma rd_wr_other (b : list float) (i j : nat) (v : float) :
  i <> j -> rd (wr b j v) i = rd b i.
Proof.
  unfold rd. revert i j. induction b as [|h t IH]; intros i j H.
  - reflexivity.
  - destruct j as [|j]; destruct i as [|i]; cbn [wr nth];
      try reflexivity; try congruence.
    apply IH. congruence.
Qed.

Lemma process_2nd_order_length (buf : list float) (val : float) :
  length buf = 4%nat -> length (fst (process_2nd_order buf val)) = 4%nat.
Proof.
  intros H. do 5 (destruct buf as [|? buf]; try discriminate H).
  reflexivity.
Qed.

Lemma weighting_length (buf : list float) (val : float) :
  length buf = 8%nat ->
  length (fst (process_DIN buf val)) = 8%nat
  /\ length (fst (process_unweighted buf val)) = 8%nat
  /\ length (fst (process_wow buf val)) = 8%nat
  /\ length (fst (process_flutter buf val)) = 8%nat.
Proof.
  intros H. do 9 (destruct buf as [|? buf]; try discriminate H).
  repeat split.
Qed.

Lemma weight_filters_ok (ft : Z) (f : Filters) (x : float) :
  filters_ok f -> filters_ok (fst (weight ft f x)).
Proof.
  unfold filters_ok. intros (A & B & C & D & E).
  destruct (weighting_length (buf_din f) x B) as (B' & _).
  destruct (weighting_length (buf_unw f) x C) as (_ & C' & _).
  destruct (weighting_length (buf_wow f) x D) as (_ & _ & D' & _).
  destruct (weighting_length (buf_flutter f) x E) as (_ & _ & _ & E').
  unfold weight.
  destruct (process_DIN _ _), (process_unweighted _ _), (process_wow _ _),
           (process_flutter _ _).
  cbn [fst] in *.
  repeat match goal with
         | |- context [match ?e with _ => _ end] => destruct e
         end; cbn [fst buf2nd_order buf_din buf_unw buf_wow buf_flutter];
    repeat split; assumption.
Qed.

Lemma dsp_sample_filters_ok (ft : Z) (s : Meter * Locals) (raw : Z) :
  filters_ok (filters (fst s)) ->
  filters_ok (filters (fst (dsp_sample ft s raw))).
Proof.
  destruct s as [m l]. cbn [fst]. intros H.
  assert (H1 : forall b out,
             process_2nd_order (buf2nd_order (filters m))
               (int_to_double (to_short raw)) = (b, out) ->
             filters_ok (mkFilters b (buf_din (filters m))
                           (buf_unw (filters m)) (buf_wow (filters m))
                           (buf_flutter (filters m)))).
  { intros b out E. destruct H as (A & B & C & D & F).
    pose proof (process_2nd_order_length _
                  (int_to_double (to_short raw)) A) as A'.
    rewrite E in A'. repeat split; assumption. }
  unfold dsp_sample.
  destruct (process_2nd_order _ _) as [b out].
  specialize (H1 b out eq_refl).
  destruct (detect _ _) as [iv zc].
  destruct zc; [|exact H1].
  cbn [accum]. destruct (negb _); [exact H1|].
  unfold emit. cbn [filters].
  match goal with
  | |- context [weight ft ?f ?x] =>
      pose proof (weight_filters_ok ft f x H1) as W;
      destruct (weight ft f x) as [f' e]
  end.
  exact W.
Qed.

Lemma close_window_filters (m : Meter) (l : Locals) :
  filters (close_window m l) = filters m.
Proof. apply close_window_detector. Qed.

Lemma same_rings_ok (w w' : Windows) :
  same_rings w w' -> rings_ok w -> rings_ok w'.
Proof.
  unfold same_rings, rings_ok.
  intros (A & B & C & D & E). rewrite A, B, C, D, E. exact (fun H => H).
Qed.

Lemma close_window_rings_ok (m : Meter) (l : Locals) :
  rings_ok (windows m) -> rings_ok (windows (close_window m l)).
Proof.
  unfold rings_ok, close_window.
  intros (R & K & A & L1 & L2 & L3 & Z0).
  set (r := rms_1sec_buffer_index (windows m)) in *.
  set (p := peak_index_100ms (windows m)) in *.
  assert (Hp : let p' := if p + 1 =? 50 then 0 else p + 1 in
               0 <= p' < 50 /\ p' mod 10 = (r + 1) mod 10).
  { cbv zeta. destruct (p + 1 =? 50) eqn:E;
      [apply Z.eqb_eq in E | apply Z.eqb_neq in E].
    - assert (p = 49) as -> by lia. subst r.
      rewrite <- A. split; [lia | reflexivity].
    - split; [lia|]. rewrite <- A. rewrite Z.add_mod_idemp_l by lia.
      reflexivity. }
  cbv zeta in Hp. destruct Hp as (K' & A').
  destruct (r + 1 =? 10) eqn:E;
    [apply Z.eqb_eq in E | apply Z.eqb_neq in E].
  - destruct (scan _ _).
    cbn [windows rms_1sec_buffer_index buffer_rms_1sec_sums
         peak_values_100ms peak_index_100ms max_rms_array].
    rewrite !length_wr.
    rewrite E in A'. change (10 mod 10) with 0 in A'.
    split; [lia|]. split; [exact K'|]. split; [exact A'|].
    split; [exact L1|]. split; [exact L2|]. split; [exact L3|].
    intros i Hi. rewrite rd_wr_other; [apply Z0, Hi|].
    intros ->. apply Hi. rewrite Z2Nat.id by lia. exact A'.
  - cbn [windows rms_1sec_buffer_index buffer_rms_1sec_sums
         peak_values_100ms peak_index_100ms max_rms_array].
    rewrite !length_wr.
    split; [lia|]. split; [exact K'|].
    split; [rewrite A'; apply Z.mod_small; lia|].
    split; [exact L1|]. split; [exact L2|]. split; [exact L3|]. exact Z0.
Qed.

Lemma rd_zeros (n i : nat) : rd (zeros n) i = 0%float.
Proof.
  unfold rd, zeros. revert i. induction n as [|n IH]; intros [|i];
    cbn [repeat nth]; try reflexivity. apply IH.
Qed.

(** The arrays and indices of every state of a session. *)
Lemma session_arrays (m : Meter) (sr : Z) (tf : float) (rs : list Request) :
  filters_ok (filters (session m sr tf rs))
  /\ rings_ok (windows (session m sr tf rs)).
Proof.
  apply (session_inv
           (fun m' => filters_ok (filters m') /\ rings_ok (windows m'))).
  - intros m0 sr0 tf0. split; [repeat split|].
    unfold rings_ok. cbn [flutterMeter_init windows rms_1sec_buffer_index
      peak_index_100ms buffer_rms_1sec_sums peak_values_100ms max_rms_array].
    split; [lia|]. split; [lia|]. split; [reflexivity|].
    split; [reflexivity|]. split; [reflexivity|]. split; [reflexivity|].
    intros i _. apply rd_zeros.
  - intros m0 r H. exact H.
  - intros ft s raw (F & R). split; [apply dsp_sample_filters_ok, F|].
    destruct (dsp_sample_measured ft s raw) as (S & _).
    exact (same_rings_ok _ _ S R).
  - intros m0 l (F & R). split.
    + rewrite close_window_filters. exact F.
    + apply close_window_rings_ok, R.
Qed.

(** X5.  In every state of a session, that is after [flutterMeter_init]
    and any calls with any arguments, each filter buffer and each ring has
    the length of its declaration and the two ring indices point inside
    their rings: [0 <= rms_1sec_buffer_index < 10] and
    [0 <= peak_index_100ms < 50].  No store of the program falls outside
    its array. *)
Theorem session_indices_in_bounds (m : Meter) (sample_rate : Z)
    (test_frequency : float) (rs : list Request) :
  let m' := session m sample_rate test_frequency rs in
  filters_ok (filters m')
  /\ length (buffer_rms_1sec_sums (windows m')) = 10%nat
  /\ length (peak_values_100ms (windows m')) = 50%nat
  /\ length (max_rms_array (windows m')) = 50%nat
  /\ 0 <= rms_1sec_buffer_index (windows m') < 10
  /\ 0 <= peak_index_100ms (windows m') < 50.
Proof.
  cbv zeta.
  destruct (session_arrays m sample_rate test_frequency rs)
    as (F & R & K & _ & L1 & L2 & L3 & _).
  split; [exact F|]. split; [exact L1|]. split; [exact L2|].
  split; [exact L3|]. split; [exact R | exact K].
Qed.

(** X6.  In every state of a session the index of the peak ring is
    congruent modulo 10 to the one-second index, so the one-second results
    are always stored at slot 0, 10, 20, 30 or 40 of the ring of RMS
    values: its forty-five other slots stay [0.0] for the whole
    session. *)
Theorem rms_ring_uses_five_slots (m : Meter) (sample_rate : Z)
    (test_frequency : float) (rs : list Request) :
  let w := windows (session m sample_rate test_frequency rs) in
  peak_index_100ms w mod 10 = rms_1sec_buffer_index w
  /\ forall i : nat,
       Z.of_nat i mod 10 <> 0 -> rd (max_rms_array w) i = 0%float.
Proof.
  cbv zeta.
  destruct (session_arrays m sample_rate test_frequency rs)
    as (_ & _ & _ & A & _ & _ & _ & Z0).
  split; [exact A | exact Z0].
Qed.

(* ------------------------------------------------------------------ *)
(** ** The published results over a session *)

Lemma running_max_not_below_zero (l : list float) :
  not_below_zero (running_max l 0%float).
Proof.
  assert (H0 : Prim2SF 0 <> S754_nan) by discriminate.
  destruct (running_max_spec l 0%float H0) as (N & B & _).
  split; assumption.
Qed.

Lemma close_window_results (m : Meter) (l : Locals) :
  not_below_zero (result_rms_percent (results m))
  /\ not_below_zero (result_quasi_peak (results m)) ->
  not_below_zero (result_rms_percent (results (close_window m l)))
  /\ not_below_zero (result_quasi_peak (results (close_window m l))).
Proof.
  intros H. unfold close_window.
  destruct (_ =? 10); [|exact H].
  unfold scan. rewrite scan_running_max.
  cbn [results result_rms_percent result_quasi_peak].
  split; apply running_max_not_below_zero.
Qed.

(** X7.  In every state of a session the published RMS and quasi-peak
    values are numbers, and not below zero: a slot of a ring that holds
    no number (the RMS of a second without a measured crossing is zero
    divided by zero) never becomes the published value, because the scan
    starts from [0.0] and a comparison with NaN is false. *)
Theorem published_values_are_numbers (m : Meter) (sample_rate : Z)
    (test_frequency : float) (rs : list Request) :
  let r := results (session m sample_rate test_frequency rs) in
  not_below_zero (result_rms_percent r)
  /\ not_below_zero (result_quasi_peak r).
Proof.
  cbv zeta.
  apply (session_inv
           (fun m' => not_below_zero (result_rms_percent (results m'))
                      /\ not_below_zero (result_quasi_peak (results m')))).
  - intros m0 sr tf. split; split; (discriminate || reflexivity).
  - intros m0 r H. exact H.
  - intros ft s raw H.
    destruct (dsp_sample_config ft s raw) as (_ & _ & A). rewrite A.
    exact H.
  - intros m0 l. apply close_window_results.
Qed.

(* ------------------------------------------------------------------ *)
(** ** The divisor of the average interval *)

Lemma dsp_sample_counted (ft : Z) (s : Meter * Locals) (raw : Z) :
  is_first_buffer (accum (fst s)) = 1
  \/ (is_first_buffer (accum (fst s)) = 0
      /\ 0 <= valid_sample_count (accum (fst s))) ->
  is_first_buffer (accum (fst (dsp_sample ft s raw))) = 1
  \/ (is_first_buffer (accum (fst (dsp_sample ft s raw))) = 0
      /\ 0 <= valid_sample_count (accum (fst (dsp_sample ft s raw)))).
Proof.
  destruct s as [m l]. cbn [fst]. intros H. unfold dsp_sample.
  destruct (process_2nd_order _ _) as [b out].
  destruct (detect _ _) as [iv zc].
  destruct zc; [|exact H].
  cbn [accum]. destruct (is_first_buffer (accum m) =? 0) eqn:E;
    [apply Z.eqb_eq in E | right; split; [reflexivity | cbn; lia]].
  cbn [negb]. unfold emit. destruct (weight _ _ _).
  cbn [fst accum is_first_buffer valid_sample_count].
  right. split; [exact E|]. destruct H as [H | [_ H]]; lia.
Qed.

(** X8.  In every state of a session either the warm-up is still pending
    ([is_first_buffer] is 1) or it is over ([is_first_buffer] is 0) and
    [valid_sample_count] is not negative.  A crossing is measured only
    after the warm-up, so the count that divides [interval_sum_ns] there,
    one more than [valid_sample_count], is at least 1 whatever count the
    statics held before [flutterMeter_init], which does not reset it. *)
Theorem average_divisor_positive (m : Meter) (sample_rate : Z)
    (test_frequency : float) (rs : list Request) (ft : Z) (l : Locals) :
  let m' := session m sample_rate test_frequency rs in
  is_first_buffer (accum m') = 1
  \/ (is_first_buffer (accum m') = 0
      /\ 0 <= valid_sample_count (accum m')
      /\ 1 <= valid_sample_count (accum (fst (emit ft m' l)))).
Proof.
  cbv zeta.
  assert (H : let a := accum (session m sample_rate test_frequency rs) in
              is_first_buffer a = 1
              \/ (is_first_buffer a = 0 /\ 0 <= valid_sample_count a)).
  { apply (session_inv
             (fun m' => is_first_buffer (accum m') = 1
                        \/ (is_first_buffer (accum m') = 0
                            /\ 0 <= valid_sample_count (accum m')))).
    - intros m0 sr tf. left. reflexivity.
    - intros m0 r H. exact H.
    - intros ft0 s raw. apply (dsp_sample_counted ft0 s raw).
    - intros m0 l0 H. unfold close_window.
      destruct (_ =? 10); [|exact H]. destruct (scan _ _).
      cbn [accum is_first_buffer valid_sample_count].
      destruct H as [H | [H _]];
        [left; exact H | right; split; [exact H | lia]]. }
  cbv zeta in H. destruct H as [H | [H1 H2]]; [left; exact H|].
  right. split; [exact H1|]. split; [exact H2|].
  unfold emit. destruct (weight _ _ _).
  cbn [fst accum valid_sample_count]. lia.
Qed.

(* ------------------------------------------------------------------ *)
(** ** The filter type *)

Lemma weight_default (ft : Z) (f : Filters) (x : float) :
  ft <> 1 -> ft <> 2 -> ft <> 3 -> weight ft f x = weight 0 f x.
Proof.
  intros H1 H2 H3. unfold weight.
  destruct ft as [|p|p]; [reflexivity| |reflexivity].
  destruct p as [[p|p|]|[p|p|]|];
    try (elim H1; reflexivity); try (elim H2; reflexivity);
    try (elim H3; reflexivity); reflexivity.
Qed.

Lemma dsp_sample_default (ft : Z) (s : Meter * Locals) (raw : Z) :
  ft <> 1 -> ft <> 2 -> ft <> 3 -> dsp_sample ft s raw = dsp_sample 0 s raw.
Proof.
  intros H1 H2 H3. destruct s as [m l]. unfold dsp_sample.
  destruct (process_2nd_order _ _) as [b out].
  destruct (detect _ _) as [iv zc].
  destruct zc; [|reflexivity].
  destruct (negb _); [reflexivity|].
  unfold emit. rewrite (weight_default ft) by assumption. reflexivity.
Qed.

Lemma fold_left_ext {A B : Type} (f g : A -> B -> A) :
  (forall a b, f a b = g a b) ->
  forall l a, fold_left f l a = fold_left g l a.
Proof.
  intros H l. induction l as [|b t IH]; intros a; [reflexivity|].
  cbn [fold_left]. rewrite H. apply IH.
Qed.

Lemma iterate_ext {A : Type} (f g : A -> A) :
  (forall x, f x = g x) -> forall n x, iterate n f x = iterate n g x.
Proof.
  intros H n. induction n as [|k IH]; intros x; [reflexivity|].
  cbn [iterate]. rewrite H. apply IH.
Qed.

(** X9.  A filter type other than 1, 2 and 3 selects the unweighted
    filter: the call does exactly what it does with filter type 0, on the
    statics and in its return value.  No filter type is refused. *)
Theorem unknown_filter_type_is_unweighted (m : Meter) (samples : list Z)
                                          (num_samples ft : Z) :
  ft <> 1 -> ft <> 2 -> ft <> 3 ->
  process_samples m samples num_samples ft
  = process_samples m samples num_samples 0.
Proof.
  intros H1 H2 H3.
  assert (E : forall s, process_window ft samples s
                        = process_window 0 samples s).
  { intros [c pos]. unfold process_window. f_equal.
    unfold window_body, second_pass.
    destruct (gate_pass _ _) as [[ma zc] raw].
    destruct (ma <? 50); [reflexivity|].
    destruct (_ || _); [reflexivity|].
    rewrite (fold_left_ext (dsp_sample ft) (dsp_sample 0))
      by (intros a b; apply dsp_sample_default; assumption).
    reflexivity. }
  unfold process_samples. rewrite (iterate_ext _ _ E). reflexivity.
Qed.

Lemma unknown_filter_type_is_unweighted_witness :
  let m := flutterMeter_init power_on 10 5 in
  let samples := 30000 :: repeat 50 99 in
  process_samples m samples 100 (-4) = process_samples m samples 100 0
  /\ buf_unw (filters (fst (process_samples m samples 100 (-4))))
     <> buf_unw (filters m).
Proof.
  intros m samples. split.
  - apply unknown_filter_type_is_unweighted; discriminate.
  - intros E.
    apply (f_equal (fun b => (rd b 7 =? 0)%float)) in E.
    vm_compute in E. discriminate.
Defined.

Lemma weight_frame (ft : Z) (f : Filters) (x : float) :
  let f' := fst (weight ft f x) in
  (ft = 1 \/ buf_din f' = buf_din f)
  /\ (ft = 2 \/ buf_wow f' = buf_wow f)
  /\ (ft = 3 \/ buf_flutter f' = buf_flutter f)
  /\ ((ft <> 1 /\ ft <> 2 /\ ft <> 3) \/ buf_unw f' = buf_unw f).
Proof.
  cbv zeta. unfold weight.
  destruct (process_DIN _ _), (process_unweighted _ _), (process_wow _ _),
           (process_flutter _ _).
  destruct ft as [|p|p];
    [|destruct p as [[p|p|]|[p|p|]|]|];
    cbn [fst buf_din buf_unw buf_wow buf_flutter];
    repeat split;
    try (right; reflexivity); try (left; reflexivity);
    left; repeat split; discriminate.
Qed.

Lemma dsp_sample_frame (ft : Z) (s : Meter * Locals) (raw : Z) :
  let f := filters (fst s) in
  let f' := filters (fst (dsp_sample ft s raw)) in
  (ft = 1 \/ buf_din f' = buf_din f)
  /\ (ft = 2 \/ buf_wow f' = buf_wow f)
  /\ (ft = 3 \/ buf_flutter f' = buf_flutter f)
  /\ ((ft <> 1 /\ ft <> 2 /\ ft <> 3) \/ buf_unw f' = buf_unw f).
Proof.
  destruct s as [m l]. cbv zeta. cbn [fst]. unfold dsp_sample.
  destruct (process_2nd_order _ _) as [b out].
  destruct (detect _ _) as [iv zc].
  destruct zc; [|repeat split; right; reflexivity].
  destruct (negb _); [repeat split; right; reflexivity|].
  unfold emit. cbn [filters].
  match goal with
  | |- context [weight ft ?f ?x] =>
      pose proof (weight_frame ft f x) as W;
      destruct (weight ft f x) as [f' e]
  end.
  exact W.
Qed.

(** X10.  A call works on the buffer of the weighting filter it selects
    and on no other: with filter type 1 the buffers of the unweighted, the
    wow and the flutter filter are after the call what they were before,
    and so on for the other types.  A buffer keeps what an earlier call
    with its type left in it until [flutterMeter_init] clears it. *)
Theorem unselected_filters_untouched (m : Meter) (samples : list Z)
                                     (num_samples ft : Z) :
  let f := filters m in
  let f' := filters (fst (process_samples m samples num_samples ft)) in
  (ft = 1 \/ buf_din f' = buf_din f)
  /\ (ft = 2 \/ buf_wow f' = buf_wow f)
  /\ (ft = 3 \/ buf_flutter f' = buf_flutter f)
  /\ ((ft <> 1 /\ ft <> 2 /\ ft <> 3) \/ buf_unw f' = buf_unw f).
Proof.
  cbv zeta.
  assert (K : forall sel : Filters -> list float,
             (forall s raw,
                 sel (filters (fst (dsp_sample ft s raw)))
                 = sel (filters (fst s))) ->
             sel (filters (fst (process_samples m samples num_samples ft)))
             = sel (filters m)).
  { intros sel Hs.
    apply (process_samples_inv
             (fun m' => sel (filters m') = sel (filters m))).
    - intros m' r H. exact H.
    - intros s raw H. rewrite Hs. exact H.
    - intros m' l H. rewrite close_window_filters. exact H.
    - reflexivity. }
  split; [|split; [|split]].
  - destruct (Z.eq_dec ft 1) as [E|E]; [left; exact E|]. right.
    apply (K buf_din). intros s raw.
    destruct (dsp_sample_frame ft s raw) as ([A|A] & _);
      [contradiction | exact A].
  - destruct (Z.eq_dec ft 2) as [E|E]; [left; exact E|]. right.
    apply (K buf_wow). intros s raw.
    destruct (dsp_sample_frame ft s raw) as (_ & [A|A] & _);
      [contradiction | exact A].
  - destruct (Z.eq_dec ft 3) as [E|E]; [left; exact E|]. right.
    apply (K buf_flutter). intros s raw.
    destruct (dsp_sample_frame ft s raw) as (_ & _ & [A|A] & _);
      [contradiction | exact A].
  - destruct (Z.eq_dec ft 1) as [E1|E1];
      [|destruct (Z.eq_dec ft 2) as [E2|E2];
        [|destruct (Z.eq_dec ft 3) as [E3|E3];
          [|left; repeat split; assumption]]].
    all: right; apply (K buf_unw); intros s raw.
    all: destruct (dsp_sample_frame ft s raw) as (_ & _ & _ & [A|A]);
      [destruct A as (A1 & A2 & A3); contradiction | exact A].
Qed.

(* ------------------------------------------------------------------ *)
(** ** Only the low sixteen bits of a sample count *)

Lemma to_short_idem (z : Z) : to_short (to_short z) = to_short z.
Proof.
  unfold to_short.
  replace ((z + 32768) mod 65536 - 32768 + 32768)
    with ((z + 32768) mod 65536) by lia.
  rewrite Z.mod_mod by lia. reflexivity.
Qed.

Lemma block_map_to_short (samples : list Z) (pos n : Z) :
  block (map to_short samples) pos n = map to_short (block samples pos n).
Proof.
  unfold block. rewrite map_map. apply map_ext. intros i.
  change 0 with (to_short 0) at 1. apply map_nth.
Qed.

Lemma gate_pass_to_short (blk : list Z) :
  forall g, fold_left gate_step (map to_short blk) g
            = fold_left gate_step blk g.
Proof.
  induction blk as [|x t IH]; intros g; [reflexivity|].
  cbn [map fold_left]. rewrite IH. f_equal.
  destruct g as [[a b] p]. unfold gate_step.
  rewrite to_short_idem. reflexivity.
Qed.

Lemma second_pass_to_short (ft : Z) (blk : list Z) :
  forall s, fold_left (dsp_sample ft) (map to_short blk) s
            = fold_left (dsp_sample ft) blk s.
Proof.
  induction blk as [|x t IH]; intros s; [reflexivity|].
  cbn [map fold_left]. rewrite IH. f_equal.
  destruct s as [m l]. unfold dsp_sample.
  rewrite to_short_idem. reflexivity.
Qed.

Lemma window_body_to_short (ft : Z) (blk : list Z) (c : Call) :
  window_body ft (map to_short blk) c = window_body ft blk c.
Proof.
  unfold window_body, gate_pass, second_pass.
  rewrite gate_pass_to_short.
  destruct (fold_left gate_step blk _) as [[ma zc] raw].
  rewrite second_pass_to_short. reflexivity.
Qed.

(** X11.  A call sees each element of [samples] through a [short]: it
    does on any array what it does on the array of the low sixteen bits,
    sign extended, of the elements.  The sample 40000 is the sample
    -25536. *)
Theorem samples_count_as_shorts (m : Meter) (samples : list Z)
                                (num_samples ft : Z) :
  process_samples m (map to_short samples) num_samples ft
  = process_samples m samples num_samples ft.
Proof.
  assert (E : forall s, process_window ft (map to_short samples) s
                        = process_window ft samples s).
  { intros [c pos]. unfold process_window.
    rewrite block_map_to_short, window_body_to_short. reflexivity. }
  unfold process_samples. rewrite (iterate_ext _ _ E). reflexivity.
Qed.

(* ------------------------------------------------------------------ *)
(** ** Calls in which the gate lets no window through *)

Lemma window_body_rejected (ft : Z) (blk : list Z) (c : Call) :
  let m := call_meter c in
  max_positive blk < 50
  \/ count_crossings (previous_sample_raw m) blk
     < min_zero_crossings (config m)
  \/ max_zero_crossings (config m)
     < count_crossings (previous_sample_raw m) blk ->
  window_body ft blk c
  = mkCall (set_previous_sample_raw (last_raw (previous_sample_raw m) blk) m)
           (call_freq_sum c) (call_freq_count c).
Proof.
  cbv zeta. intros H. unfold window_body. rewrite gate_pass_spec.
  destruct (max_positive blk <? 50) eqn:E1; [reflexivity|].
  apply Z.ltb_ge in E1. cbn [config set_previous_sample_raw].
  destruct H as [H | H]; [lia|].
  replace ((_ <? _) || (_ <? _)) with true; [reflexivity|].
  symmetry. apply orb_true_iff.
  destruct H as [H | H]; [left | right]; apply Z.ltb_lt; exact H.
Qed.

Lemma set_previous_sample_raw_eta (m : Meter) :
  set_previous_sample_raw (previous_sample_raw m) m = m.
Proof. destruct m. reflexivity. Qed.

(** When no block the call can look at passes the gate, the call moves
    [previous_sample_raw] and nothing else. *)
Lemma all_windows_rejected (m : Meter) (samples : list Z)
                           (num_samples ft : Z) :
  (forall pos r,
      let blk := block samples pos (samples_per_100ms (config m)) in
      max_positive blk < 50
      \/ count_crossings r blk < min_zero_crossings (config m)
      \/ max_zero_crossings (config m) < count_crossings r blk) ->
  only_gate_moved m (fst (process_samples m samples num_samples ft)).
Proof.
  intros H. unfold only_gate_moved, process_samples.
  destruct (num_samples <? _);
    [cbn [fst]; symmetry; apply set_previous_sample_raw_eta|].
  cbn [fst].
  assert (K : exists r,
             fst (iterate 100 (process_window ft samples) (mkCall m 0 0, 0))
             = mkCall (set_previous_sample_raw r m) 0 0).
  { apply (iterate_inv
             (fun s : Call * Z =>
                exists r, fst s = mkCall (set_previous_sample_raw r m) 0 0)).
    - intros [c pos] [r E]. cbn [fst] in E. subst c.
      unfold process_window. cbn [fst call_meter config
                                  set_previous_sample_raw].
      rewrite window_body_rejected
        by (cbn [call_meter config set_previous_sample_raw
                 previous_sample_raw]; apply H).
      eexists. reflexivity.
    - exists (previous_sample_raw m). cbn [fst].
      rewrite set_previous_sample_raw_eta. reflexivity. }
  destruct K as [r K]. rewrite K. reflexivity.
Qed.

Lemma max_positive_small (blk : list Z) (k : Z) :
  0 < k -> (forall x, In x blk -> to_short x < k) -> max_positive blk < k.
Proof.
  intros Hk. unfold max_positive.
  induction blk as [|x t IH]; intros H; cbn [map fold_right]; [lia|].
  assert (to_short x < k) by (apply H; left; reflexivity).
  assert (fold_right Z.max 0 (map to_short t) < k)
    by (apply IH; intros y Hy; apply H; right; exact Hy).
  lia.
Qed.

Lemma In_block (samples : list Z) (pos n x : Z) :
  In x (block samples pos n) -> In x samples \/ x = 0.
Proof.
  unfold block. intros H. apply in_map_iff in H.
  destruct H as (i & <- & _).
  destruct (nth_in_or_default (Z.to_nat (pos + Z.of_nat i)) samples 0)
    as [A | A]; [left; exact A | right; exact A].
Qed.

(** X12.  A call on samples that all lie below 50 once read as [short]s
    -- a level below the gate's threshold, or a signal that stays
    negative however large -- moves [previous_sample_raw] and nothing
    else: no filter runs, no ring and no index moves, and [get_results]
    gives what it gave before. *)
Theorem low_level_changes_nothing (m : Meter) (samples : list Z)
                                  (num_samples ft : Z) :
  (forall x, In x samples -> to_short x < 50) ->
  let m' := fst (process_samples m samples num_samples ft) in
  only_gate_moved m m' /\ get_results m' = get_results m.
Proof.
  intros H m'.
  assert (K : only_gate_moved m m').
  { apply all_windows_rejected. intros pos r blk. left.
    apply max_positive_small; [lia|].
    intros x Hx. destruct (In_block _ _ _ _ Hx) as [A | ->];
      [apply H, A | vm_compute; reflexivity]. }
  split; [exact K|]. rewrite K. reflexivity.
Qed.

Lemma low_level_changes_nothing_witness :
  let m := fst (process_samples (flutterMeter_init power_on 10 5)
                                (30000 :: repeat 50 99) 100 0) in
  let samples := repeat (-20000) 50 ++ repeat 49 50 in
  let m' := fst (process_samples m samples 100 0) in
  (forall x, In x samples -> to_short x < 50)
  /\ only_gate_moved m m' /\ get_results m' = get_results m
  /\ previous_sample_raw m' <> previous_sample_raw m.
Proof.
  intros m samples m'.
  assert (H : forall x, In x samples -> to_short x < 50).
  { intros x Hx. apply in_app_or in Hx.
    destruct Hx as [Hx | Hx]; apply repeat_spec in Hx; subst x;
      vm_compute; reflexivity. }
  split; [exact H|].
  destruct (low_level_changes_nothing m samples 100 0 H) as (A & B).
  split; [exact A|]. split; [exact B|].
  vm_compute. discriminate.
Defined.

Lemma count_crossings_le (blk : list Z) :
  forall prev, 0 <= count_crossings prev blk <= Z.of_nat (length blk).
Proof.
  induction blk as [|x t IH]; intros prev; cbn [count_crossings length];
    [lia|].
  specialize (IH (to_short x)). destruct (crosses _ _); lia.
Qed.

Lemma length_block (samples : list Z) (pos n : Z) :
  length (block samples pos n) = Z.to_nat n.
Proof. unfold block. rewrite length_map, length_seq. reflexivity. Qed.

(** X13.  When the lower gate bound exceeds the number of samples of a
    window -- a test frequency of more than about half the sample rate
    -- no window can hold enough sign changes: every call moves
    [previous_sample_raw] and nothing else, whatever the samples, and the
    results stay what they were. *)
Theorem bound_above_window_length (m : Meter) (samples : list Z)
                                  (num_samples ft : Z) :
  samples_per_100ms (config m) < min_zero_crossings (config m) ->
  let m' := fst (process_samples m samples num_samples ft) in
  only_gate_moved m m' /\ get_results m' = get_results m.
Proof.
  intros H m'.
  assert (K : only_gate_moved m m').
  { apply all_windows_rejected. intros pos r. cbv zeta.
    pose proof (count_crossings_le
                  (block samples pos (samples_per_100ms (config m))) r) as C.
    rewrite length_block in C.
    destruct (Z.le_gt_cases 0 (samples_per_100ms (config m))) as [N | N].
    - right. left. lia.
    - left. unfold block.
      replace (Z.to_nat (samples_per_100ms (config m))) with 0%nat by lia.
      vm_compute. reflexivity. }
  split; [exact K|]. rewrite K. reflexivity.
Qed.

Lemma bound_above_window_length_witness :
  let hi := flutterMeter_init power_on 100 60 in
  let samples := repeat 30000 5 ++ repeat (-30000) 5 ++ repeat 30000 990 in
  samples_per_100ms (config hi) < min_zero_crossings (config hi)
  /\ only_gate_moved hi (fst (process_samples hi samples 1000 0))
  /\ get_results (fst (process_samples hi samples 1000 0)) = get_results hi.
Proof.
  intros hi samples.
  assert (H : samples_per_100ms (config hi) < min_zero_crossings (config hi))
    by (vm_compute; reflexivity).
  split; [exact H|].
  apply (bound_above_window_length hi samples 1000 0 H).
Defined.

(* ------------------------------------------------------------------ *)
(** ** When the results change *)

(** X14.  The results that [get_results] reads change at the close of the
    tenth valid window of a second and nowhere else: a window that finds
    the one-second index at another value than 9 leaves the three results
    as they are, whether it is rejected or goes through the second pass
    and is closed. *)
Theorem results_wait_for_tenth_window (ft : Z) (blk : list Z) (c : Call) :
  rms_1sec_buffer_index (windows (call_meter c)) <> 9 ->
  get_results (call_meter (window_body ft blk c))
  = get_results (call_meter c).
Proof.
  intros H.
  assert (R : results (call_meter (window_body ft blk c))
              = results (call_meter c)).
  { unfold window_body.
    destruct (gate_pass _ blk) as [[ma zc] raw].
    destruct (ma <? 50); [reflexivity|].
    destruct (_ || _); [reflexivity|].
    match goal with
    | |- context [second_pass ft ?m0 ?l0 blk] =>
        pose proof (second_pass_config ft blk m0 l0) as (_ & _ & A);
        pose proof (second_pass_peak ft blk (m0, l0)) as ((B & _) & _);
        unfold second_pass;
        unfold second_pass in A;
        destruct (fold_left (dsp_sample ft) blk (m0, l0)) as [m2 l2]
    end.
    cbn [fst call_meter results windows set_previous_sample_raw] in *.
    rewrite <- A. unfold close_window. rewrite B.
    destruct (_ + 1 =? 10) eqn:E; [apply Z.eqb_eq in E; lia|].
    reflexivity. }
  unfold get_results. rewrite R. reflexivity.
Qed.

Lemma results_wait_for_tenth_window_witness :
  let c := mkCall (flutterMeter_init power_on 10 5) 0 0 in
  rms_1sec_buffer_index (windows (call_meter c)) <> 9
  /\ rms_1sec_buffer_index
       (windows (call_meter (window_body 0 [30000] c))) = 1
  /\ get_results (call_meter (window_body 0 [30000] c))
     = get_results (call_meter c).
Proof.
  intros c.
  assert (H : rms_1sec_buffer_index (windows (call_meter c)) <> 9)
    by (vm_compute; discriminate).
  split; [exact H|]. split; [vm_compute; reflexivity|].
  apply (results_wait_for_tenth_window 0 [30000] c H).
Defined.

(* ------------------------------------------------------------------ *)
(** ** The gate over adjacent blocks *)

Lemma max_positive_app (b1 b2 : list Z) :
  max_positive (b1 ++ b2) = Z.max (max_positive b1) (max_positive b2).
Proof.
  unfold max_positive. induction b1 as [|x t IH]; cbn [app map fold_right].
  - assert (0 <= fold_right Z.max 0 (map to_short b2))
      by (induction (map to_short b2); simpl; lia).
    lia.
  - rewrite IH. lia.
Qed.

Lemma last_raw_app (prev : Z) (b1 b2 : list Z) :
  last_raw prev (b1 ++ b2) = last_raw (last_raw prev b1) b2.
Proof.
  unfold last_raw. revert prev.
  induction b1 as [|x t IH]; intros prev; [reflexivity|].
  cbn [app map]. rewrite !last_cons. apply IH.
Qed.

Lemma count_crossings_app (b1 b2 : list Z) :
  forall prev,
    count_crossings prev (b1 ++ b2)
    = count_crossings prev b1 + count_crossings (last_raw prev b1) b2.
Proof.
  induction b1 as [|x t IH]; intros prev.
  - reflexivity.
  - cbn [app count_crossings]. rewrite IH.
    unfold last_raw. cbn [map]. rewrite last_cons. lia.
Qed.

(** X15.  The first pass over two adjacent blocks, the second started
    from the [previous_sample_raw] the first leaves, finds what one pass
    over the two blocks as one finds: the larger of the two maxima, the sum
    of the two counts of sign changes, and the last sample.  A sign change
    between the last sample of a block and the first of the next is
    counted, in the later block; this holds across two calls as well,
    since [previous_sample_raw] is static. *)
Theorem gate_pass_adjacent (prev : Z) (b1 b2 : list Z) :
  gate_pass prev (b1 ++ b2)
  = (let '(max1, count1, raw1) := gate_pass prev b1 in
     let '(max2, count2, raw2) := gate_pass raw1 b2 in
     (Z.max max1 max2, count1 + count2, raw2)).
Proof.
  rewrite !gate_pass_spec.
  rewrite max_positive_app, count_crossings_app, last_raw_app.
  reflexivity.
Qed.

Lemma window_body_raw (ft : Z) (blk : list Z) (c : Call) :
  previous_sample_raw (call_meter (window_body ft blk c))
  = last_raw (previous_sample_raw (call_meter c)) blk.
Proof.
  unfold window_body. rewrite gate_pass_spec.
  destruct (_ <? 50); [reflexivity|].
  destruct (_ || _); [reflexivity|].
  match goal with
  | |- context [second_pass ft ?m0 ?l0 blk] =>
      pose proof (second_pass_config ft blk m0 l0) as (_ & A & _);
      destruct (second_pass ft m0 l0 blk) as [m2 l2]
  end.
  cbn [fst call_meter previous_sample_raw set_previous_sample_raw] in *.
  destruct (close_window_config m2 l2) as (_ & B). rewrite B. exact A.
Qed.

Lemma windows_raw (ft : Z) (chs : list (list Z)) :
  forall c,
    previous_sample_raw
      (call_meter (fold_left (fun c blk => window_body ft blk c) chs c))
    = last_raw (previous_sample_raw (call_meter c)) (concat chs).
Proof.
  induction chs as [|blk t IH]; intros c; [reflexivity|].
  cbn [fold_left concat]. rewrite IH, window_body_raw, last_raw_app.
  reflexivity.
Qed.

Lemma firstn_sum {A : Type} (a b : nat) :
  forall l : list A,
    firstn (a + b) l = firstn a l ++ firstn b (skipn a l).
Proof.
  induction a as [|a IH]; intros l; [reflexivity|].
  destruct l as [|x t]; [cbn; rewrite firstn_nil; reflexivity|].
  cbn [Nat.add firstn skipn app]. rewrite IH. reflexivity.
Qed.

Lemma concat_chunks (n k : nat) :
  forall l, concat (chunks n k l) = firstn (k * n) l.
Proof.
  induction k as [|k IH]; intros l; [reflexivity|].
  cbn [chunks concat]. rewrite IH.
  change (S k * n)%nat with (n + k * n)%nat.
  rewrite firstn_sum. reflexivity.
Qed.

(** X16.  After a call that is not refused, [previous_sample_raw] is the
    last of the [100 * samples_per_100ms] samples the call has looked at,
    as a [short] -- whether the windows were valid or not -- and the value
    of before when the window length is zero. *)
Theorem gate_sample_after_call (m : Meter) (body extra : list Z)
                               (num_samples ft : Z) :
  in_int (samples_per_100ms (config m) * 100) ->
  100 * samples_per_100ms (config m) <= num_samples ->
  Z.of_nat (length body) = 100 * samples_per_100ms (config m) ->
  previous_sample_raw
    (fst (process_samples m (body ++ extra) num_samples ft))
  = last_raw (previous_sample_raw m) body.
Proof.
  intros Hprod Hge Hlen. unfold process_samples.
  rewrite (wrap_int_id _ Hprod).
  set (n := samples_per_100ms (config m)) in *.
  destruct (num_samples <? n * 100) eqn:E; [apply Z.ltb_lt in E; lia|].
  cbn [fst].
  pose proof (windows_chunks ft (body ++ extra) 100 (mkCall m 0 0) 0%nat)
    as W.
  cbn [call_meter Z.of_nat skipn] in W. fold n in W.
  rewrite W; [|lia | rewrite length_app; lia].
  rewrite chunks_app by lia.
  rewrite windows_raw, concat_chunks. cbn [call_meter].
  rewrite firstn_all2 by lia. reflexivity.
Qed.

Lemma gate_sample_after_call_witness :
  let m := flutterMeter_init power_on 10 5 in
  let body := 30000 :: repeat 50 98 ++ [65536 + 7] in
  in_int (samples_per_100ms (config m) * 100)
  /\ 100 * samples_per_100ms (config m) <= 103
  /\ Z.of_nat (length body) = 100 * samples_per_100ms (config m)
  /\ previous_sample_raw (fst (process_samples m (body ++ [1; 2; 3]) 103 0))
     = 7.
Proof.
  intros m body.
  assert (H1 : in_int (samples_per_100ms (config m) * 100))
    by (vm_compute; split; discriminate).
  assert (H2 : 100 * samples_per_100ms (config m) <= 103)
    by (vm_compute; discriminate).
  assert (H3 : Z.of_nat (length body) = 100 * samples_per_100ms (config m))
    by (vm_compute; reflexivity).
  split; [exact H1|]. split; [exact H2|]. split; [exact H3|].
  exact (gate_sample_after_call m body [1; 2; 3] 103 0 H1 H2 H3).
Defined.

(* ------------------------------------------------------------------ *)
(** ** The test program *)

(** X17.  From a file with two channels the sample loop of [main] takes
    the words at the even positions of the data, that is channel 0: sample
    [i] is word [2 i]. *)
Theorem read_samples_stereo (n : nat) (words : list Z) :
  (2 * n <= length words)%nat ->
  read_samples n 2 words = map (fun i => nth (2 * i) words 0) (seq 0 n).
Proof.
  revert words. induction n as [|k IH]; intros words H; [reflexivity|].
  destruct words as [|a [|b rest]]; try (simpl in H; lia).
  cbn [read_samples hd tl Z.eqb Pos.eqb seq map].
  rewrite IH by (simpl in H; lia).
  rewrite <- seq_shift, map_map. f_equal.
  apply map_ext. intros i.
  replace (2 * S i)%nat with (S (S (2 * i))) by lia. reflexivity.
Qed.

Lemma read_samples_stereo_witness :
  let words := [11; -1; 12; -2; 13; -3; 14] in
  (2 * 3 <= length words)%nat
  /\ read_samples 3 2 words = [11; 12; 13].
Proof.
  intros words.
  assert (H : (2 * 3 <= length words)%nat) by (simpl; lia).
  split; [exact H|].
  exact (read_samples_stereo 3 words H).
Defined.

(** X18.  For any other number of channels the loop skips nothing: the
    samples are the first [numSamples] words of the data.  That is channel
    0 of a file with one channel; of a file with three channels or more it
    is the first [1 / numChannels] of the frames with their channels
    interleaved, and not channel 0. *)
Theorem read_samples_not_stereo (n : nat) (channels : Z) (words : list Z) :
  channels <> 2 ->
  (n <= length words)%nat ->
  read_samples n channels words = firstn n words.
Proof.
  intros Hc. apply Z.eqb_neq in Hc.
  revert words. induction n as [|k IH]; intros words H; [reflexivity|].
  destruct words as [|a rest]; [simpl in H; lia|].
  cbn [read_samples hd tl firstn]. rewrite Hc.
  rewrite IH by (simpl in H; lia). reflexivity.
Qed.

Lemma read_samples_not_stereo_witness :
  let words := [11; -1; 100; 12; -2; 200] in
  3 <> 2
  /\ (2 <= length words)%nat
  /\ read_samples 2 3 words = [11; -1].
Proof.
  intros words.
  assert (H1 : 3 <> 2) by discriminate.
  assert (H2 : (2 <= length words)%nat) by (simpl; lia).
  split; [exact H1|]. split; [exact H2|].
  exact (read_samples_not_stereo 2 3 words H1 H2).
Defined.

(** X19.  On a 16-bit PCM file with at least one channel that holds some
    samples per channel but less than a hundred windows of them, about ten
    seconds, [main] gets -1 from [process_samples] and prints the three
    results as [0.0]: it goes on to [get_results] after the error, and the
    statics hold what [flutterMeter_init] put there.  (With no channel the
    program is killed by the division that computes [numSamples] and
    prints nothing.) *)
Theorem short_file_prints_zeros (w : Wav) :
  audioFormat w = 1 ->
  bitsPerSample w = 16 ->
  0 < numChannels w ->
  0 <= sampleRate w ->
  in_int (sampleRate w / 10 * 100) ->
  0 < dataSize w / 2 / numChannels w < sampleRate w / 10 * 100 ->
  main_from_data w = Printed (-1) (0%float, 0%float, 0%float).
Proof.
  intros Ha Hb Hc Hs Hp Hn. unfold main_from_data, num_samples_of.
  rewrite Ha, Hb. cbn [Z.eqb Pos.eqb negb].
  change (16 / 8) with 2. change (2 =? 0) with false. cbn [orb].
  replace (numChannels w =? 0) with false
    by (symmetry; apply Z.eqb_neq; lia).
  assert (Hr : wrap_int (sampleRate w) = sampleRate w).
  { apply wrap_int_id. unfold in_int, INT_MIN, INT_MAX in *.
    pose proof (Z.mul_div_le (sampleRate w) 10).
    pose proof (Z.mod_pos_bound (sampleRate w) 10).
    pose proof (Z.div_mod (sampleRate w) 10). lia. }
  rewrite Hr.
  rewrite (wrap_int_id (dataSize w / 2 / numChannels w))
    by (unfold in_int, INT_MIN, INT_MAX in *; lia).
  unfold process_samples.
  cbn [flutterMeter_init config samples_per_100ms].
  rewrite Z.quot_div_nonneg by lia.
  rewrite (wrap_int_id _ Hp).
  replace (dataSize w / 2 / numChannels w <? sampleRate w / 10 * 100)
    with true by (symmetry; apply Z.ltb_lt; lia).
  reflexivity.
Qed.

Lemma short_file_prints_zeros_witness :
  let w := mkWav 1 2 100 16 3600 (repeat 30000 1800) in
  audioFormat w = 1
  /\ bitsPerSample w = 16
  /\ 0 < numChannels w
  /\ 0 <= sampleRate w
  /\ in_int (sampleRate w / 10 * 100)
  /\ 0 < dataSize w / 2 / numChannels w < sampleRate w / 10 * 100
  /\ main_from_data w = Printed (-1) (0%float, 0%float, 0%float)
  /\ main_from_data (mkWav 1 0 100 16 3600 (repeat 30000 1800)) = Killed.
Proof.
  intros w.
  assert (H1 : audioFormat w = 1) by reflexivity.
  assert (H2 : bitsPerSample w = 16) by reflexivity.
  assert (H3 : 0 < numChannels w) by (vm_compute; reflexivity).
  assert (H4 : 0 <= sampleRate w) by (vm_compute; discriminate).
  assert (H5 : in_int (sampleRate w / 10 * 100))
    by (vm_compute; split; discriminate).
  assert (H6 : 0 < dataSize w / 2 / numChannels w < sampleRate w / 10 * 100)
    by (vm_compute; split; reflexivity).
  split; [exact H1|]. split; [exact H2|]. split; [exact H3|].
  split; [exact H4|]. split; [exact H5|]. split; [exact H6|].
  split; [|reflexivity].
  apply (short_file_prints_zeros w H1 H2 H3 H4 H5 H6).
Defined.

(* ------------------------------------------------------------------ *)
(** ** Initialisation and the degenerate window *)

(** X20.  [flutterMeter_init] forgets an earlier [flutterMeter_init]:
    called twice it leaves what its second call alone leaves, whatever the
    arguments of the first; with the same arguments it is idempotent. *)
Theorem init_forgets_init (m : Meter) (sample_rate1 sample_rate2 : Z)
                          (test_frequency1 test_frequency2 : float) :
  flutterMeter_init (flutterMeter_init m sample_rate1 test_frequency1)
                    sample_rate2 test_frequency2
  = flutterMeter_init m sample_rate2 test_frequency2.
Proof. reflexivity. Qed.

Lemma window_body_empty (ft : Z) (c : Call) : window_body ft [] c = c.
Proof.
  unfold window_body. cbn [gate_pass fold_left].
  change (0 <? 50) with true. cbv iota.
  rewrite set_previous_sample_raw_eta. destruct c. reflexivity.
Qed.

(** X21.  With a window length of zero -- the statics before any
    [flutterMeter_init], or a sample rate below 10 -- a call with a count
    that is not negative returns 0 and changes nothing at all: it runs a
    hundred empty windows.  A negative count gives -1. *)
Theorem zero_window_length_is_noop (m : Meter) (samples : list Z)
                                   (num_samples ft : Z) :
  samples_per_100ms (config m) = 0 ->
  process_samples m samples num_samples ft
  = (m, if num_samples <? 0 then -1 else 0).
Proof.
  intros H. unfold process_samples. rewrite H.
  change (wrap_int (0 * 100)) with 0.
  destruct (num_samples <? 0); [reflexivity|].
  f_equal.
  assert (K : forall k pos,
             iterate k (process_window ft samples) (mkCall m 0 0, pos)
             = (mkCall m 0 0, pos)).
  { induction k as [|k IH]; intros pos; [reflexivity|].
    cbn [iterate]. unfold process_window at 2.
    cbn [call_meter]. rewrite H. unfold block. cbn [Z.to_nat seq map].
    rewrite window_body_empty, Z.add_0_r. apply IH. }
  rewrite K. reflexivity.
Qed.

Lemma zero_window_length_is_noop_witness :
  samples_per_100ms (config power_on) = 0
  /\ process_samples power_on [30000; -30000; 30000] 3 1 = (power_on, 0)
  /\ samples_per_100ms (config (flutterMeter_init power_on 9 3150)) = 0.
Proof.
  assert (H : samples_per_100ms (config power_on) = 0) by reflexivity.
  split; [exact H|]. split; [|reflexivity].
  exact (zero_window_length_is_noop power_on [30000; -30000; 30000] 3 1 H).
Defined.

(* ------------------------------------------------------------------ *)
(** ** The published frequency *)

(** A window leaves the published frequency as it is or sets it to the
    quotient of the two accumulators as they are after the window. *)
Lemma window_body_frequency (ft : Z) (blk : list Z) (c : Call) :
  let c' := window_body ft blk c in
  result_frequency_hz (results (call_meter c'))
  = result_frequency_hz (results (call_meter c))
  \/ (0 < call_freq_count c'
      /\ result_frequency_hz (results (call_meter c'))
         = (call_freq_sum c' / int_to_double (call_freq_count c'))%float).
Proof.
  cbv zeta. unfold window_body.
  destruct (gate_pass _ blk) as [[ma zc] raw].
  destruct (ma <? 50); [left; reflexivity|].
  destruct (_ || _); [left; reflexivity|].
  match goal with
  | |- context [second_pass ft ?m0 ?l0 blk] =>
      pose proof (second_pass_config ft blk m0 l0) as (_ & _ & A);
      unfold second_pass; unfold second_pass in A;
      destruct (fold_left (dsp_sample ft) blk (m0, l0)) as [m2 l2]
  end.
  cbn [fst snd call_meter call_freq_sum call_freq_count results
       set_previous_sample_raw] in *.
  rewrite <- A. unfold close_window.
  destruct (_ =? 10); [|left; reflexivity].
  destruct (scan _ _). cbn [results result_frequency_hz].
  destruct (0 <? freq_count_5sec l2) eqn:E; [|left; reflexivity].
  right. split; [apply Z.ltb_lt, E | reflexivity].
Qed.

(** X22.  The two accumulators of the frequency live as long as the call
    and no window resets them: after any number of windows of a call,
    [freq_sum_5sec] is the sum, in order and from [0.0], of every value of
    [measured_frequency_hz] at a crossing measured since the call began,
    and [freq_count_5sec] is their number.  A window leaves the published
    frequency as it is or sets it to the quotient of the two, that is to
    the mean of the frequencies measured since the call began and not over
    the last seconds. *)
Theorem frequency_is_call_average (ft : Z) (samples : list Z) (m : Meter)
                                  (k : nat) :
  let c := fst (iterate k (process_window ft samples) (call_start m)) in
  let c' := fst (iterate (S k) (process_window ft samples) (call_start m)) in
  let fs := call_freqs ft samples (S k) (call_start m) in
  call_freq_sum c' = fsum fs
  /\ call_freq_count c' = Z.of_nat (length fs)
  /\ (result_frequency_hz (results (call_meter c'))
      = result_frequency_hz (results (call_meter c))
      \/ (fs <> []
          /\ result_frequency_hz (results (call_meter c'))
             = (fsum fs / int_to_double (Z.of_nat (length fs)))%float)).
Proof.
  cbv zeta.
  destruct (call_freqs_spec ft samples (S k) (call_start m)) as (A & B).
  cbn [call_start fst call_freq_sum call_freq_count] in A, B.
  rewrite Z.add_0_l in B.
  change (elapsed 0 (call_freqs ft samples (S k) (call_start m)))
    with (fsum (call_freqs ft samples (S k) (call_start m))) in A.
  split; [exact A|]. split; [exact B|].
  rewrite <- A, <- B.
  rewrite iterate_last, process_window_body.
  match goal with
  | |- context [window_body ft ?blk ?c] =>
      destruct (window_body_frequency ft blk c) as [E | [P E]]
  end; [left; exact E|].
  right. split; [|exact E].
  rewrite iterate_last, process_window_body in B.
  intros N. rewrite N in B. cbn [length Z.of_nat] in B. lia.
Qed.

(* ------------------------------------------------------------------ *)
(** ** The published RMS *)

Lemma running_max_step (start x : float) :
  not_below_zero start ->
  not_below_zero (if (start <? x)%float then x else start).
Proof.
  intros (N & B). destruct (start <? x)%float eqn:E; [|split; assumption].
  split.
  - rewrite ltb_spec in E. apply SFltb_number in E. apply E.
  - destruct (x <? 0)%float eqn:E2; [|reflexivity].
    rewrite (ltb_trans _ _ _ E E2) in B. discriminate.
Qed.

(** The scan of an array that is zero off some slots is the scan of those
    slots. *)
Lemma running_max_filter (a : list float) (keep : nat -> bool)
                         (idxs : list nat) :
  (forall i, keep i = false -> rd a i = 0%float) ->
  forall start,
    not_below_zero start ->
    running_max (map (rd a) idxs) start
    = running_max (map (rd a) (filter keep idxs)) start.
Proof.
  intros Hz. unfold running_max.
  induction idxs as [|i t IH]; intros start Hs; [reflexivity|].
  cbn [map filter fold_left].
  destruct (keep i) eqn:K.
  - cbn [map fold_left]. apply IH, running_max_step, Hs.
  - rewrite (Hz i K). destruct Hs as (N & B). rewrite B.
    apply IH. split; assumption.
Qed.

Lemma scan_five_slots (rms peaks : list float) :
  (forall i : nat, Z.of_nat i mod 10 <> 0 -> rd rms i = 0%float) ->
  fst (scan rms peaks)
  = running_max (map (rd rms) [0; 10; 20; 30; 40]%nat) 0%float.
Proof.
  intros Hz. unfold scan. rewrite scan_running_max. cbn [fst].
  rewrite (running_max_filter rms (fun i => Z.of_nat i mod 10 =? 0)).
  - reflexivity.
  - intros i K. apply Hz. apply Z.eqb_neq, K.
  - split; [discriminate | reflexivity].
Qed.

(** X23.  In every state of a session the published RMS is the running
    maximum, from [0.0], of the five slots 0, 10, 20, 30 and 40 of the
    ring of RMS values as they are in that state: the maximum of the last
    five one-second values, the ring's other slots never counting. *)
Theorem published_rms_is_max_of_five (m : Meter) (sample_rate : Z)
    (test_frequency : float) (rs : list Request) :
  let m' := session m sample_rate test_frequency rs in
  result_rms_percent (results m')
  = running_max (map (rd (max_rms_array (windows m')))
                     [0; 10; 20; 30; 40]%nat) 0%float.
Proof.
  cbv zeta.
  assert (H : rings_ok (windows (session m sample_rate test_frequency rs))
              /\ result_rms_percent
                   (results (session m sample_rate test_frequency rs))
                 = running_max
                     (map (rd (max_rms_array
                                 (windows (session m sample_rate
                                                   test_frequency rs))))
                          [0; 10; 20; 30; 40]%nat) 0%float);
    [|apply H].
  apply (session_inv
           (fun m' => rings_ok (windows m')
                      /\ result_rms_percent (results m')
                         = running_max
                             (map (rd (max_rms_array (windows m')))
                                  [0; 10; 20; 30; 40]%nat) 0%float)).
  - intros m0 sr tf. split; [|reflexivity].
    apply (session_arrays m0 sr tf []).
  - intros m0 r H. exact H.
  - intros ft s raw (R & E).
    destruct (dsp_sample_measured ft s raw) as (S & _).
    split; [exact (same_rings_ok _ _ S R)|].
    destruct (dsp_sample_config ft s raw) as (_ & _ & A).
    destruct S as (_ & _ & _ & _ & S). rewrite A, S. exact E.
  - intros m0 l (R & E).
    pose proof (close_window_rings_ok m0 l R) as R'.
    split; [exact R'|].
    destruct R' as (_ & _ & _ & _ & _ & _ & Z0).
    revert Z0. unfold close_window.
    destruct (_ =? 10); [|intros _; exact E].
    intros Z0.
    match goal with
    | |- context [scan ?a ?b] =>
        pose proof (scan_five_slots a b) as F;
        destruct (scan a b) as [mr mp]
    end.
    cbn [windows results max_rms_array result_rms_percent fst] in *.
    apply F, Z0.
Qed.
